(** * assistant-bot front end: a shallow embedding of its TypeScript

    The development follows the layout of [frontend/src]:
    - [JS]            the JavaScript values and string operations the code uses,
    - [Engine]        the platform built-ins ([TextDecoder], [JSON.parse]),
    - [SessionList]   [truncateTitle],
    - [Api]           [streamMessage] (request body and SSE consumption),
    - [DocumentManager], [ChatBox], [ImageUploader]: the event handlers.

    JavaScript strings are sequences of UTF-16 code units; React state is a
    record, a handler is a function from the state it closes over to the
    state after its [set...] calls, paired with the trace of its effects. *)

From Stdlib Require Import List ZArith NArith Bool Lia.
From Stdlib Require Strings.Ascii Strings.String Strings.Byte.
From Stdlib Require Numbers.DecimalString.
Import String.StringSyntax.
Delimit Scope string_scope with string.
Bind Scope string_scope with String.string.
From Stdlib Require Import Sorting.Permutation Sorting.Sorted.
Import ListNotations.
Open Scope Z_scope.

Set Warnings "-register-all".

(* ===================================================================== *)
(** * JavaScript strings and arrays *)
(* ===================================================================== *)

Module JS.

(** An octet of a response body. *)
Abbreviation byte := Corelib.Init.Byte.byte.

(** A string is the list of its UTF-16 code units. *)
Definition code_unit := N.
Definition jsstring := list code_unit.

Definition LF : code_unit := 10%N.
Definition QUOTE : code_unit := 34%N.

(** [str.length], [arr.length] *)
Definition len {A} (s : list A) : Z := Z.of_nat (length s).

(** Relative index of [slice]: negative counts from the end, then clamped. *)
Definition clamp_index (n i : Z) : Z :=
  if i <? 0 then Z.max (n + i) 0 else Z.min i n.

(** [s.slice(start, end)] for strings and arrays alike. *)
Definition slice {A} (s : list A) (start end_ : Z) : list A :=
  let from := clamp_index (len s) start in
  let to := clamp_index (len s) end_ in
  firstn (Z.to_nat (to - from)) (skipn (Z.to_nat from) s).

(** [s.slice(start)] *)
Definition slice_from {A} (s : list A) (start : Z) : list A :=
  slice s start (len s).

Fixpoint eqb (a b : jsstring) : bool :=
  match a, b with
  | [], [] => true
  | x :: a', y :: b' => N.eqb x y && eqb a' b'
  | _, _ => false
  end.

(** [s.startsWith(p)] *)
Fixpoint startsWith (p s : jsstring) : bool :=
  match p, s with
  | [], _ => true
  | x :: p', y :: s' => N.eqb x y && startsWith p' s'
  | _ :: _, [] => false
  end.

(** WhiteSpace and LineTerminator code units, the ones [trim] strips. *)
Definition is_space (c : code_unit) : bool :=
  ((9 <=? c) && (c <=? 13) || (c =? 32) || (c =? 160) || (c =? 5760)
   || (8192 <=? c) && (c <=? 8202) || (c =? 8232) || (c =? 8233)
   || (c =? 8239) || (c =? 8287) || (c =? 12288) || (c =? 65279))%N.

Fixpoint trimStart (s : jsstring) : jsstring :=
  match s with
  | c :: r => if is_space c then trimStart r else s
  | [] => []
  end.

Definition trimEnd (s : jsstring) : jsstring := rev (trimStart (rev s)).

(** [s.trim()] *)
Definition trim (s : jsstring) : jsstring := trimEnd (trimStart s).

(** Truthiness of a string: non-empty. *)
Definition truthy (s : jsstring) : bool :=
  match s with [] => false | _ :: _ => true end.

(** [s.split("\n")]: never empty; the last item is the text after the last
    line feed. *)
Fixpoint split_lines (s : jsstring) : list jsstring :=
  match s with
  | [] => [[]]
  | c :: r =>
      if (c =? LF)%N then [] :: split_lines r
      else match split_lines r with
           | l :: ls => (c :: l) :: ls
           | [] => [[c]]
           end
  end.

(** [s.split(",")[1]]: the text between the first and the second comma,
    [undefined] when [s] has no comma. *)
Fixpoint until_comma (s : jsstring) : jsstring :=
  match s with
  | [] => []
  | c :: r => if (c =? 44)%N then [] else c :: until_comma r
  end.

Fixpoint split_comma_1 (s : jsstring) : option jsstring :=
  match s with
  | [] => None
  | c :: r => if (c =? 44)%N then Some (until_comma r) else split_comma_1 r
  end.

(** Values: what [JSON.parse] returns and what property reads give.  A
    number is kept as the decimal [mantissa * 10 ^ exponent] it was written
    as. *)
Inductive value :=
| Undefined
| Null
| Boolean (b : bool)
| Number (mantissa exponent : Z)
| Str (s : jsstring)
| Array (items : list value)
| Object (fields : list (jsstring * value)).

(** ToBoolean.  A written number is falsy when its double is zero: when it
    is zero, or so small that it rounds to zero (at most half of the least
    subnormal, [2 ^ -1075]). *)
Definition number_is_zero (m e : Z) : bool :=
  (m =? 0) || ((e <? 0) && (Z.abs m * 2 ^ 1075 <=? 10 ^ (- e))).

Definition to_boolean (v : value) : bool :=
  match v with
  | Undefined | Null => false
  | Boolean b => b
  | Number m e => negb (number_is_zero m e)
  | Str s => truthy s
  | Array _ | Object _ => true
  end.

(** [a || b] *)
Definition or_else (a b : value) : value := if to_boolean a then a else b.

(** What a script can throw and catch here. *)
Inductive error :=
| SyntaxError                       (* JSON.parse on malformed text *)
| TypeError                         (* property read on null or undefined *)
| Error (message : value)           (* new Error(message) *)
| ApiError (status : Z) (text : jsstring)   (* new Error(`API Error ${status}: ${text}`) *)
| NoResponseBody.                   (* new Error("No response body") *)

(** The last field named [k] of an object literal wins. *)
Fixpoint lookup (k : jsstring) (fields : list (jsstring * value)) : option value :=
  match fields with
  | [] => None
  | (k', v) :: r =>
      match lookup k r with
      | Some w => Some w
      | None => if eqb k k' then Some v else None
      end
  end.

(** [v.k] for a key [k] that no prototype defines ([token], [error],
    [session_id]): a TypeError on null and undefined, the own field of an
    object, [undefined] on everything else. *)
Definition get (v : value) (k : jsstring) : error + value :=
  match v with
  | Undefined | Null => inl TypeError
  | Object fields =>
      inr (match lookup k fields with Some w => w | None => Undefined end)
  | _ => inr Undefined
  end.

(** [arr.sort(comparefn)] on a copy.  A comparison is a number or NaN
    ([None]); [a] goes after [b] when [comparefn(a, b) > 0].  The engine's
    algorithm is its own choice, bound to be stable: a stable insertion. *)
Definition goes_after (v : option Z) : bool :=
  match v with
  | Some z => 0 <? z
  | None => false
  end.

Fixpoint sort_insert {A} (comparefn : A -> A -> option Z) (x : A) (l : list A) : list A :=
  match l with
  | [] => [x]
  | y :: r =>
      if goes_after (comparefn x y) then y :: sort_insert comparefn x r
      else x :: y :: r
  end.

Definition sort {A} (comparefn : A -> A -> option Z) (arr : list A) : list A :=
  fold_right (sort_insert comparefn) [] arr.

(** [Math.ceil(a / b)] on integers, [b] positive *)
Definition ceil_div (a b : Z) : Z := - ((- a) / b).

End JS.

Import JS.

(* ===================================================================== *)
(** * The platform: TextDecoder and JSON.parse *)
(* ===================================================================== *)

(** What the scripts take from the browser.  [decode_byte] is one step of
    the decoder behind [decoder.decode(value, { stream: true })]: a decoder
    consumes its input byte by byte, keeps its state between calls and
    gives the code units that each byte completes.  [JSON_parse] is [None]
    where [JSON.parse] throws. *)
Class Builtins := {
  decoder : Type;
  decoder_init : decoder;
  decode_byte : decoder -> byte -> decoder * jsstring;
  JSON_parse : jsstring -> option value
}.

(** [decoder.decode(value, { stream: true })] on a chunk *)
Fixpoint decode `{Builtins} (d : decoder) (value : list byte) : decoder * jsstring :=
  match value with
  | [] => (d, [])
  | b :: rest =>
      let (d1, t1) := decode_byte d b in
      let (d2, t2) := decode d1 rest in
      (d2, t1 ++ t2)
  end.

Module Engine.

(** ** UTF-8, the default encoding of [new TextDecoder()] *)

Record utf8 := {
  code_point : N;
  needed : N;
  seen : N;
  lower : N;
  upper : N;
  bom_seen : bool
}.

Definition utf8_init : utf8 :=
  {| code_point := 0; needed := 0; seen := 0; lower := 128; upper := 191;
     bom_seen := false |}.

Definition utf8_idle (d : utf8) : utf8 :=
  {| code_point := 0; needed := 0; seen := 0; lower := 128; upper := 191;
     bom_seen := bom_seen d |}.

(** A byte met with no sequence open: the state and the code points given. *)
Definition utf8_lead (d : utf8) (b : N) : utf8 * list N :=
  (if b <=? 127 then (utf8_idle d, [b])
   else if (194 <=? b) && (b <=? 223) then
     ({| code_point := N.land b 31; needed := 1; seen := 0;
         lower := 128; upper := 191; bom_seen := bom_seen d |}, [])
   else if (224 <=? b) && (b <=? 239) then
     ({| code_point := N.land b 15; needed := 2; seen := 0;
         lower := if b =? 224 then 160 else 128;
         upper := if b =? 237 then 159 else 191;
         bom_seen := bom_seen d |}, [])
   else if (240 <=? b) && (b <=? 244) then
     ({| code_point := N.land b 7; needed := 3; seen := 0;
         lower := if b =? 240 then 144 else 128;
         upper := if b =? 244 then 143 else 191;
         bom_seen := bom_seen d |}, [])
   else (utf8_idle d, [65533]))%N.

Definition utf8_points (d : utf8) (b : N) : utf8 * list N :=
  (if needed d =? 0 then utf8_lead d b
   else if (b <? lower d) || (upper d <? b) then
     let (d', out) := utf8_lead (utf8_idle d) b in (d', 65533 :: out)
   else
     let cp := N.lor (N.shiftl (code_point d) 6) (N.land b 63) in
     if seen d + 1 =? needed d then (utf8_idle d, [cp])
     else ({| code_point := cp; needed := needed d; seen := seen d + 1;
              lower := 128; upper := 191; bom_seen := bom_seen d |}, []))%N.

(** UTF-16 code units of a code point *)
Definition utf16 (cp : N) : jsstring :=
  (if cp <? 65536 then [cp]
   else [55296 + (cp - 65536) / 1024; 56320 + (cp - 65536) mod 1024])%N.

(** The first code point is dropped when it is the byte order mark. *)
Fixpoint utf8_emit (seen_bom : bool) (points : list N) : bool * jsstring :=
  match points with
  | [] => (seen_bom, [])
  | cp :: r =>
      let (s, out) := utf8_emit true r in
      (s, if negb seen_bom && (cp =? 65279)%N then out else utf16 cp ++ out)
  end.

Definition utf8_step (d : utf8) (b : byte) : utf8 * jsstring :=
  let (d1, points) := utf8_points d (Stdlib.Strings.Byte.to_N b) in
  let (s, out) := utf8_emit (bom_seen d1) points in
  ({| code_point := code_point d1; needed := needed d1; seen := seen d1;
      lower := lower d1; upper := upper d1; bom_seen := s |}, out).

Fixpoint utf8_run (d : utf8) (bytes : list byte) : jsstring :=
  match bytes with
  | [] => []
  | b :: r => let (d', out) := utf8_step d b in out ++ utf8_run d' r
  end.

(** A script literal: the code units of the text between the quotes. *)
Definition js (s : String.string) : jsstring :=
  utf8_run utf8_init (String.list_byte_of_string s).

(** A literal written with apostrophes where the text has double quotes. *)
Definition jsq (s : String.string) : jsstring :=
  map (fun c => if (c =? 39)%N then QUOTE else c) (js s).

Arguments js s%_string.
Arguments jsq s%_string.


(** ** JSON.parse *)

Definition is_json_space (c : code_unit) : bool :=
  ((c =? 32) || (c =? 9) || (c =? 10) || (c =? 13))%N.

Fixpoint skip_space (s : jsstring) : jsstring :=
  match s with
  | c :: r => if is_json_space c then skip_space r else s
  | [] => []
  end.

Definition hex_digit (c : code_unit) : option N :=
  (if (48 <=? c) && (c <=? 57) then Some (c - 48)
   else if (65 <=? c) && (c <=? 70) then Some (c - 55)
   else if (97 <=? c) && (c <=? 102) then Some (c - 87)
   else None)%N.

Definition hex4 (a b c d : code_unit) : option code_unit :=
  match hex_digit a, hex_digit b, hex_digit c, hex_digit d with
  | Some x, Some y, Some z, Some w => Some (((x * 16 + y) * 16 + z) * 16 + w)%N
  | _, _, _, _ => None
  end.

(** The character after a backslash *)
Definition escape (c : code_unit) : option code_unit :=
  (if c =? 34 then Some 34 else if c =? 92 then Some 92
   else if c =? 47 then Some 47 else if c =? 98 then Some 8
   else if c =? 102 then Some 12 else if c =? 110 then Some 10
   else if c =? 114 then Some 13 else if c =? 116 then Some 9
   else None)%N.

Definition cons_char (c : code_unit) (r : option (jsstring * jsstring))
  : option (jsstring * jsstring) :=
  match r with
  | Some (t, rest) => Some (c :: t, rest)
  | None => None
  end.

(** After the opening quote: the string and what follows its closing quote. *)
Fixpoint string_body (s : jsstring) : option (jsstring * jsstring) :=
  match s with
  | [] => None
  | c :: r =>
      if (c =? 34)%N then Some ([], r)
      else if (c =? 92)%N then
        match r with
        | e :: r1 =>
            if (e =? 117)%N then
              match r1 with
              | h1 :: h2 :: h3 :: h4 :: r2 =>
                  match hex4 h1 h2 h3 h4 with
                  | Some u => cons_char u (string_body r2)
                  | None => None
                  end
              | _ => None
              end
            else match escape e with
                 | Some x => cons_char x (string_body r1)
                 | None => None
                 end
        | [] => None
        end
      else if (c <? 32)%N then None
      else cons_char c (string_body r)
  end.

Definition is_digit (c : code_unit) : bool := ((48 <=? c) && (c <=? 57))%N.

(** The longest run of digits at the head of [s], and the rest *)
Fixpoint digits (s : jsstring) : list Z * jsstring :=
  match s with
  | c :: r =>
      if is_digit c
      then let (ds, rest) := digits r in (Z.of_N (c - 48) :: ds, rest)
      else ([], s)
  | [] => ([], [])
  end.

Definition decimal (ds : list Z) : Z :=
  fold_left (fun acc d => acc * 10 + d) ds 0.

Definition sign (s : jsstring) : bool * jsstring :=
  match s with
  | c :: r => if (c =? 45)%N then (true, r) else (false, s)
  | [] => (false, s)
  end.

Definition fraction (s : jsstring) : option (list Z * jsstring) :=
  match s with
  | c :: r =>
      if (c =? 46)%N then
        match digits r with
        | ([], _) => None
        | (fs, rest) => Some (fs, rest)
        end
      else Some ([], s)
  | [] => Some ([], s)
  end.

Definition exponent (s : jsstring) : option (Z * jsstring) :=
  match s with
  | c :: r =>
      if ((c =? 101) || (c =? 69))%N then
        let (neg, r1) :=
          match r with
          | x :: r' => if (x =? 45)%N then (true, r')
                       else if (x =? 43)%N then (false, r') else (false, r)
          | [] => (false, r)
          end in
        match digits r1 with
        | ([], _) => None
        | (es, rest) => Some (if neg then - decimal es else decimal es, rest)
        end
      else Some (0, s)
  | [] => Some (0, s)
  end.

Definition number (s : jsstring) : option (value * jsstring) :=
  let (neg, s1) := sign s in
  match digits s1 with
  | ([], _) => None
  | (d :: more, s2) =>
      if (d =? 0) && negb (match more with [] => true | _ => false end)
      then None
      else
        match fraction s2 with
        | None => None
        | Some (frac, s3) =>
            match exponent s3 with
            | None => None
            | Some (e, s4) =>
                let m := decimal ((d :: more) ++ frac) in
                Some (Number (if neg then - m else m) (e - len frac), s4)
            end
        end
  end.

Definition keyword (word : jsstring) (v : value) (s : jsstring)
  : option (value * jsstring) :=
  if startsWith word s then Some (v, skipn (length word) s) else None.

Fixpoint parse_value (fuel : nat) (s : jsstring) : option (value * jsstring) :=
  match fuel with
  | O => None
  | S f =>
      match skip_space s with
      | [] => None
      | c :: r =>
          if (c =? 34)%N then
            match string_body r with
            | Some (t, rest) => Some (Str t, rest)
            | None => None
            end
          else if (c =? 91)%N then
            match skip_space r with
            | c2 :: r2 =>
                if (c2 =? 93)%N then Some (Array [], r2)
                else match parse_items f r with
                     | Some (vs, rest) => Some (Array vs, rest)
                     | None => None
                     end
            | [] => None
            end
          else if (c =? 123)%N then
            match skip_space r with
            | c2 :: r2 =>
                if (c2 =? 125)%N then Some (Object [], r2)
                else match parse_members f r with
                     | Some (kvs, rest) => Some (Object kvs, rest)
                     | None => None
                     end
            | [] => None
            end
          else if (c =? 110)%N then keyword (js "null") Null (c :: r)
          else if (c =? 116)%N then keyword (js "true") (Boolean true) (c :: r)
          else if (c =? 102)%N then keyword (js "false") (Boolean false) (c :: r)
          else number (c :: r)
      end
  end
with parse_items (fuel : nat) (s : jsstring) : option (list value * jsstring) :=
  match fuel with
  | O => None
  | S f =>
      match parse_value f s with
      | None => None
      | Some (v, rest) =>
          match skip_space rest with
          | c :: r =>
              if (c =? 44)%N then
                match parse_items f r with
                | Some (vs, rest') => Some (v :: vs, rest')
                | None => None
                end
              else if (c =? 93)%N then Some ([v], r)
              else None
          | [] => None
          end
      end
  end
with parse_members (fuel : nat) (s : jsstring)
  : option (list (jsstring * value) * jsstring) :=
  match fuel with
  | O => None
  | S f =>
      match skip_space s with
      | q :: r0 =>
          if (q =? 34)%N then
            match string_body r0 with
            | None => None
            | Some (k, r1) =>
                match skip_space r1 with
                | colon :: r2 =>
                    if (colon =? 58)%N then
                      match parse_value f r2 with
                      | None => None
                      | Some (v, rest) =>
                          match skip_space rest with
                          | c :: r =>
                              if (c =? 44)%N then
                                match parse_members f r with
                                | Some (kvs, rest') => Some ((k, v) :: kvs, rest')
                                | None => None
                                end
                              else if (c =? 125)%N then Some ([(k, v)], r)
                              else None
                          | [] => None
                          end
                      end
                    else None
                | [] => None
                end
            end
          else None
      | [] => None
      end
  end.

(** [JSON.parse(text)]: one value, with nothing but space around it. *)
Definition json_parse (text : jsstring) : option value :=
  match parse_value (2 * length text + 2) text with
  | Some (v, rest) =>
      match skip_space rest with
      | [] => Some v
      | _ :: _ => None
      end
  | None => None
  end.

(** The browser: a UTF-8 [TextDecoder] and [JSON.parse]. *)
Definition browser : Builtins :=
  {| decoder := utf8;
     decoder_init := utf8_init;
     decode_byte := utf8_step;
     JSON_parse := json_parse |}.

End Engine.

Import Engine.

(* ===================================================================== *)
(** * components/SessionList.tsx *)
(* ===================================================================== *)

Module SessionList.

(** [function truncateTitle(title: string, maxLength: number = 25)] *)
Definition truncateTitle (title : jsstring) (maxLength : option Z) : jsstring :=
  let maxLength := match maxLength with Some n => n | None => 25 end in
  if len title <=? maxLength then title
  else slice title 0 maxLength ++ js "...".

End SessionList.

(* ===================================================================== *)
(** * lib/api.ts: streamMessage *)
(* ===================================================================== *)

Module Api.

(** [interface MultimodalChatRequest]; [use_search] and [stream] are never
    set by [streamMessage]. *)
Record MultimodalChatRequest := {
  message : jsstring;
  session_id : option jsstring;
  image : option jsstring;
  image_format : option jsstring
}.

(** [imageData && imageData.trim()], as a condition *)
Definition image_given (imageData : option jsstring) : bool :=
  match imageData with
  | Some d => truthy d && truthy (trim d)
  | None => false
  end.

(** [(message.trim() || (imageData && imageData.trim())) ? message.trim() : " "] *)
Definition effectiveMessage (message : jsstring) (imageData : option jsstring)
  : jsstring :=
  if truthy (trim message) || image_given imageData
  then trim message
  else js " ".

Definition requestBody (message : jsstring) (sessionId imageData imageFormat : option jsstring)
  : MultimodalChatRequest :=
  {| message := effectiveMessage message imageData;
     session_id := sessionId;
     image := if image_given imageData then imageData else None;
     image_format :=
       if image_given imageData
       then Some (match imageFormat with
                  | Some f => if truthy f then f else js "png"
                  | None => js "png"
                  end)
       else None |}.

(** The response of [fetch]: [body] is [None] when [response.body] is null,
    otherwise the chunks that the reader's successive [read()] calls give
    before [done]. *)
Record Response := {
  ok : bool;
  status : Z;
  text : jsstring;
  body : option (list (list byte))
}.

(** A successful response whose body arrives in [chunks] *)
Definition response_of (chunks : list (list byte)) : Response :=
  {| ok := true; status := 200; text := []; body := Some chunks |}.

(** What a run of the generator does, in order. *)
Inductive effect :=
| LogRequest (b : MultimodalChatRequest)      (* console.log("Sending request:", ...) *)
| Fetch (b : MultimodalChatRequest)           (* POST API.stream *)
| LogApiError (status : Z) (text : jsstring)  (* console.error("API Error:", ...) *)
| Yield (v : value)                           (* yield ... *)
| LogParseFailure (data : jsstring) (e : error).
                                              (* console.error("Failed to parse SSE data:", data, e) *)

(** How a block of statements ends: it falls through with a new state,
    it executes [return], or it throws. *)
Inductive completion (A : Type) :=
| Normal (a : A)
| Return
| Throw (e : error).
Arguments Normal {A} a.
Arguments Return {A}.
Arguments Throw {A} e.

(** [currentEvent] and [sessionIdRef.current] *)
Record cursor := {
  currentEvent : jsstring;
  sessionIdRef : value
}.

Definition yields (out : list effect) : list value :=
  flat_map (fun e => match e with Yield v => [v] | _ => [] end) out.

Section StreamMessage.
Context `{Builtins}.

(** The body of the [try] block of a data line. *)
Definition dispatch (c : cursor) (data : jsstring) : list effect * completion cursor :=
  match JSON_parse data with
  | None => ([], Throw SyntaxError)
  | Some parsed =>
      if eqb (currentEvent c) (js "metadata") then
        match get parsed (js "session_id") with
        | inl e => ([], Throw e)
        | inr v => ([], Normal {| currentEvent := currentEvent c; sessionIdRef := v |})
        end
      else if eqb (currentEvent c) (js "token") then
        match get parsed (js "token") with
        | inl e => ([], Throw e)
        | inr v => ([Yield (or_else v (Str []))], Normal c)
        end
      else if eqb (currentEvent c) (js "done") then ([], Return)
      else if eqb (currentEvent c) (js "error") then
        match get parsed (js "error") with
        | inl e => ([], Throw e)
        | inr v => ([], Throw (Error (or_else v (Str (js "Unknown error")))))
        end
      else ([], Normal c)
  end.

(** [try { ... } catch (e) { console.error("Failed to parse SSE data:", data, e); }] *)
Definition on_data (c : cursor) (data : jsstring) : list effect * completion cursor :=
  match dispatch c data with
  | (out, Throw e) => (out ++ [LogParseFailure data e], Normal c)
  | r => r
  end.

(** The body of [for (const line of lines)] *)
Definition on_line (c : cursor) (line : jsstring) : list effect * completion cursor :=
  if eqb (trim line) [] then ([], Normal c)
  else if startsWith (js "event: ") line then
    ([], Normal {| currentEvent := trim (slice_from line 7);
                   sessionIdRef := sessionIdRef c |})
  else if startsWith (js "data: ") line then on_data c (slice_from line 6)
  else ([], Normal c).

Fixpoint for_lines (c : cursor) (lines : list jsstring) : list effect * completion cursor :=
  match lines with
  | [] => ([], Normal c)
  | line :: rest =>
      match on_line c line with
      | (out, Normal c') =>
          let (out', r) := for_lines c' rest in (out ++ out', r)
      | r => r
      end
  end.

(** [while (true) { const { done, value } = await reader.read(); ... }] *)
Fixpoint read_loop (d : decoder) (buffer : jsstring) (c : cursor)
    (chunks : list (list byte)) : list effect * completion unit :=
  match chunks with
  | [] => ([], Normal tt)
  | value :: more =>
      let (d', decoded) := decode d value in
      let lines := split_lines (buffer ++ decoded) in
      let buffer' := last lines [] in
      match for_lines c (removelast lines) with
      | (out, Normal c') =>
          let (out', r) := read_loop d' buffer' c' more in (out ++ out', r)
      | (out, Return) => (out, Return)
      | (out, Throw e) => (out, Throw e)
      end
  end.

Definition initial_cursor (sessionId : option jsstring) : cursor :=
  {| currentEvent := [];
     sessionIdRef := match sessionId with Some s => Str s | None => Undefined end |}.

(** [streamMessage(message, sessionId, imageData, imageFormat)], run to its
    end against the response [r] of the request it sends, where [fetch],
    [response.text()] and every read settle without a rejection; the runs
    in which one of them is rejected are those of [StreamNetwork]. *)
Definition streamMessage (message : jsstring) (sessionId imageData imageFormat : option jsstring)
    (r : Response) : list effect * completion unit :=
  let b := requestBody message sessionId imageData imageFormat in
  if negb (ok r) then
    ([LogRequest b; Fetch b; LogApiError (status r) (text r)],
     Throw (ApiError (status r) (text r)))
  else
    match body r with
    | None => ([LogRequest b; Fetch b], Throw NoResponseBody)
    | Some chunks =>
        let (out, res) := read_loop decoder_init [] (initial_cursor sessionId) chunks in
        (LogRequest b :: Fetch b :: out, res)
    end.

(** The fragments that the caller's [for await] receives when the body of
    the response arrives in [chunks]. *)
Definition tokens_received (message : jsstring)
    (sessionId imageData imageFormat : option jsstring)
    (chunks : list (list byte)) : list value :=
  yields (fst (streamMessage message sessionId imageData imageFormat
                 (response_of chunks))).

End StreamMessage.

(** ** The wire format of an event stream *)

Record sse_event := {
  ev_type : jsstring;
  ev_data : jsstring
}.

(** An event on the wire: its [event:] line, its [data:] line, a blank line. *)
Definition wire (ev : sse_event) : jsstring :=
  js "event: " ++ ev_type ev ++ [LF] ++ js "data: " ++ ev_data ev ++ [LF; LF].

Definition wire_all (evs : list sse_event) : jsstring := flat_map wire evs.

(** A well-formed event: its name and its data hold no line feed, and the
    name has no space around it. *)
Definition no_lf (t : jsstring) : bool := forallb (fun c => negb (c =? LF)%N) t.

Definition wf_event (ev : sse_event) : bool :=
  no_lf (ev_type ev) && no_lf (ev_data ev) && eqb (trim (ev_type ev)) (ev_type ev).

(** ** Whole-stream readings of an event stream *)

(** The lines of a text that a line feed ends. *)
Definition complete_lines (t : jsstring) : list jsstring := removelast (split_lines t).

(** The text of a whole body. *)
Definition decode_text `{Builtins} (bytes : list byte) : jsstring :=
  snd (decode decoder_init bytes).

Section Readings.
Context `{Builtins}.

Definition parses (data : jsstring) : bool :=
  match JSON_parse data with Some _ => true | None => false end.

(** The [token] field of the data of an event, where it can be read. *)
Definition token_field (data : jsstring) : option value :=
  match JSON_parse data with
  | Some parsed =>
      match get parsed (js "token") with
      | inr v => Some v
      | inl _ => None
      end
  | None => None
  end.

(** The reading of the specification, in its words: the [token] fields of
    the [token] events that come before the first [done] event. *)
Fixpoint claimed_tokens (evs : list sse_event) : list value :=
  match evs with
  | [] => []
  | ev :: rest =>
      if eqb (ev_type ev) (js "done") then []
      else if eqb (ev_type ev) (js "token") then
        match token_field (ev_data ev) with
        | Some v => v :: claimed_tokens rest
        | None => claimed_tokens rest
        end
      else claimed_tokens rest
  end.

(** The amended reading: a [done] event ends the stream when its data is
    JSON; a [token] event whose data is JSON other than [null] gives its
    [token] field, or the empty string when that field is missing or falsy. *)
Fixpoint delivered_tokens (evs : list sse_event) : list value :=
  match evs with
  | [] => []
  | ev :: rest =>
      if eqb (ev_type ev) (js "done") && parses (ev_data ev) then []
      else if eqb (ev_type ev) (js "token") then
        match token_field (ev_data ev) with
        | Some v => or_else v (Str []) :: delivered_tokens rest
        | None => delivered_tokens rest
        end
      else delivered_tokens rest
  end.

End Readings.

(** What the caller of the generator sees at its end. *)
Definition forget (r : completion cursor) : completion unit :=
  match r with
  | Normal _ => Normal tt
  | Return => Return
  | Throw e => Throw e
  end.

(** Two endings of a line that leave the loop in the same place, up to
    the session id kept in the cursor. *)
Definition same_event (r r' : completion cursor) : Prop :=
  match r, r' with
  | Normal a, Normal b => currentEvent a = currentEvent b
  | Return, Return => True
  | Throw e, Throw e' => e = e'
  | _, _ => False
  end.

(** The octets of a text of ASCII characters *)
Definition ascii_bytes (t : jsstring) : list byte :=
  flat_map (fun c => match Stdlib.Strings.Byte.of_N c with Some b => [b] | None => [] end) t.

(** The octets of a literal, with apostrophes for double quotes *)
Definition octets (s : String.string) : list byte :=
  map (fun b => match b with
                | Corelib.Init.Byte.x27 => Corelib.Init.Byte.x22
                | _ => b
                end)
      (String.list_byte_of_string s).

(** ** Sample streams *)

Definition event (type data : String.string) : sse_event :=
  {| ev_type := js type; ev_data := jsq data |}.

(** A [done] event whose data is not JSON, then a token. *)
Definition stream_done_plain : list sse_event :=
  [event "done" "[DONE]"; event "token" "{'token':'late'}"].

(** An [error] event, then a token. *)
Definition stream_error_then_token : list sse_event :=
  [event "error" "{'error':'boom'}"; event "token" "{'token':'late'}"].

(** A reply in two tokens, with its metadata and its end. *)
Definition stream_hello : list sse_event :=
  [event "metadata" "{'session_id':'s1'}"; event "token" "{'token':'Hel'}";
   event "token" "{'token':'lo'}"; event "done" "{}"].

(** A token event with no [token] field, then an event with no type line
    of its own, then a data line that no line feed ends. *)
Definition body_loose : jsstring :=
  wire (event "token" "{'text':'x'}")
  ++ js "data: " ++ jsq "{'token':'again'}" ++ [LF; LF]
  ++ js "event: token" ++ [LF] ++ js "data: " ++ jsq "{'token':'cut'}".

(** The octets of [stream_hello], whole and cut inside its lines. *)
Definition body_hello : list byte := ascii_bytes (wire_all stream_hello).

Definition chunks_hello : list (list byte) :=
  [firstn 30 body_hello; firstn 20 (skipn 30 body_hello); []; skipn 50 body_hello].

End Api.

(* ===================================================================== *)
(** * React components: promises and state *)
(* ===================================================================== *)

(** What a [catch (err)] clause receives: an [Error] with its message, or
    any other thrown value. *)
Inductive thrown :=
| AnError (message : jsstring)
| NotAnError.

(** A promise, once settled. *)
Inductive settled (A : Type) :=
| Resolved (a : A)
| Rejected (err : thrown).
Arguments Resolved {A} a.
Arguments Rejected {A} err.

(** [err instanceof Error ? err.message : fallback] *)
Definition message_of (err : thrown) (fallback : jsstring) : jsstring :=
  match err with
  | AnError m => m
  | NotAnError => fallback
  end.

(** [`${n}`] for an integer *)
Definition number_text (n : Z) : jsstring :=
  map (fun a => Stdlib.Strings.Ascii.N_of_ascii a)
      (String.list_ascii_of_string
         (DecimalString.NilZero.string_of_int (Z.to_int n))).

(* ===================================================================== *)
(** * components/DocumentManager.tsx *)
(* ===================================================================== *)

Module DocumentManager.

(** [interface DocumentInfo] *)
Record DocumentInfo := {
  document_id : jsstring;
  source : jsstring;
  chunk_count : Z;
  file_type : option jsstring;
  created_at : option jsstring
}.

(** [interface DocumentListResponse] *)
Record DocumentListResponse := {
  list_documents : list DocumentInfo;
  total_count : Z;
  total_chunks : Z
}.

(** What [uploadDocument] resolves to: [response.json()], with no test of
    [response.ok] and no type of its own.  For a reply of the shape of
    [interface DocumentUploadResponse] every field is there; the reply to
    a refused upload has none of them. *)
Record DocumentUploadResponse := {
  upload_document_id : option jsstring;
  upload_filename : option jsstring;
  upload_status : option jsstring;
  upload_chunk_count : option Z
}.

(** The untyped reply of [ingestUrls]: the handler reads
    [result.documents?.[0]], [.status] and [.chunk_count] and allows each
    to be missing. *)
Record IngestedDocument := {
  ingested_status : option jsstring;
  ingested_chunk_count : option Z
}.

Record IngestResponse := {
  ingested_documents : option (list IngestedDocument)
}.

Record File := { file_name : jsstring }.

Inductive SortType := newest | oldest | name.
Inductive UploadMode := file_mode | url_mode.

(** The [useState] cells of the component. *)
Record State := {
  documents : list DocumentInfo;
  isLoading : bool;
  isUploading : bool;
  isDeleting : option jsstring;
  deleteConfirmOpen : bool;
  addDialogOpen : bool;
  uploadMode : UploadMode;
  docToDelete : option jsstring;
  error : option jsstring;
  successMsg : option jsstring;
  totalCount : Z;
  totalChunks : Z;
  urlInput : jsstring;
  isAddingUrl : bool;
  page : Z;
  sortType : SortType
}.

Definition setDocuments (v : list DocumentInfo) (s : State) : State :=
  {| documents := v; isLoading := isLoading s; isUploading := isUploading s;
     isDeleting := isDeleting s; deleteConfirmOpen := deleteConfirmOpen s;
     addDialogOpen := addDialogOpen s; uploadMode := uploadMode s;
     docToDelete := docToDelete s; error := error s; successMsg := successMsg s;
     totalCount := totalCount s; totalChunks := totalChunks s;
     urlInput := urlInput s; isAddingUrl := isAddingUrl s; page := page s;
     sortType := sortType s |}.

Definition setIsLoading (v : bool) (s : State) : State :=
  {| documents := documents s; isLoading := v; isUploading := isUploading s;
     isDeleting := isDeleting s; deleteConfirmOpen := deleteConfirmOpen s;
     addDialogOpen := addDialogOpen s; uploadMode := uploadMode s;
     docToDelete := docToDelete s; error := error s; successMsg := successMsg s;
     totalCount := totalCount s; totalChunks := totalChunks s;
     urlInput := urlInput s; isAddingUrl := isAddingUrl s; page := page s;
     sortType := sortType s |}.

Definition setIsUploading (v : bool) (s : State) : State :=
  {| documents := documents s; isLoading := isLoading s; isUploading := v;
     isDeleting := isDeleting s; deleteConfirmOpen := deleteConfirmOpen s;
     addDialogOpen := addDialogOpen s; uploadMode := uploadMode s;
     docToDelete := docToDelete s; error := error s; successMsg := successMsg s;
     totalCount := totalCount s; totalChunks := totalChunks s;
     urlInput := urlInput s; isAddingUrl := isAddingUrl s; page := page s;
     sortType := sortType s |}.

Definition setAddDialogOpen (v : bool) (s : State) : State :=
  {| documents := documents s; isLoading := isLoading s; isUploading := isUploading s;
     isDeleting := isDeleting s; deleteConfirmOpen := deleteConfirmOpen s;
     addDialogOpen := v; uploadMode := uploadMode s;
     docToDelete := docToDelete s; error := error s; successMsg := successMsg s;
     totalCount := totalCount s; totalChunks := totalChunks s;
     urlInput := urlInput s; isAddingUrl := isAddingUrl s; page := page s;
     sortType := sortType s |}.

Definition setError (v : option jsstring) (s : State) : State :=
  {| documents := documents s; isLoading := isLoading s; isUploading := isUploading s;
     isDeleting := isDeleting s; deleteConfirmOpen := deleteConfirmOpen s;
     addDialogOpen := addDialogOpen s; uploadMode := uploadMode s;
     docToDelete := docToDelete s; error := v; successMsg := successMsg s;
     totalCount := totalCount s; totalChunks := totalChunks s;
     urlInput := urlInput s; isAddingUrl := isAddingUrl s; page := page s;
     sortType := sortType s |}.

Definition setSuccessMsg (v : option jsstring) (s : State) : State :=
  {| documents := documents s; isLoading := isLoading s; isUploading := isUploading s;
     isDeleting := isDeleting s; deleteConfirmOpen := deleteConfirmOpen s;
     addDialogOpen := addDialogOpen s; uploadMode := uploadMode s;
     docToDelete := docToDelete s; error := error s; successMsg := v;
     totalCount := totalCount s; totalChunks := totalChunks s;
     urlInput := urlInput s; isAddingUrl := isAddingUrl s; page := page s;
     sortType := sortType s |}.

Definition setTotalCount (v : Z) (s : State) : State :=
  {| documents := documents s; isLoading := isLoading s; isUploading := isUploading s;
     isDeleting := isDeleting s; deleteConfirmOpen := deleteConfirmOpen s;
     addDialogOpen := addDialogOpen s; uploadMode := uploadMode s;
     docToDelete := docToDelete s; error := error s; successMsg := successMsg s;
     totalCount := v; totalChunks := totalChunks s;
     urlInput := urlInput s; isAddingUrl := isAddingUrl s; page := page s;
     sortType := sortType s |}.

Definition setTotalChunks (v : Z) (s : State) : State :=
  {| documents := documents s; isLoading := isLoading s; isUploading := isUploading s;
     isDeleting := isDeleting s; deleteConfirmOpen := deleteConfirmOpen s;
     addDialogOpen := addDialogOpen s; uploadMode := uploadMode s;
     docToDelete := docToDelete s; error := error s; successMsg := successMsg s;
     totalCount := totalCount s; totalChunks := v;
     urlInput := urlInput s; isAddingUrl := isAddingUrl s; page := page s;
     sortType := sortType s |}.

Definition setUrlInput (v : jsstring) (s : State) : State :=
  {| documents := documents s; isLoading := isLoading s; isUploading := isUploading s;
     isDeleting := isDeleting s; deleteConfirmOpen := deleteConfirmOpen s;
     addDialogOpen := addDialogOpen s; uploadMode := uploadMode s;
     docToDelete := docToDelete s; error := error s; successMsg := successMsg s;
     totalCount := totalCount s; totalChunks := totalChunks s;
     urlInput := v; isAddingUrl := isAddingUrl s; page := page s;
     sortType := sortType s |}.

Definition setIsAddingUrl (v : bool) (s : State) : State :=
  {| documents := documents s; isLoading := isLoading s; isUploading := isUploading s;
     isDeleting := isDeleting s; deleteConfirmOpen := deleteConfirmOpen s;
     addDialogOpen := addDialogOpen s; uploadMode := uploadMode s;
     docToDelete := docToDelete s; error := error s; successMsg := successMsg s;
     totalCount := totalCount s; totalChunks := totalChunks s;
     urlInput := urlInput s; isAddingUrl := v; page := page s;
     sortType := sortType s |}.

(** What a handler does outside the component's state. *)
Inductive effect :=
| GetDocumentList                       (* getDocumentList() *)
| UploadDocument (f : File)             (* uploadDocument(file) *)
| IngestUrls (urls : list jsstring)     (* ingestUrls([url]) *)
| OnDocumentsChange                     (* onDocumentsChange?.() *)
| ConsoleError.                         (* console.error("Failed to load documents:", err) *)

(** ** Sorting and paging *)

(** The engine's reading of a date string, [None] for an invalid date
    (NaN), and its collation of two strings. *)
Class Locale := {
  getTime : jsstring -> option Z;
  localeCompare : jsstring -> jsstring -> Z
}.

Section Listing.
Context `{Locale}.

(** [new Date(doc.created_at || 0).getTime()] *)
Definition created_time (doc : DocumentInfo) : option Z :=
  match created_at doc with
  | Some s => if truthy s then getTime s else Some 0
  | None => Some 0
  end.

Definition minus (a b : option Z) : option Z :=
  match a, b with
  | Some x, Some y => Some (x - y)
  | _, _ => None
  end.

(** The comparator given to [sort] *)
Definition comparator (sortType : SortType) (a b : DocumentInfo) : option Z :=
  match sortType with
  | name => Some (localeCompare (source a) (source b))
  | newest => minus (created_time b) (created_time a)
  | oldest => minus (created_time a) (created_time b)
  end.

Definition sortedDocuments (documents : list DocumentInfo) (sortType : SortType)
  : list DocumentInfo :=
  sort (comparator sortType) documents.

Definition pageSize : Z := 9.

Definition totalPages (documents : list DocumentInfo) (sortType : SortType) : Z :=
  ceil_div (len (sortedDocuments documents sortType)) pageSize.

Definition paginatedDocuments (documents : list DocumentInfo) (sortType : SortType)
    (page : Z) : list DocumentInfo :=
  slice (sortedDocuments documents sortType) ((page - 1) * pageSize) (page * pageSize).

(** The pages [1 .. n] *)
Definition pages (n : Z) : list Z := map Z.of_nat (seq 1 (Z.to_nat n)).

End Listing.

(** ** Handlers *)

(** [loadDocuments], against the settled [getDocumentList()] *)
Definition loadDocuments (listing : settled DocumentListResponse) (s : State)
  : State * list effect :=
  let s := setError None (setIsLoading true s) in
  match listing with
  | Resolved response =>
      (setIsLoading false
         (setTotalChunks (total_chunks response)
            (setTotalCount (total_count response)
               (setDocuments (list_documents response) s))),
       [GetDocumentList])
  | Rejected _ =>
      (setIsLoading false (setError (Some (js "加载文档列表失败")) s),
       [GetDocumentList; ConsoleError])
  end.

(** [onDocumentsChange?.()]: the prop may be absent. *)
Definition notify (onDocumentsChange : bool) : list effect :=
  if onDocumentsChange then [OnDocumentsChange] else [].

(** [result.status === "ready"] *)
Definition upload_ready (result : DocumentUploadResponse) : bool :=
  match upload_status result with
  | Some st => eqb st (js "ready")
  | None => false
  end.

(** [handleFileSelect(file)], against the settled [uploadDocument(file)] and
    [getDocumentList()].  [setError(result.status)] with a status that is
    missing stores [undefined], which like [null] is [None] here: the
    component only tests the cell and prints it. *)
Definition handleFileSelect (onDocumentsChange : bool) (file : option File)
    (upload : settled DocumentUploadResponse) (listing : settled DocumentListResponse)
    (s : State) : State * list effect :=
  match file with
  | None => (s, [])
  | Some f =>
      let s := setSuccessMsg None (setError None (setIsUploading true s)) in
      match upload with
      | Resolved result =>
          if upload_ready result then
            let s := setSuccessMsg
                       (Some (js "文档 " ++ [QUOTE] ++ file_name f ++ [QUOTE] ++ js " 上传成功")) s in
            let (s, loaded) := loadDocuments listing s in
            (setIsUploading false s,
             UploadDocument f :: loaded ++ notify onDocumentsChange)
          else
            (setIsUploading false (setError (upload_status result) s),
             [UploadDocument f])
      | Rejected err =>
          (setIsUploading false
             (setError (Some (message_of err (js "上传文档失败"))) s),
           [UploadDocument f])
      end
  end.

(** [result.documents?.[0]] *)
Definition firstDoc (result : IngestResponse) : option IngestedDocument :=
  match ingested_documents result with
  | Some (d :: _) => Some d
  | _ => None
  end.

Definition status_is (d : IngestedDocument) (expected : jsstring) : bool :=
  match ingested_status d with
  | Some st => eqb st expected
  | None => false
  end.

(** [handleAddUrl()], against the settled [ingestUrls([url])] and
    [getDocumentList()] *)
Definition handleAddUrl (onDocumentsChange : bool)
    (ingest : settled IngestResponse) (listing : settled DocumentListResponse)
    (s : State) : State * list effect :=
  let url := trim (urlInput s) in
  if negb (truthy url) then (s, [])
  else if negb (startsWith (js "http://") url) && negb (startsWith (js "https://") url)
  then (setError (Some (js "请输入有效的 URL")) s, [])
  else
    let s := setSuccessMsg None (setError None (setIsAddingUrl true s)) in
    match ingest with
    | Resolved result =>
        match firstDoc result with
        | Some d =>
            if status_is d (js "ready") then
              let count := match ingested_chunk_count d with Some n => n | None => 0 end in
              let s := setSuccessMsg
                         (Some (js "URL " ++ [QUOTE] ++ url ++ [QUOTE]
                                  ++ js " 添加成功，已处理 " ++ number_text count
                                  ++ js " 个片段")) s in
              let s := setUrlInput [] s in
              let (s, loaded) := loadDocuments listing s in
              (setIsAddingUrl false (setAddDialogOpen false s),
               IngestUrls [url] :: loaded ++ notify onDocumentsChange)
            else
              match ingested_status d with
              | Some st =>
                  if startsWith (js "failed") st
                  then (setIsAddingUrl false (setError (Some st) s), [IngestUrls [url]])
                  else (setIsAddingUrl false (setError (Some (js "添加 URL 失败")) s),
                        [IngestUrls [url]])
              | None =>
                  (setIsAddingUrl false (setError (Some (js "添加 URL 失败")) s),
                   [IngestUrls [url]])
              end
        | None =>
            (setIsAddingUrl false (setError (Some (js "添加 URL 失败")) s),
             [IngestUrls [url]])
        end
    | Rejected err =>
        (setIsAddingUrl false
           (setError (Some (message_of err (js "添加 URL 失败"))) s),
         [IngestUrls [url]])
    end.

(** ** What the user is shown *)

(** [{error && (<div> ... {error}</div>)}] *)
Definition errorBanner (s : State) : option jsstring :=
  match error s with
  | Some m => if truthy m then Some m else None
  | None => None
  end.

(** [{successMsg && (<div> ... {successMsg}</div>)}] *)
Definition successBanner (s : State) : option jsstring :=
  match successMsg s with
  | Some m => if truthy m then Some m else None
  | None => None
  end.

(** ** A locale to run examples with *)

(** The value of a decimal digit *)
Definition digit_value (c : code_unit) : option Z :=
  if ((48 <=? c) && (c <=? 57))%N then Some (Z.of_N (c - 48)) else None.

Fixpoint digits_value (acc : Z) (s : jsstring) : option Z :=
  match s with
  | [] => Some acc
  | c :: r =>
      match digit_value c with
      | Some d => digits_value (acc * 10 + d) r
      | None => None
      end
  end.

(** Days from 1970-01-01 to a date of the proleptic Gregorian calendar *)
Definition days_from_civil (y m d : Z) : Z :=
  let y := if m <=? 2 then y - 1 else y in
  let era := y / 400 in
  let yoe := y - era * 400 in
  let doy := (153 * (if 2 <? m then m - 3 else m + 9) + 2) / 5 + d - 1 in
  let doe := yoe * 365 + yoe / 4 - yoe / 100 + doy in
  era * 146097 + doe - 719468.

(** The time of a date written [YYYY-MM-DD] with a day up to 28; any other
    text is taken as an invalid date. *)
Definition date_only_time (s : jsstring) : option Z :=
  match s with
  | [y1; y2; y3; y4; d1; m1; m2; d2; a1; a2] =>
      if ((d1 =? 45) && (d2 =? 45))%N then
        match digits_value 0 [y1; y2; y3; y4], digits_value 0 [m1; m2],
              digits_value 0 [a1; a2] with
        | Some y, Some m, Some d =>
            if (1 <=? m) && (m <=? 12) && (1 <=? d) && (d <=? 28)
            then Some (days_from_civil y m d * 86400000)
            else None
        | _, _, _ => None
        end
      else None
  | _ => None
  end.

(** Order by code units *)
Fixpoint ordinal_compare (a b : jsstring) : Z :=
  match a, b with
  | [], [] => 0
  | [], _ :: _ => -1
  | _ :: _, [] => 1
  | x :: a', y :: b' =>
      if (x <? y)%N then -1 else if (y <? x)%N then 1 else ordinal_compare a' b'
  end.

Definition sample_locale : Locale :=
  {| getTime := date_only_time; localeCompare := ordinal_compare |}.

Definition doc (id src created : String.string) : DocumentInfo :=
  {| document_id := js id; source := js src; chunk_count := 1;
     file_type := None; created_at := Some (js created) |}.

Definition undated (id src : String.string) : DocumentInfo :=
  {| document_id := js id; source := js src; chunk_count := 1;
     file_type := None; created_at := None |}.

Definition sample_documents : list DocumentInfo :=
  [doc "d1" "notes.md" "2024-03-05"; doc "d2" "api.pdf" "2024-01-20";
   undated "d3" "zeta.txt"; doc "d4" "beta.txt" "2020-02-02";
   doc "d5" "alpha.txt" "2023-12-01"; doc "d6" "gamma.txt" "2024-03-05";
   doc "d7" "delta.txt" "2024-02-11"; doc "d8" "eps.txt" "2022-07-09";
   doc "d9" "eta.txt" "2024-05-01"; doc "d10" "theta.txt" "2021-01-01";
   doc "d11" "iota.txt" "2024-04-04"].

(** The state at mount. *)
Definition initial : State :=
  {| documents := []; isLoading := true; isUploading := false; isDeleting := None;
     deleteConfirmOpen := false; addDialogOpen := false; uploadMode := file_mode;
     docToDelete := None; error := None; successMsg := None; totalCount := 0;
     totalChunks := 0; urlInput := []; isAddingUrl := false; page := 1;
     sortType := newest |}.

(** The add dialog open on its URL tab, with [url] typed in. *)
Definition typing_url (url : jsstring) : State :=
  {| documents := sample_documents; isLoading := false; isUploading := false;
     isDeleting := None; deleteConfirmOpen := false; addDialogOpen := true;
     uploadMode := url_mode; docToDelete := None; error := None;
     successMsg := None; totalCount := 11; totalChunks := 11; urlInput := url;
     isAddingUrl := false; page := 1; sortType := newest |}.

Definition uploaded (status : jsstring) : DocumentUploadResponse :=
  {| upload_document_id := Some (js "d12"); upload_filename := Some (js "a.txt");
     upload_status := Some status; upload_chunk_count := Some 0 |}.

(** The reply to an upload that the server refused, an object with one
    field [detail] under a status such as 400: it has no field that the
    component reads. *)
Definition upload_refused : DocumentUploadResponse :=
  {| upload_document_id := None; upload_filename := None;
     upload_status := None; upload_chunk_count := None |}.

(** The reply of the same kind to a URL *)
Definition ingest_refused : IngestResponse := {| ingested_documents := None |}.

(** [firstDoc?.status] *)
Definition firstStatus (result : IngestResponse) : option jsstring :=
  match firstDoc result with
  | Some d => ingested_status d
  | None => None
  end.

(** A status that is missing or empty *)
Definition no_status (status : option jsstring) : bool :=
  match status with
  | Some st => negb (truthy st)
  | None => true
  end.

Definition ingested (status : jsstring) : IngestResponse :=
  {| ingested_documents :=
       Some [{| ingested_status := Some status; ingested_chunk_count := Some 3 |}] |}.

Definition first_ingested (status : jsstring) : IngestedDocument :=
  {| ingested_status := Some status; ingested_chunk_count := Some 3 |}.

Definition a_file : File := {| file_name := js "a.txt" |}.

Definition unchanged_list : settled DocumentListResponse :=
  Resolved {| list_documents := sample_documents; total_count := 11; total_chunks := 11 |}.

End DocumentManager.

(* ===================================================================== *)
(** * components/ChatBox.tsx *)
(* ===================================================================== *)

Module ChatBox.

Inductive Role := user | assistant.

(** [interface ChatMessage], with the [Date] of its timestamp as a number *)
Record ChatMessage := {
  role : Role;
  content : jsstring;
  timestamp : Z;
  has_image : option bool;
  image_data : option jsstring;
  image_format : option jsstring
}.

Record State := {
  messages : list ChatMessage;
  input : jsstring;
  isLoading : bool;
  isLoadingHistory : bool;
  isBackendAvailable : bool;
  selectedImageData : jsstring;
  selectedImageFormat : jsstring
}.

Inductive effect :=
| PreventDefault                                   (* e.preventDefault() *)
| SetTimeout (delay : Z)                           (* setTimeout(warning, 500) *)
| StreamMessage (message : jsstring) (sessionId : option jsstring)
                (imageData imageFormat : jsstring). (* streamMessage(...) is started *)

(** [x || undefined] *)
Definition or_undefined (x : jsstring) : option jsstring :=
  if truthy x then Some x else None.

Definition plain (r : Role) (text : jsstring) (now : Z) : ChatMessage :=
  {| role := r; content := text; timestamp := now; has_image := None;
     image_data := None; image_format := None |}.

Definition offline_warning : jsstring := js "⚠️ 后端服务器未连接，请先启动后端服务。".

(** The callback that [handleSubmit] schedules when the back end is down *)
Definition warn_offline (now : Z) (s : State) : State :=
  {| messages := messages s ++ [plain assistant offline_warning now];
     input := input s; isLoading := false; isLoadingHistory := isLoadingHistory s;
     isBackendAvailable := isBackendAvailable s;
     selectedImageData := selectedImageData s;
     selectedImageFormat := selectedImageFormat s |}.

(** [handleSubmit(e)] up to its first [await]: the state after its
    [set...] calls and what it started.  [now] is [new Date()]. *)
Definition handleSubmit (sessionId : option jsstring) (now : Z) (s : State)
  : State * list effect :=
  if (negb (truthy (trim (input s))) && negb (truthy (selectedImageData s)))
     || isLoading s
  then (s, [PreventDefault])
  else if negb (isBackendAvailable s) then
    ({| messages := messages s; input := []; isLoading := true;
        isLoadingHistory := isLoadingHistory s;
        isBackendAvailable := isBackendAvailable s;
        selectedImageData := []; selectedImageFormat := [] |},
     [PreventDefault; SetTimeout 500])
  else
    let userMessage :=
      {| role := user; content := trim (input s); timestamp := now;
         has_image := Some (truthy (selectedImageData s));
         image_data := or_undefined (selectedImageData s);
         image_format := or_undefined (selectedImageFormat s) |} in
    let assistantMessage := plain assistant [] now in
    ({| messages := (messages s ++ [userMessage]) ++ [assistantMessage];
        input := []; isLoading := true;
        isLoadingHistory := isLoadingHistory s;
        isBackendAvailable := isBackendAvailable s;
        selectedImageData := []; selectedImageFormat := [] |},
     [PreventDefault;
      StreamMessage (trim (input s)) sessionId
                    (selectedImageData s) (selectedImageFormat s)]).

Definition sends (out : list effect) : bool :=
  existsb (fun e => match e with StreamMessage _ _ _ _ => true | _ => false end) out.

(** The composer at rest, with a text typed in. *)
Definition typed (text : jsstring) (available : bool) : State :=
  {| messages := []; input := text; isLoading := false; isLoadingHistory := false;
     isBackendAvailable := available; selectedImageData := [];
     selectedImageFormat := [] |}.

End ChatBox.

(* ===================================================================== *)
(** * components/ImageUploader.tsx *)
(* ===================================================================== *)

Module ImageUploader.

(** The [type] and [size] of a [File] *)
Record File := {
  type : jsstring;
  size : Z
}.

Record State := {
  preview : option jsstring;
  isDragging : bool;
  isHovered : bool
}.

Inductive effect :=
| Alert (text : jsstring)                               (* alert(...) *)
| ReadAsDataURL (f : File)                              (* reader.readAsDataURL(file) *)
| OnImageSelect (imageData : option jsstring) (format : jsstring).
                                                        (* onImageSelect(base64Data, format) *)

(** [[a-zA-Z+]] *)
Definition is_format_char (c : code_unit) : bool :=
  ((65 <=? c) && (c <=? 90) || (97 <=? c) && (c <=? 122) || (c =? 43))%N.

Fixpoint format_run (s : jsstring) : jsstring * jsstring :=
  match s with
  | c :: r =>
      if is_format_char c
      then let (run, rest) := format_run r in (c :: run, rest)
      else ([], s)
  | [] => ([], [])
  end.

(** [/data:image\/([a-zA-Z+]+);base64/] anchored at the head of [s]: its
    group.  The run of the class is followed by a semicolon, which is not
    of the class, so only the longest run can match. *)
Definition format_here (s : jsstring) : option jsstring :=
  if startsWith (js "data:image/") s then
    let (run, rest) := format_run (skipn 11 s) in
    if truthy run && startsWith (js ";base64") rest then Some run else None
  else None.

(** [result.match(...)], the group of the leftmost match *)
Fixpoint formatMatch (result : jsstring) : option jsstring :=
  match format_here result with
  | Some g => Some g
  | None =>
      match result with
      | _ :: r => formatMatch r
      | [] => None
      end
  end.

(** [handleFileSelect(file)]; [loaded] is [e.target?.result] when the
    reader's [onload] fires, [None] when it gives nothing. *)
Definition handleFileSelect (file : option File) (loaded : option jsstring)
    (s : State) : State * list effect :=
  match file with
  | None => (s, [])
  | Some f =>
      if negb (startsWith (js "image/") (type f)) then
        (s, [Alert (js "请选择图片文件")])
      else if 10 * 1024 * 1024 <? size f then
        (s, [Alert (js "图片大小不能超过 10MB")])
      else
        match loaded with
        | Some result =>
            if truthy result then
              let format := match formatMatch result with
                            | Some g => g
                            | None => js "png"
                            end in
              ({| preview := Some result; isDragging := isDragging s;
                  isHovered := isHovered s |},
               [ReadAsDataURL f; OnImageSelect (split_comma_1 result) format])
            else (s, [ReadAsDataURL f])
        | None => (s, [ReadAsDataURL f])
        end
  end.

Definition selects (out : list effect) : bool :=
  existsb (fun e => match e with OnImageSelect _ _ => true | _ => false end) out.

(** An image of at most 10 MB *)
Definition acceptable (file : option File) : bool :=
  match file with
  | Some f => startsWith (js "image/") (type f) && (size f <=? 10485760)
  | None => false
  end.


End ImageUploader.

(* ===================================================================== *)
(** * Thrown values and promises of the hooks *)
(* ===================================================================== *)

(** [s.includes(p)] *)
Fixpoint includes (p s : jsstring) : bool :=
  startsWith p s
  || match s with
     | [] => false
     | _ :: r => includes p r
     end.

(** A caught value: a [TypeError], another [Error], or something else. *)
Inductive exn :=
| TypeErr (message : jsstring)
| Err (message : jsstring)
| NotError.

(** [err instanceof Error ? err.message : fallback] *)
Definition exn_message (err : exn) (fallback : jsstring) : jsstring :=
  match err with
  | TypeErr m | Err m => m
  | NotError => fallback
  end.

(** [function isNetworkError(err: unknown)], the same in [ChatBox.tsx] and
    in [useSessions.ts] *)
Definition isNetworkError (err : exn) : bool :=
  match err with
  | TypeErr m => includes (js "Failed to fetch") m || includes (js "NetworkError") m
  | _ => false
  end.

Inductive promise (A : Type) :=
| Fulfilled (a : A)
| Failed (err : exn).
Arguments Fulfilled {A} a.
Arguments Failed {A} err.

(* ===================================================================== *)
(** * lib/api.ts: sessions *)
(* ===================================================================== *)

Module Sessions.

(** [interface Session] *)
Record Session := {
  id : jsstring;
  title : jsstring;
  created : jsstring;
  message_count : Z;
  last_activity : option jsstring;
  last_message : jsstring
}.

(** [interface ChatMessage] of [lib/api.ts] *)
Record HistoryMessage := {
  role : jsstring;
  content : jsstring;
  timestamp : jsstring;
  has_image : option bool;
  image_data : option jsstring;
  image_format : option jsstring
}.

(** [interface SessionDetail] *)
Record SessionDetail := {
  session_id : jsstring;
  detail_title : jsstring;
  detail_created : jsstring;
  messages : list HistoryMessage;
  detail_message_count : Z
}.

End Sessions.

(* ===================================================================== *)
(** * components/SessionList.tsx: the groups by date *)
(* ===================================================================== *)

Module SessionGroups.
Import Sessions.

Inductive DateGroup := today | yesterday | previous7days | older.

(** [Record<DateGroup, Session[]>] *)
Record Groups := {
  g_today : list Session;
  g_yesterday : list Session;
  g_previous7days : list Session;
  g_older : list Session
}.

Definition no_groups : Groups :=
  {| g_today := []; g_yesterday := []; g_previous7days := []; g_older := [] |}.

(** [groups[g].push(session)] *)
Definition push (g : DateGroup) (x : Session) (groups : Groups) : Groups :=
  match g with
  | today =>
      {| g_today := g_today groups ++ [x]; g_yesterday := g_yesterday groups;
         g_previous7days := g_previous7days groups; g_older := g_older groups |}
  | yesterday =>
      {| g_today := g_today groups; g_yesterday := g_yesterday groups ++ [x];
         g_previous7days := g_previous7days groups; g_older := g_older groups |}
  | previous7days =>
      {| g_today := g_today groups; g_yesterday := g_yesterday groups;
         g_previous7days := g_previous7days groups ++ [x]; g_older := g_older groups |}
  | older =>
      {| g_today := g_today groups; g_yesterday := g_yesterday groups;
         g_previous7days := g_previous7days groups; g_older := g_older groups ++ [x] |}
  end.

Definition group (g : DateGroup) (groups : Groups) : list Session :=
  match g with
  | today => g_today groups
  | yesterday => g_yesterday groups
  | previous7days => g_previous7days groups
  | older => g_older groups
  end.

(** [date >= t], false when [date] is NaN *)
Definition at_least (date : option Z) (t : Z) : bool :=
  match date with
  | Some d => t <=? d
  | None => false
  end.

Section Grouping.
Context `{DocumentManager.Locale}.

(** [new Date(session.last_activity || session.created).getTime()] *)
Definition date_of (x : Session) : option Z :=
  DocumentManager.getTime
    (match last_activity x with
     | Some a => if truthy a then a else created x
     | None => created x
     end).

(** The branch that the body of [sessions.forEach] takes; [midnight] is
    the local midnight of [new Date()], the [today] of the source. *)
Definition group_of (midnight : Z) (x : Session) : DateGroup :=
  let yesterday_start := midnight - 86400000 in
  let lastWeek := midnight - 86400000 * 7 in
  if at_least (date_of x) midnight then today
  else if at_least (date_of x) yesterday_start then yesterday
  else if at_least (date_of x) lastWeek then previous7days
  else older.

Definition groupedSessions (midnight : Z) (sessions : list Session) : Groups :=
  fold_left (fun groups x => push (group_of midnight x) x groups) sessions no_groups.

End Grouping.

Definition group_eqb (a b : DateGroup) : bool :=
  match a, b with
  | today, today | yesterday, yesterday | previous7days, previous7days
  | older, older => true
  | _, _ => false
  end.

(** The initial [expandedGroups] and [toggleGroup] *)
Definition expanded_at_mount (g : DateGroup) : bool :=
  match g with
  | older => false
  | _ => true
  end.

Definition toggleGroup (g : DateGroup) (expandedGroups : DateGroup -> bool)
  : DateGroup -> bool :=
  fun k => if group_eqb k g then negb (expandedGroups g) else expandedGroups k.

Definition a_session (name : String.string) (active : option String.string)
    (made : String.string) : Session :=
  {| id := js name; title := js name; created := js made; message_count := 0;
     last_activity := match active with Some a => Some (js a) | None => None end;
     last_message := [] |}.

End SessionGroups.

(* ===================================================================== *)
(** * hooks/useSessions.ts *)
(* ===================================================================== *)

Module UseSessions.
Import Sessions.

(** The [useState] cells of the hook, its [hasAttemptedConnection] ref and
    the entry [assistantbot_current_session] of [localStorage]. *)
Record State := {
  sessions : list Session;
  currentSessionId : option jsstring;
  currentSession : option SessionDetail;
  isLoading : bool;
  error : option jsstring;
  isBackendAvailable : bool;
  hasAttemptedConnection : bool;
  stored : option jsstring
}.

Inductive effect :=
| GetSessions
| GetSession (sessionId : jsstring)
| CreateSession (title : option jsstring)
| UpdateSessionTitle (sessionId title : jsstring)
| DeleteSession (sessionId : jsstring)
| ClearAllSessions
| ConsoleWarn.                 (* console.warn("后端服务器未运行，...") *)

Definition with_loading (v : bool) (s : State) : State :=
  {| sessions := sessions s; currentSessionId := currentSessionId s;
     currentSession := currentSession s; isLoading := v; error := error s;
     isBackendAvailable := isBackendAvailable s;
     hasAttemptedConnection := hasAttemptedConnection s; stored := stored s |}.

Definition with_error (v : option jsstring) (s : State) : State :=
  {| sessions := sessions s; currentSessionId := currentSessionId s;
     currentSession := currentSession s; isLoading := isLoading s; error := v;
     isBackendAvailable := isBackendAvailable s;
     hasAttemptedConnection := hasAttemptedConnection s; stored := stored s |}.

Definition with_backend (v : bool) (s : State) : State :=
  {| sessions := sessions s; currentSessionId := currentSessionId s;
     currentSession := currentSession s; isLoading := isLoading s; error := error s;
     isBackendAvailable := v;
     hasAttemptedConnection := hasAttemptedConnection s; stored := stored s |}.

Definition with_sessions (v : list Session) (s : State) : State :=
  {| sessions := v; currentSessionId := currentSessionId s;
     currentSession := currentSession s; isLoading := isLoading s; error := error s;
     isBackendAvailable := isBackendAvailable s;
     hasAttemptedConnection := hasAttemptedConnection s; stored := stored s |}.

Definition with_detail (v : option SessionDetail) (s : State) : State :=
  {| sessions := sessions s; currentSessionId := currentSessionId s;
     currentSession := v; isLoading := isLoading s; error := error s;
     isBackendAvailable := isBackendAvailable s;
     hasAttemptedConnection := hasAttemptedConnection s; stored := stored s |}.

(** [setCurrentSessionId(v)] together with the [localStorage] call that
    goes with it: [setItem] for an id, [removeItem] for null. *)
Definition select (v : option jsstring) (s : State) : State :=
  {| sessions := sessions s; currentSessionId := v;
     currentSession := currentSession s; isLoading := isLoading s; error := error s;
     isBackendAvailable := isBackendAvailable s;
     hasAttemptedConnection := hasAttemptedConnection s; stored := v |}.

Definition attempted (s : State) : State :=
  {| sessions := sessions s; currentSessionId := currentSessionId s;
     currentSession := currentSession s; isLoading := isLoading s; error := error s;
     isBackendAvailable := isBackendAvailable s;
     hasAttemptedConnection := true; stored := stored s |}.

(** The [catch] of the operations that report a lost connection:
    [offline] is the text set on a network error, [fallback] the one for a
    thrown value that is no [Error]. *)
Definition report (err : exn) (offline fallback : jsstring) (s : State) : State :=
  if isNetworkError err
  then with_error (Some offline) (with_backend false s)
  else with_error (Some (exn_message err fallback)) s.

(** [loadSessions()], against the settled [getSessions()] *)
Definition loadSessions (listing : promise (list Session)) (s : State)
  : State * list effect :=
  let s := with_loading true s in
  match listing with
  | Fulfilled response_sessions =>
      (with_loading false
         (with_backend true (with_error None (with_sessions response_sessions s))),
       [GetSessions])
  | Failed err =>
      if isNetworkError err then
        (with_loading false (attempted (with_backend false s)),
         if hasAttemptedConnection s then [GetSessions] else [GetSessions; ConsoleWarn])
      else
        (with_loading false (with_error (Some (exn_message err (js "加载会话失败"))) s),
         [GetSessions])
  end.

(** [loadCurrentSession(sessionId)]: the state, the calls and what it
    returns *)
Definition loadCurrentSession (sessionId : jsstring) (detail : promise SessionDetail)
    (s : State) : State * list effect * option SessionDetail :=
  let s := with_loading true s in
  match detail with
  | Fulfilled session =>
      (with_loading false (with_backend true (with_error None (with_detail (Some session) s))),
       [GetSession sessionId], Some session)
  | Failed err =>
      if isNetworkError err then
        (with_loading false (with_detail None (with_backend false s)),
         [GetSession sessionId], None)
      else
        (with_loading false
           (with_error (Some (exn_message err (js "加载会话详情失败"))) s),
         [GetSession sessionId], None)
  end.

(** [createNewSession(title)]; [created] settles to [response.session_id] *)
Definition createNewSession (title : option jsstring) (created : promise jsstring)
    (listing : promise (list Session)) (s : State)
  : State * list effect * option jsstring :=
  let s := with_loading true s in
  match created with
  | Fulfilled newSessionId =>
      let s := with_error None (with_backend true (select (Some newSessionId) s)) in
      let (s, loaded) := loadSessions listing s in
      (with_loading false s, CreateSession title :: loaded, Some newSessionId)
  | Failed err =>
      (with_loading false
         (report err (js "后端服务器未连接，无法创建会话") (js "创建会话失败") s),
       [CreateSession title], None)
  end.

(** [switchSession(sessionId)] *)
Definition switchSession (sessionId : jsstring) (detail : promise SessionDetail)
    (s : State) : State * list effect * option SessionDetail :=
  loadCurrentSession sessionId detail (select (Some sessionId) s).

Definition retitle (title : jsstring) (d : SessionDetail) : SessionDetail :=
  {| session_id := session_id d; detail_title := title;
     detail_created := detail_created d; messages := messages d;
     detail_message_count := detail_message_count d |}.

Definition is_session (d : option SessionDetail) (sessionId : jsstring) : bool :=
  match d with
  | Some x => eqb (session_id x) sessionId
  | None => false
  end.

(** [renameSession(sessionId, title)] *)
Definition renameSession (sessionId title : jsstring) (updated : promise unit)
    (listing : promise (list Session)) (s : State) : State * list effect :=
  let before := s in
  let s := with_loading true s in
  match updated with
  | Fulfilled _ =>
      let s := with_error None (with_backend true s) in
      let (s, loaded) := loadSessions listing s in
      let s := if is_session (currentSession before) sessionId
               then with_detail (option_map (retitle title) (currentSession s)) s
               else s in
      (with_loading false s, UpdateSessionTitle sessionId title :: loaded)
  | Failed err =>
      (with_loading false (report err (js "后端服务器未连接") (js "更新标题失败") s),
       [UpdateSessionTitle sessionId title])
  end.

Definition is_current (s : State) (sessionId : jsstring) : bool :=
  match currentSessionId s with
  | Some c => eqb c sessionId
  | None => false
  end.

(** [removeSession(sessionId)] *)
Definition removeSession (sessionId : jsstring) (deleted : promise unit)
    (listing : promise (list Session)) (s : State) : State * list effect :=
  let before := s in
  let s := with_loading true s in
  match deleted with
  | Fulfilled _ =>
      let s := with_error None (with_backend true s) in
      let (s, loaded) := loadSessions listing s in
      let s := if is_current before sessionId
               then with_detail None (select None s)
               else s in
      (with_loading false s, DeleteSession sessionId :: loaded)
  | Failed err =>
      (with_loading false (report err (js "后端服务器未连接") (js "删除会话失败") s),
       [DeleteSession sessionId])
  end.

(** [clearSessions()] *)
Definition clearSessions (cleared : promise unit) (s : State) : State * list effect :=
  let s := with_loading true s in
  match cleared with
  | Fulfilled _ =>
      (with_loading false
         (with_detail None (select None
            (with_sessions [] (with_error None (with_backend true s))))),
       [ClearAllSessions])
  | Failed err =>
      (with_loading false (report err (js "后端服务器未连接") (js "清空会话失败") s),
       [ClearAllSessions])
  end.

(** The state after the mount effect has read [localStorage] *)
Definition mount (saved : option jsstring) : State :=
  {| sessions := [];
     currentSessionId := match saved with
                         | Some v => if truthy v then Some v else None
                         | None => None
                         end;
     currentSession := None; isLoading := false; error := None;
     isBackendAvailable := true; hasAttemptedConnection := false; stored := saved |}.

(** [setCurrentSessionId(v)], the setter of the state cell, which the hook
    returns as it is: nothing is written to [localStorage]. *)
Definition setCurrentSessionId (v : option jsstring) (s : State) : State :=
  {| sessions := sessions s; currentSessionId := v;
     currentSession := currentSession s; isLoading := isLoading s; error := error s;
     isBackendAvailable := isBackendAvailable s;
     hasAttemptedConnection := hasAttemptedConnection s; stored := stored s |}.

(** The effect on [currentSessionId] and [isBackendAvailable], against the
    settled [getSession(currentSessionId)] *)
Definition currentSessionEffect (detail : promise SessionDetail) (s : State)
  : State * list effect :=
  match currentSessionId s with
  | Some sessionId =>
      if truthy sessionId then
        if isBackendAvailable s
        then let '(s', out, _) := loadCurrentSession sessionId detail s in (s', out)
        else (s, [])
      else (with_detail None s, [])
  | None => (with_detail None s, [])
  end.

(** A call of one of the eight operations that the hook returns, with the
    way its requests settle, or a run of its effect on the current
    session. *)
Inductive action :=
| SetCurrentSessionId (v : option jsstring)
| CurrentSessionEffect (detail : promise SessionDetail)
| LoadSessions (listing : promise (list Session))
| LoadCurrentSession (sessionId : jsstring) (detail : promise SessionDetail)
| CreateNewSession (title : option jsstring) (created : promise jsstring)
                   (listing : promise (list Session))
| SwitchSession (sessionId : jsstring) (detail : promise SessionDetail)
| RenameSession (sessionId title : jsstring) (updated : promise unit)
                (listing : promise (list Session))
| RemoveSession (sessionId : jsstring) (deleted : promise unit)
                (listing : promise (list Session))
| ClearSessions (cleared : promise unit).

Definition act (a : action) (s : State) : State * list effect :=
  match a with
  | SetCurrentSessionId v => (setCurrentSessionId v s, [])
  | CurrentSessionEffect detail => currentSessionEffect detail s
  | LoadSessions listing => loadSessions listing s
  | LoadCurrentSession sessionId detail =>
      let '(s', out, _) := loadCurrentSession sessionId detail s in (s', out)
  | CreateNewSession title created listing =>
      let '(s', out, _) := createNewSession title created listing s in (s', out)
  | SwitchSession sessionId detail =>
      let '(s', out, _) := switchSession sessionId detail s in (s', out)
  | RenameSession sessionId title updated listing =>
      renameSession sessionId title updated listing s
  | RemoveSession sessionId deleted listing =>
      removeSession sessionId deleted listing s
  | ClearSessions cleared => clearSessions cleared s
  end.

(** The operations one after the other, each on the state the one before
    left. *)
Fixpoint run (actions : list action) (s : State) : State * list effect :=
  match actions with
  | [] => (s, [])
  | a :: rest =>
      let (s1, out1) := act a s in
      let (s2, out2) := run rest s1 in
      (s2, out1 ++ out2)
  end.

(** The operation that leaves [localStorage] alone *)
Definition is_setter (a : action) : bool :=
  match a with
  | SetCurrentSessionId _ => true
  | _ => false
  end.

Definition warnings (out : list effect) : nat :=
  length (filter (fun e => match e with ConsoleWarn => true | _ => false end) out).

Definition unreachable : exn := TypeErr (js "Failed to fetch").

Definition fulfilled {A} (p : promise A) : bool :=
  match p with
  | Fulfilled _ => true
  | Failed _ => false
  end.

(** What is left to warn about: nothing once the warning was given. *)
Definition unwarned (s : State) : nat :=
  if hasAttemptedConnection s then 0%nat else 1%nat.

End UseSessions.

(* ===================================================================== *)
(** * components/ChatBox.tsx: the reply as it streams in *)
(* ===================================================================== *)

Module ChatBoxStream.
Import ChatBox.

(** Which of the optional props are given *)
Record Props := {
  onSessionChange : bool;
  onRefreshSessions : bool
}.

(** The calls that leave the component while a reply streams in *)
Inductive call :=
| SessionChange (newSessionId : value)   (* onSessionChange(newSessionId) *)
| RefreshSessions                        (* onRefreshSessions() *)
| Focus.                                 (* textareaRef.current.focus() *)

(** How the [for await] over [streamMessage] ends *)
Inductive ending :=
| Completes
| Throws (err : exn).

Definition with_content (text : jsstring) (m : ChatMessage) : ChatMessage :=
  {| role := role m; content := text; timestamp := timestamp m;
     has_image := has_image m; image_data := image_data m;
     image_format := image_format m |}.

(** [newMessages[newMessages.length - 1] = { ...last, content: text }]; on
    an empty array the assignment adds no element. *)
Fixpoint set_last_content (text : jsstring) (msgs : list ChatMessage)
  : list ChatMessage :=
  match msgs with
  | [] => []
  | [m] => [with_content text m]
  | m :: rest => m :: set_last_content text rest
  end.

(** [newSessionId !== sessionId] *)
Definition differs (newSessionId : value) (sessionId : option jsstring) : bool :=
  match newSessionId, sessionId with
  | Str a, Some b => negb (eqb a b)
  | _, _ => true
  end.

Section Reply.
Context `{Builtins}.

(** The body of the [for await]: [reply] is [fullResponse] paired with the
    messages. *)
Definition receive (props : Props) (sessionId : option jsstring) (token : jsstring)
    (reply : jsstring * list ChatMessage)
  : (jsstring * list ChatMessage) * list call :=
  let appended :=
    ((fst reply ++ token, set_last_content (fst reply ++ token) (snd reply)), []) in
  match JSON_parse token with
  | None => appended
  | Some parsed =>
      match get parsed (js "session_id") with
      | inl _ => appended
      | inr v =>
          if to_boolean v && onSessionChange props && differs v sessionId
          then (reply, [SessionChange v])
          else (reply, [])
      end
  end.

(** A fragment that [JSON.parse] rejects or reads as [null] *)
Definition is_text (token : jsstring) : bool :=
  match JSON_parse token with
  | None | Some Null | Some Undefined => true
  | Some _ => false
  end.

Fixpoint receive_all (props : Props) (sessionId : option jsstring)
    (tokens : list jsstring) (reply : jsstring * list ChatMessage)
  : (jsstring * list ChatMessage) * list call :=
  match tokens with
  | [] => (reply, [])
  | token :: rest =>
      let (reply1, calls1) := receive props sessionId token reply in
      let (reply2, calls2) := receive_all props sessionId rest reply1 in
      (reply2, calls1 ++ calls2)
  end.

(** The text that the outer [catch] puts in the last message *)
Definition failure_text (err : exn) : jsstring :=
  if isNetworkError err then offline_warning
  else js "Error: " ++ exn_message err (js "Unknown error").

(** [handleSubmit(e)] to its end, when the generator gives [tokens] and
    then ends as [stream_end]. *)
Definition submit (props : Props) (sessionId : option jsstring) (now : Z) (s : State)
    (tokens : list jsstring) (stream_end : ending)
  : State * list effect * list call :=
  let (s1, out) := handleSubmit sessionId now s in
  if sends out then
    let (reply, calls) := receive_all props sessionId tokens ([], messages s1) in
    match stream_end with
    | Completes =>
        ({| messages := snd reply; input := input s1; isLoading := false;
            isLoadingHistory := isLoadingHistory s1; isBackendAvailable := true;
            selectedImageData := selectedImageData s1;
            selectedImageFormat := selectedImageFormat s1 |},
         out,
         calls ++ (if onRefreshSessions props then [RefreshSessions] else []) ++ [Focus])
    | Throws err =>
        ({| messages := set_last_content (failure_text err) (snd reply);
            input := input s1; isLoading := false;
            isLoadingHistory := isLoadingHistory s1;
            isBackendAvailable :=
              if isNetworkError err then false else isBackendAvailable s1;
            selectedImageData := selectedImageData s1;
            selectedImageFormat := selectedImageFormat s1 |},
         out, calls ++ [Focus])
    end
  else (s1, out, []).

(** The fragments of a run of the generator, when all of them are strings *)
Fixpoint texts (vs : list value) : option (list jsstring) :=
  match vs with
  | [] => Some []
  | Str t :: rest => option_map (cons t) (texts rest)
  | _ :: _ => None
  end.

(** The end of a run of the generator, as its caller catches it; the
    messages of the engine's own errors are not modelled. *)
Definition ending_of (c : Api.completion unit) : option ending :=
  match c with
  | Api.Normal _ | Api.Return => Some Completes
  | Api.Throw (ApiError status text) =>
      Some (Throws (Err (js "API Error " ++ number_text status ++ js ": " ++ text)))
  | Api.Throw NoResponseBody => Some (Throws (Err (js "No response body")))
  | Api.Throw _ => None
  end.

(** [handleSubmit] against the response of the request it sends. *)
Definition converse (props : Props) (sessionId : option jsstring) (now : Z) (s : State)
    (r : Api.Response) : option (State * list effect * list call) :=
  let run := Api.streamMessage (trim (input s)) sessionId
               (Some (selectedImageData s)) (Some (selectedImageFormat s)) r in
  match texts (Api.yields (fst run)), ending_of (snd run) with
  | Some tokens, Some stream_end => Some (submit props sessionId now s tokens stream_end)
  | _, _ => None
  end.

End Reply.

(** [disabled] of the submit button *)
Definition submit_disabled (s : State) : bool :=
  (negb (truthy (trim (input s))) && negb (truthy (selectedImageData s)))
  || isLoading s || negb (isBackendAvailable s).

(** The [onImageSelect] handed to [ImageUploader].  The data is
    [undefined] when the uploader found no comma; the cell then holds a
    falsy value, as it does with the empty string. *)
Definition onImageSelect (data : option jsstring) (format : jsstring) (s : State) : State :=
  {| messages := messages s; input := input s; isLoading := isLoading s;
     isLoadingHistory := isLoadingHistory s; isBackendAvailable := isBackendAvailable s;
     selectedImageData := match data with Some d => d | None => [] end;
     selectedImageFormat := format |}.

(** The [src] of the image shown in a message, when one is shown:
    [`data:image/${msg.image_format || "png"};base64,${msg.image_data}`] *)
Definition image_src (m : ChatMessage) : option jsstring :=
  match has_image m, image_data m with
  | Some true, Some data =>
      if truthy data then
        Some (js "data:image/"
                ++ match image_format m with
                   | Some f => if truthy f then f else js "png"
                   | None => js "png"
                   end
                ++ js ";base64," ++ data)
      else None
  | _, _ => None
  end.

(** The message that [handleSubmit] adds for the user; [now] is
    [new Date()]. *)
Definition userMessage (now : Z) (s : State) : ChatMessage :=
  {| role := user; content := trim (input s); timestamp := now;
     has_image := Some (truthy (selectedImageData s));
     image_data := or_undefined (selectedImageData s);
     image_format := or_undefined (selectedImageFormat s) |}.

Definition all_props : Props := {| onSessionChange := true; onRefreshSessions := true |}.

End ChatBoxStream.

(* ===================================================================== *)
(** * components/ImageUploader.tsx: the other handlers *)
(* ===================================================================== *)

Module ImageUploaderMore.
Import ImageUploader.

(** [handleRemove()] *)
Definition handleRemove (s : State) : State * list effect :=
  ({| preview := None; isDragging := isDragging s; isHovered := isHovered s |},
   [OnImageSelect (Some []) []]).

(** [handleInputChange(e)]: [e.target.files?.[0] || null] *)
Definition handleInputChange (files : list File) (loaded : option jsstring) (s : State)
  : State * list effect :=
  handleFileSelect (hd_error files) loaded s.

(** [handleDrop(e)] *)
Definition handleDrop (files : list File) (loaded : option jsstring) (s : State)
  : State * list effect :=
  handleFileSelect (hd_error files) loaded
    {| preview := preview s; isDragging := false; isHovered := isHovered s |}.

(** The data URL of an image: its format and its base-64 text *)
Definition data_url (format payload : jsstring) : jsstring :=
  js "data:image/" ++ format ++ js ";base64," ++ payload.

Definition no_comma (t : jsstring) : bool := forallb (fun c => negb (c =? 44)%N) t.

(** A text that holds no comma, colon or semicolon, as the subtype of a
    media type and a base-64 text do not *)
Definition plain_chars (t : jsstring) : bool :=
  forallb (fun c => negb ((c =? 44) || (c =? 58) || (c =? 59))%N) t.

(** A text that the group [([a-zA-Z+]+)] of the pattern takes whole *)
Definition is_word (t : jsstring) : bool := truthy t && forallb is_format_char t.

(** The format handed over for a file of the media type [image/subtype] *)
Definition handed_format (subtype : jsstring) : jsstring :=
  if is_word subtype then subtype else js "png".

(** An icon, whose media type is [image/x-icon] *)
Definition an_icon : File := {| type := js "image/x-icon"; size := 1150 |}.

Definition empty_uploader : State :=
  {| preview := None; isDragging := false; isHovered := false |}.

End ImageUploaderMore.

(* ===================================================================== *)
(** * components/DocumentManager.tsx: deleting and paging *)
(* ===================================================================== *)

Module DocumentManagerMore.
Import DocumentManager.

Definition setIsDeleting (v : option jsstring) (s : State) : State :=
  {| documents := documents s; isLoading := isLoading s; isUploading := isUploading s;
     isDeleting := v; deleteConfirmOpen := deleteConfirmOpen s;
     addDialogOpen := addDialogOpen s; uploadMode := uploadMode s;
     docToDelete := docToDelete s; error := error s; successMsg := successMsg s;
     totalCount := totalCount s; totalChunks := totalChunks s;
     urlInput := urlInput s; isAddingUrl := isAddingUrl s; page := page s;
     sortType := sortType s |}.

Definition setDeleteConfirmOpen (v : bool) (s : State) : State :=
  {| documents := documents s; isLoading := isLoading s; isUploading := isUploading s;
     isDeleting := isDeleting s; deleteConfirmOpen := v;
     addDialogOpen := addDialogOpen s; uploadMode := uploadMode s;
     docToDelete := docToDelete s; error := error s; successMsg := successMsg s;
     totalCount := totalCount s; totalChunks := totalChunks s;
     urlInput := urlInput s; isAddingUrl := isAddingUrl s; page := page s;
     sortType := sortType s |}.

Definition setDocToDelete (v : option jsstring) (s : State) : State :=
  {| documents := documents s; isLoading := isLoading s; isUploading := isUploading s;
     isDeleting := isDeleting s; deleteConfirmOpen := deleteConfirmOpen s;
     addDialogOpen := addDialogOpen s; uploadMode := uploadMode s;
     docToDelete := v; error := error s; successMsg := successMsg s;
     totalCount := totalCount s; totalChunks := totalChunks s;
     urlInput := urlInput s; isAddingUrl := isAddingUrl s; page := page s;
     sortType := sortType s |}.

(** [interface DocumentDeleteResponse] *)
Record DocumentDeleteResponse := {
  deleted : bool;
  deleted_document_id : jsstring;
  chunks_removed : Z
}.

(** What the delete handler does outside the state: the delete request,
    then what the reload does. *)
Inductive call :=
| DeleteDocument (documentId : jsstring)
| Then (e : effect).

(** [confirmDelete(docId)] *)
Definition confirmDelete (docId : jsstring) (s : State) : State :=
  setDeleteConfirmOpen true (setDocToDelete (Some docId) s).

(** [handleDelete()], against the settled [deleteDocument(docToDelete)] and
    [getDocumentList()] *)
Definition handleDelete (onDocumentsChange : bool)
    (deletion : settled DocumentDeleteResponse) (listing : settled DocumentListResponse)
    (s : State) : State * list call :=
  match docToDelete s with
  | None => (s, [])
  | Some docId =>
      if negb (truthy docId) then (s, [])
      else
        let s := setError None (setIsDeleting (Some docId) s) in
        match deletion with
        | Resolved _ =>
            let s := setDeleteConfirmOpen false
                       (setSuccessMsg (Some (js "文档删除成功")) s) in
            let (s, loaded) := loadDocuments listing s in
            (setDocToDelete None (setIsDeleting None s),
             DeleteDocument docId :: map Then (loaded ++ notify onDocumentsChange))
        | Rejected err =>
            (setDocToDelete None
               (setIsDeleting None
                  (setError (Some (message_of err (js "删除文档失败"))) s)),
             [DeleteDocument docId])
        end
  end.

(** The time a document is sorted by, for one whose date can be read *)
Definition time_of `{Locale} (d : DocumentInfo) : Z :=
  match created_time d with
  | Some t => t
  | None => 0
  end.

(** The reply that [handleAddUrl] takes as a success *)
Definition ready (ingest : settled IngestResponse) : bool :=
  match ingest with
  | Resolved result =>
      match firstDoc result with
      | Some d => status_is d (js "ready")
      | None => false
      end
  | Rejected _ => false
  end.

(** The updaters of the two paging buttons *)
Definition previous_page (p : Z) : Z := Z.max 1 (p - 1).
Definition next_page (totalPages p : Z) : Z := Z.min totalPages (p + 1).

Definition deletes (out : list call) : list jsstring :=
  flat_map (fun c => match c with DeleteDocument d => [d] | Then _ => [] end) out.

End DocumentManagerMore.

(* ===================================================================== *)
(** * lib/api.ts: streamMessage on a network that can fail *)
(* ===================================================================== *)

Module StreamNetwork.
Import Api.

(** How the reads of a body end: the stream is closed, [done] being true,
    or a [reader.read()] is rejected. *)
Inductive body_end :=
| Closed
| ReadRejected (err : exn).

(** What the network gives to the request of [streamMessage]. *)
Inductive exchange :=
| FetchRejected (err : exn)                       (* fetch(...) is rejected *)
| Refused (status : Z) (errorText : promise jsstring)
                                                  (* not OK; what response.text() settles to *)
| NoBody                                          (* OK, and response.body is null *)
| Streamed (chunks : list (list byte)) (e : body_end).
                                                  (* OK; the chunks read, then how reading ends *)

(** How a run of the generator ends for its caller. *)
Inductive outcome :=
| Finished                     (* the generator is done *)
| Thrown (e : error)           (* it throws an error that it made itself *)
| Rejection (err : exn).       (* it throws what an awaited promise was rejected with *)

Section Run.
Context `{Builtins}.

(** [streamMessage(message, sessionId, imageData, imageFormat)], run to its
    end.  A rejected [await] is outside every [try] of the function and so
    ends the generator; a read that comes after a [return] is never
    made. *)
Definition streamMessage_over (message : jsstring)
    (sessionId imageData imageFormat : option jsstring) (x : exchange)
  : list effect * outcome :=
  let b := requestBody message sessionId imageData imageFormat in
  match x with
  | FetchRejected err => ([LogRequest b; Fetch b], Rejection err)
  | Refused status (Failed err) => ([LogRequest b; Fetch b], Rejection err)
  | Refused status (Fulfilled errorText) =>
      ([LogRequest b; Fetch b; LogApiError status errorText],
       Thrown (ApiError status errorText))
  | NoBody => ([LogRequest b; Fetch b], Thrown NoResponseBody)
  | Streamed chunks e =>
      let (out, res) := read_loop decoder_init [] (initial_cursor sessionId) chunks in
      (LogRequest b :: Fetch b :: out,
       match res with
       | Normal _ =>
           match e with
           | Closed => Finished
           | ReadRejected err => Rejection err
           end
       | Return => Finished
       | Throw e => Thrown e
       end)
  end.

End Run.

(** The exchange in which everything settles as [r] says *)
Definition settled_as (r : Response) : exchange :=
  if ok r then
    match body r with
    | Some chunks => Streamed chunks Closed
    | None => NoBody
    end
  else Refused (status r) (Fulfilled (text r)).

Definition outcome_of (c : completion unit) : outcome :=
  match c with
  | Normal _ | Return => Finished
  | Throw e => Thrown e
  end.

(** The connection is lost after [stream_hello] has lost its last event. *)
Definition hello_then_cut : exchange :=
  Streamed [ascii_bytes (wire_all (removelast stream_hello))]
           (ReadRejected (TypeErr (js "network error"))).

End StreamNetwork.

(* ===================================================================== *)
(** * Facts about strings and lines *)
(* ===================================================================== *)

(** Evaluate the literals of the goal. *)
Ltac js_literals :=
  repeat match goal with
         | |- context [js ?s] =>
             let v := eval vm_compute in (js s) in change (js s) with v
         end.

Lemma eqb_refl (a : jsstring) : eqb a a = true.
Proof. induction a as [|x a IH]; simpl; [reflexivity|]. now rewrite N.eqb_refl. Qed.

Lemma eqb_eq (a b : jsstring) : eqb a b = true <-> a = b.
Proof.
  split; [|intros ->; apply eqb_refl].
  revert b; induction a as [|x a IH]; intros [|y b]; simpl; try discriminate; auto.
  intros Hab. apply andb_true_iff in Hab as [Hxy Hab].
  apply N.eqb_eq in Hxy. f_equal; auto.
Qed.

Lemma eqb_neq (a b : jsstring) : eqb a b = false <-> a <> b.
Proof.
  rewrite <- eqb_eq. destruct (eqb a b); split; congruence.
Qed.

Lemma startsWith_app (p s : jsstring) : startsWith p (p ++ s) = true.
Proof. induction p as [|x p IH]; simpl; [reflexivity|]. now rewrite N.eqb_refl. Qed.

Lemma len_nonneg {A} (s : list A) : 0 <= len s.
Proof. unfold len. lia. Qed.

(** [slice] between two indices inside the bounds takes and drops. *)
Lemma slice_nonneg {A} (s : list A) (a b : nat) :
  (a <= b)%nat ->
  slice s (Z.of_nat a) (Z.of_nat b) = firstn (b - a) (skipn a s).
Proof.
  intros Hab. unfold slice, clamp_index, len.
  destruct (Z.ltb_spec (Z.of_nat a) 0); [lia|].
  destruct (Z.ltb_spec (Z.of_nat b) 0); [lia|].
  destruct (Nat.le_gt_cases (length s) a) as [Hla|Hla].
  - rewrite (skipn_all2 s) by lia.
    rewrite skipn_all2 by lia. now rewrite !firstn_nil.
  - replace (Z.to_nat (Z.min (Z.of_nat a) (Z.of_nat (length s)))) with a by lia.
    destruct (Nat.le_gt_cases b (length s)) as [Hlb|Hlb].
    + f_equal. lia.
    + rewrite !firstn_all2; try reflexivity; rewrite length_skipn; lia.
Qed.

Lemma slice_from_nonneg {A} (s : list A) (a : nat) :
  slice_from s (Z.of_nat a) = skipn a s.
Proof.
  unfold slice_from, slice, clamp_index, len.
  destruct (Z.ltb_spec (Z.of_nat a) 0); [lia|].
  destruct (Z.ltb_spec (Z.of_nat (length s)) 0); [lia|].
  destruct (Nat.le_gt_cases (length s) a) as [Hla|Hla].
  - rewrite (skipn_all2 s) by lia.
    rewrite skipn_all2 by lia. now rewrite firstn_nil.
  - replace (Z.to_nat (Z.min (Z.of_nat a) (Z.of_nat (length s)))) with a by lia.
    apply firstn_all2. rewrite length_skipn. lia.
Qed.

(** ** The engine on samples *)

Example js_literal : js "data: é𝄞" = [100; 97; 116; 97; 58; 32; 233; 55348; 56606]%N.
Proof. vm_compute. reflexivity. Qed.

Example json_parse_object :
  json_parse (jsq "{'token':'a\n', 'n': [1, -2.50e1, true, null, {}]} ")
  = Some (Object [(js "token", Str [97; 10]%N);
                  (js "n", Array [Number 1 0; Number (-250) (-1); Boolean true;
                                  Null; Object []])]).
Proof. vm_compute. reflexivity. Qed.

Example json_parse_rejects :
  map json_parse [js "[DONE]"; js ""; js "01"; js "1 2"; js "nul";
                  jsq "{'a':1,}"; jsq "'a"]
  = [None; None; None; None; None; None; None].
Proof. vm_compute. reflexivity. Qed.

Example falsy_values :
  map to_boolean [Undefined; Null; Boolean false; Number 0 0; Number 1 (-400);
                  Str []; Number 1 (-300); Str (js "0"); Array []; Object []]
  = [false; false; false; false; false; false; true; true; true; true].
Proof. vm_compute. reflexivity. Qed.

(* ===================================================================== *)
(** * SessionList: truncateTitle *)
(* ===================================================================== *)

Module SessionListFacts.
Import SessionList.

(** C7. For every title, [truncateTitle] with its default limit returns the
    title unchanged when it has at most 25 code units, and otherwise its
    first 25 code units followed by three dots; so the result is a prefix
    of the title, possibly followed by the dots, and never longer than 28. *)
Theorem truncateTitle_default (title : jsstring) :
  truncateTitle title None
  = (if (length title <=? 25)%nat then title else firstn 25 title ++ js "...")
  /\ (exists n, truncateTitle title None = firstn n title
             \/ truncateTitle title None = firstn n title ++ js "...")
  /\ (length (truncateTitle title None) <= 28)%nat.
Proof.
  assert (E : truncateTitle title None
              = if (length title <=? 25)%nat then title
                else firstn 25 title ++ js "...").
  { unfold truncateTitle, len.
    destruct (Nat.leb_spec (length title) 25) as [Hl|Hl].
    - destruct (Z.leb_spec (Z.of_nat (length title)) 25); [reflexivity|lia].
    - destruct (Z.leb_spec (Z.of_nat (length title)) 25); [lia|].
      change 0 with (Z.of_nat 0). change 25 with (Z.of_nat 25).
      rewrite slice_nonneg by lia. reflexivity. }
  split; [exact E|]. rewrite E. clear E.
  destruct (Nat.leb_spec (length title) 25) as [Hl|Hl].
  - split; [|lia]. exists (length title). left. now rewrite firstn_all.
  - split; [exists 25%nat; now right|].
    rewrite length_app, length_firstn. js_literals. cbn [length].
    pose proof (Nat.le_min_l 25 (length title)). lia.
Qed.

End SessionListFacts.

(* ===================================================================== *)
(** * Api: streamMessage *)
(* ===================================================================== *)

Module ApiFacts.
Import Api.

(** ** Lines *)

Lemma split_lines_nonempty (s : jsstring) : split_lines s <> [].
Proof.
  destruct s as [|c r]; simpl; [discriminate|].
  destruct (c =? LF)%N; [discriminate|].
  destruct (split_lines r); discriminate.
Qed.

Lemma split_lines_app (a b : jsstring) :
  split_lines (a ++ b)
  = removelast (split_lines a) ++ split_lines (last (split_lines a) [] ++ b).
Proof.
  induction a as [|c a IH]; [reflexivity|].
  cbn [app split_lines]. rewrite IH. clear IH.
  pose proof (split_lines_nonempty a) as Hne.
  destruct (split_lines a) as [|l0 ls0]; [congruence|]. clear Hne.
  destruct (c =? LF)%N eqn:Hc.
  - reflexivity.
  - destruct ls0 as [|l1 ls1].
    + cbn [removelast last app split_lines]. rewrite Hc. reflexivity.
    + reflexivity.
Qed.

Lemma pending_is_one_line (s : jsstring) :
  split_lines (last (split_lines s) []) = [last (split_lines s) []].
Proof.
  induction s as [|c s IH]; [reflexivity|].
  cbn [split_lines].
  pose proof (split_lines_nonempty s) as Hne.
  destruct (split_lines s) as [|l0 ls0]; [congruence|]. clear Hne.
  destruct (c =? LF)%N eqn:Hc.
  - exact IH.
  - destruct ls0 as [|l1 ls1].
    + cbn [last] in *. cbn [split_lines]. rewrite Hc, IH. reflexivity.
    + exact IH.
Qed.

Lemma complete_lines_app (a b : jsstring) :
  complete_lines (a ++ b)
  = complete_lines a ++ complete_lines (last (split_lines a) [] ++ b).
Proof.
  unfold complete_lines. rewrite split_lines_app.
  apply removelast_app, split_lines_nonempty.
Qed.

Lemma complete_lines_line (l rest : jsstring) :
  no_lf l = true ->
  complete_lines (l ++ LF :: rest) = l :: complete_lines rest.
Proof.
  intros Hl. unfold complete_lines.
  assert (E : split_lines (l ++ LF :: rest) = l :: split_lines rest).
  { induction l as [|c l IH]; [reflexivity|].
    cbn [no_lf forallb] in Hl. apply andb_true_iff in Hl as [Hc Hl].
    cbn [app split_lines]. rewrite (IH Hl).
    apply negb_true_iff in Hc. now rewrite Hc. }
  rewrite E.
  pose proof (split_lines_nonempty rest).
  destruct (split_lines rest); [congruence|reflexivity].
Qed.

Lemma no_lf_app (a b : jsstring) : no_lf (a ++ b) = no_lf a && no_lf b.
Proof. unfold no_lf. apply forallb_app. Qed.

(** ** The decoder *)

Section Chunks.
Context `{Builtins}.

Lemma decode_app (d : decoder) (a b : list byte) :
  decode d (a ++ b)
  = (fst (decode (fst (decode d a)) b),
     snd (decode d a) ++ snd (decode (fst (decode d a)) b)).
Proof.
  revert d; induction a as [|x a IH]; intros d; cbn [app decode].
  - cbn. now destruct (decode d b).
  - destruct (decode_byte d x) as [d1 t1]. rewrite IH.
    destruct (decode d1 a) as [d2 t2]. cbn [fst snd].
    destruct (decode d2 b) as [d3 t3]. cbn [fst snd]. now rewrite app_assoc.
Qed.

(** ** The loop over the lines *)

Lemma for_lines_app (c : cursor) (l1 l2 : list jsstring) :
  for_lines c (l1 ++ l2)
  = match for_lines c l1 with
    | (out, Normal c') => let (out', r) := for_lines c' l2 in (out ++ out', r)
    | r => r
    end.
Proof.
  revert c; induction l1 as [|l l1 IH]; intros c; cbn [app for_lines].
  - now destruct (for_lines c l2).
  - destruct (on_line c l) as [out [c'| |e]]; try reflexivity.
    rewrite IH. destruct (for_lines c' l1) as [out1 [c1| |e1]]; try reflexivity.
    destruct (for_lines c1 l2) as [out2 r2]. now rewrite app_assoc.
Qed.

(** The chunked loop reads the complete lines of the whole text, whatever
    the chunks are. *)
Lemma read_loop_text (chunks : list (list byte)) :
  forall (d : decoder) (buffer : jsstring) (c : cursor),
    split_lines buffer = [buffer] ->
    read_loop d buffer c chunks
    = (fst (for_lines c (complete_lines (buffer ++ snd (decode d (concat chunks))))),
       forget (snd (for_lines c (complete_lines (buffer ++ snd (decode d (concat chunks))))))).
Proof.
  induction chunks as [|value more IH]; intros d buffer c Hb.
  - cbn [concat decode snd read_loop]. rewrite app_nil_r.
    unfold complete_lines. rewrite Hb. reflexivity.
  - cbn [concat read_loop]. rewrite decode_app. cbn [snd].
    destruct (decode d value) as [d1 t1]. cbn [fst snd].
    rewrite app_assoc, complete_lines_app, for_lines_app.
    fold (complete_lines (buffer ++ t1)).
    destruct (for_lines c (complete_lines (buffer ++ t1))) as [out [c'| |e]];
      try reflexivity.
    rewrite (IH d1 _ c' (pending_is_one_line _)).
    destruct (for_lines c' _) as [out' r']. reflexivity.
Qed.

Lemma stream_text (c : cursor) (chunks : list (list byte)) :
  read_loop decoder_init [] c chunks
  = (fst (for_lines c (complete_lines (decode_text (concat chunks)))),
     forget (snd (for_lines c (complete_lines (decode_text (concat chunks)))))).
Proof. now rewrite read_loop_text. Qed.

(** What the caller receives is what the lines of the whole text give. *)
Lemma tokens_received_text (message : jsstring)
    (sessionId imageData imageFormat : option jsstring) (chunks : list (list byte)) :
  tokens_received message sessionId imageData imageFormat chunks
  = yields (fst (for_lines (initial_cursor sessionId)
                   (complete_lines (decode_text (concat chunks))))).
Proof.
  unfold tokens_received, streamMessage, response_of. cbn [ok body negb].
  rewrite stream_text. reflexivity.
Qed.

End Chunks.

(** ** The cursor's session id does not steer the loop *)

Section Cursor.
Context `{Builtins}.

Lemma on_line_same (c c' : cursor) (l : jsstring) :
  currentEvent c = currentEvent c' ->
  fst (on_line c l) = fst (on_line c' l)
  /\ same_event (snd (on_line c l)) (snd (on_line c' l)).
Proof.
  intros E. unfold on_line, on_data, dispatch. rewrite <- E.
  destruct (eqb (trim l) []); [now split|].
  destruct (startsWith (js "event: ") l); [now split|].
  destruct (startsWith (js "data: ") l); [|now split].
  destruct (JSON_parse (slice_from l 6)) as [parsed|]; [|now split].
  destruct (eqb (currentEvent c) (js "metadata")).
  { destruct (get parsed (js "session_id")); now split. }
  destruct (eqb (currentEvent c) (js "token")).
  { destruct (get parsed (js "token")); now split. }
  destruct (eqb (currentEvent c) (js "done")); [now split|].
  destruct (eqb (currentEvent c) (js "error")); [|now split].
  destruct (get parsed (js "error")); now split.
Qed.

Lemma for_lines_same (lines : list jsstring) :
  forall c c' : cursor,
    currentEvent c = currentEvent c' ->
    fst (for_lines c lines) = fst (for_lines c' lines)
    /\ forget (snd (for_lines c lines)) = forget (snd (for_lines c' lines)).
Proof.
  induction lines as [|l lines IH]; intros c c' E; cbn [for_lines].
  - now split.
  - destruct (on_line_same c c' l E) as [Ho Hr].
    destruct (on_line c l) as [out r], (on_line c' l) as [out' r'].
    cbn [fst snd] in Ho, Hr. subst out'.
    destruct r as [a| |e], r' as [b| |e']; cbn in Hr; try contradiction;
      try (now split); [|subst; now split].
    destruct (IH a b Hr) as [Ho' Hr'].
    destruct (for_lines a lines), (for_lines b lines).
    cbn [fst snd] in *. now subst.
Qed.

(** ** Events on the wire *)

Lemma trimStart_last (l : jsstring) (c : code_unit) :
  is_space c = false -> trimStart (l ++ [c]) <> [].
Proof.
  intros Hc. induction l as [|x l IH]; cbn [app trimStart].
  - now rewrite Hc.
  - destruct (is_space x); [exact IH|discriminate].
Qed.

Lemma trim_head (c : code_unit) (s : jsstring) :
  is_space c = false -> eqb (trim (c :: s)) [] = false.
Proof.
  intros Hc. apply eqb_neq. unfold trim, trimEnd. cbn [trimStart]. rewrite Hc.
  cbn [rev]. intros E. apply (f_equal (@rev code_unit)) in E.
  rewrite rev_involutive in E. now apply (trimStart_last (rev s) c Hc).
Qed.

Lemma wire_lines (ev : sse_event) (rest : jsstring) :
  wf_event ev = true ->
  complete_lines (wire ev ++ rest)
  = [js "event: " ++ ev_type ev; js "data: " ++ ev_data ev; []]
      ++ complete_lines rest.
Proof.
  unfold wf_event. intros Hwf.
  apply andb_true_iff in Hwf as [Hwf _]. apply andb_true_iff in Hwf as [Ht Hd].
  unfold wire.
  replace ((js "event: " ++ ev_type ev ++ [LF] ++ js "data: " ++ ev_data ev ++ [LF; LF]) ++ rest)
    with ((js "event: " ++ ev_type ev) ++ LF :: (js "data: " ++ ev_data ev) ++ LF :: [] ++ LF :: rest)
    by (repeat (rewrite <- app_assoc; cbn [app]); reflexivity).
  rewrite !complete_lines_line; try reflexivity;
    rewrite no_lf_app; apply andb_true_iff; split; auto; now vm_compute.
Qed.

Lemma on_line_event (c : cursor) (type : jsstring) :
  trim type = type ->
  on_line c (js "event: " ++ type)
  = ([], Normal {| currentEvent := type; sessionIdRef := sessionIdRef c |}).
Proof.
  intros Ht. unfold on_line. rewrite startsWith_app.
  change 7 with (Z.of_nat 7). rewrite slice_from_nonneg.
  js_literals. cbn [app skipn]. rewrite trim_head by reflexivity. now rewrite Ht.
Qed.

Lemma on_line_data (c : cursor) (data : jsstring) :
  on_line c (js "data: " ++ data) = on_data c data.
Proof.
  unfold on_line. rewrite startsWith_app.
  change 6 with (Z.of_nat 6). rewrite slice_from_nonneg.
  js_literals. cbn [app skipn]. rewrite trim_head by reflexivity. reflexivity.
Qed.

Lemma on_line_blank (c : cursor) : on_line c [] = ([], Normal c).
Proof. reflexivity. Qed.

Lemma yields_app (a b : list effect) : yields (a ++ b) = yields a ++ yields b.
Proof. apply flat_map_app. Qed.

(** A whole stream of events, read line by line. *)
Lemma for_lines_events (evs : list sse_event) :
  forallb wf_event evs = true ->
  forall c : cursor,
    yields (fst (for_lines c (complete_lines (wire_all evs)))) = delivered_tokens evs.
Proof.
  induction evs as [|ev evs IH]; intros Hwf c; [reflexivity|].
  cbn [forallb] in Hwf. apply andb_true_iff in Hwf as [Hev Hwf].
  specialize (IH Hwf).
  change (wire_all (ev :: evs)) with (wire ev ++ wire_all evs).
  rewrite (wire_lines _ _ Hev).
  assert (Ht : trim (ev_type ev) = ev_type ev).
  { unfold wf_event in Hev. apply andb_true_iff in Hev as [_ Hev].
    now apply eqb_eq. }
  destruct ev as [type data]. cbn [ev_type ev_data] in *.
  cbn [app for_lines]. rewrite (on_line_event c type Ht), on_line_data.
  cbn [delivered_tokens ev_type ev_data].
  unfold on_data, dispatch, parses, token_field. cbn [currentEvent].
  set (c1 := {| currentEvent := type; sessionIdRef := sessionIdRef c |}).
  destruct (JSON_parse data) as [parsed|].
  2:{ rewrite andb_false_r. rewrite on_line_blank.
      specialize (IH c1). destruct (for_lines c1 _) as [out r].
      cbn [fst app] in *. cbn [yields flat_map app].
      fold (yields out). rewrite IH. now destruct (eqb type (js "token")). }
  rewrite andb_true_r.
  destruct (eqb type (js "metadata")) eqn:Em.
  { apply eqb_eq in Em. subst type.
    replace (eqb (js "metadata") (js "done")) with false by now vm_compute.
    replace (eqb (js "metadata") (js "token")) with false by now vm_compute.
    destruct (get parsed (js "session_id")) as [e|v]; rewrite on_line_blank.
    - specialize (IH c1). destruct (for_lines c1 _) as [out r].
      cbn [fst app] in *. cbn [yields flat_map app]. exact IH.
    - match goal with |- context [for_lines ?c2 _] => specialize (IH c2);
        destruct (for_lines c2 _) as [out r] end.
      cbn [fst app] in *. exact IH. }
  destruct (eqb type (js "token")) eqn:Et.
  { apply eqb_eq in Et. subst type.
    replace (eqb (js "token") (js "done")) with false by now vm_compute.
    destruct (get parsed (js "token")) as [e|v]; rewrite on_line_blank;
      specialize (IH c1); destruct (for_lines c1 _) as [out r];
      cbn [fst app] in *; cbn [yields flat_map app]; fold (yields out);
      now rewrite IH. }
  destruct (eqb type (js "done")) eqn:Ed; [reflexivity|].
  destruct (eqb type (js "error")) eqn:Ee.
  { destruct (get parsed (js "error")) as [e|v]; rewrite on_line_blank;
      specialize (IH c1); destruct (for_lines c1 _) as [out r];
      cbn [fst app] in *; cbn [yields flat_map app]; exact IH. }
  rewrite on_line_blank. specialize (IH c1). destruct (for_lines c1 _) as [out r].
  cbn [fst app] in *. exact IH.
Qed.

(** ** No line makes the loop throw *)

Lemma on_line_no_throw (c : cursor) (l : jsstring) (e : error) :
  snd (on_line c l) <> Throw e.
Proof.
  unfold on_line, on_data.
  destruct (eqb (trim l) []); [discriminate|].
  destruct (startsWith (js "event: ") l); [discriminate|].
  destruct (startsWith (js "data: ") l); [|discriminate].
  destruct (dispatch c (slice_from l 6)) as [out [a| |e']]; discriminate.
Qed.

Lemma for_lines_no_throw (lines : list jsstring) :
  forall (c : cursor) (e : error), snd (for_lines c lines) <> Throw e.
Proof.
  induction lines as [|l lines IH]; intros c e; cbn [for_lines]; [discriminate|].
  pose proof (on_line_no_throw c l) as Hl.
  destruct (on_line c l) as [out [a| |e']]; cbn [snd] in *.
  - specialize (IH a e). now destruct (for_lines a lines).
  - discriminate.
  - now specialize (Hl e').
Qed.

(** Whatever the events of a body that arrives, [streamMessage] ends
    without an exception: the [throw] of an [error] event is caught by the
    [catch] around it. *)
Lemma streamMessage_body_never_throws
    (message : jsstring) (sessionId imageData imageFormat : option jsstring)
    (chunks : list (list byte)) (e : error) :
  snd (streamMessage message sessionId imageData imageFormat (response_of chunks))
  <> Throw e.
Proof.
  unfold streamMessage, response_of. cbn [ok body negb].
  rewrite stream_text. cbn [snd].
  pose proof (for_lines_no_throw
                (complete_lines (decode_text (concat chunks)))
                (initial_cursor sessionId) e) as Hn.
  destruct (snd (for_lines _ _)); cbn [forget]; congruence.
Qed.

End Cursor.

(** ** The stream, event by event and chunk by chunk *)

Section Events.
Context `{Builtins}.

(** C1, amended. For every stream of well-formed events and every way its
    octets arrive in chunks, the fragments that [streamMessage] yields are,
    in order, the [token] fields (the empty string where the field is
    missing or falsy) of the [token] events whose data is JSON other than
    [null], up to the first [done] event whose data is JSON; no other event
    is yielded and nothing is yielded after that [done] event. *)
Theorem tokens_received_of_events
    (evs : list sse_event) (message : jsstring)
    (sessionId imageData imageFormat : option jsstring) (chunks : list (list byte)) :
  forallb wf_event evs = true ->
  decode_text (concat chunks) = wire_all evs ->
  tokens_received message sessionId imageData imageFormat chunks
  = delivered_tokens evs.
Proof.
  intros Hwf Htext. rewrite tokens_received_text, Htext.
  now apply for_lines_events.
Qed.

(** C3. The fragments yielded are a function of the concatenation of the
    chunks alone: two runs over the same octets, cut into chunks in any two
    ways, whatever the message, the session and the image of each request,
    yield the same fragments in the same order. *)
Theorem tokens_received_chunking
    (message message' : jsstring)
    (sessionId imageData imageFormat sessionId' imageData' imageFormat' : option jsstring)
    (chunks chunks' : list (list byte)) :
  concat chunks = concat chunks' ->
  tokens_received message sessionId imageData imageFormat chunks
  = tokens_received message' sessionId' imageData' imageFormat' chunks'.
Proof.
  intros E. rewrite !tokens_received_text, E.
  f_equal. now apply for_lines_same.
Qed.

End Events.

(** [stream_hello], arriving in four chunks cut inside its lines. *)
Lemma tokens_received_of_events_witness :
  forallb wf_event stream_hello = true
  /\ @decode_text browser (concat chunks_hello) = wire_all stream_hello
  /\ @tokens_received browser (js "hi") None None None chunks_hello
     = @delivered_tokens browser stream_hello.
Proof.
  split; [|split].
  - vm_compute. reflexivity.
  - vm_compute. reflexivity.
  - apply (@tokens_received_of_events browser stream_hello (js "hi") None None None
             chunks_hello); vm_compute; reflexivity.
Defined.

(** Four chunks for one request, a single chunk for another. *)
Lemma tokens_received_chunking_witness :
  concat chunks_hello = concat [body_hello]
  /\ @tokens_received browser (js "hi") None None None chunks_hello
     = @tokens_received browser [] (Some (js "s0")) (Some (js "iVBORw0KGgo="))
         (Some (js "png")) [body_hello].
Proof.
  split.
  - vm_compute. reflexivity.
  - apply (@tokens_received_chunking browser (js "hi") [] None None None
             (Some (js "s0")) (Some (js "iVBORw0KGgo=")) (Some (js "png"))
             chunks_hello [body_hello]).
    vm_compute. reflexivity.
Defined.

Example stream_hello_tokens :
  @tokens_received browser (js "hi") None None None chunks_hello
  = [Str (js "Hel"); Str (js "lo")].
Proof. vm_compute. reflexivity. Qed.

(** C1 as stated fails: a [done] event whose data is not JSON does not end
    the stream, and the token that follows it is yielded. *)
Lemma stream_done_plain_yields_late :
  forallb wf_event stream_done_plain = true
  /\ @decode_text browser (ascii_bytes (wire_all stream_done_plain))
     = wire_all stream_done_plain
  /\ @tokens_received browser (js "hi") None None None
       [ascii_bytes (wire_all stream_done_plain)]
     = [Str (js "late")]
  /\ @claimed_tokens browser stream_done_plain = [].
Proof. vm_compute. repeat split; reflexivity. Qed.

(** Where every [done] event carries JSON and every [token] field read is
    a string, the two readings agree. *)
Lemma claimed_is_delivered `{Builtins} (evs : list sse_event) :
  Forall (fun ev => (eqb (ev_type ev) (js "done") = true -> parses (ev_data ev) = true)
                    /\ (forall v, token_field (ev_data ev) = Some v -> exists t, v = Str t))
         evs ->
  claimed_tokens evs = delivered_tokens evs.
Proof.
  induction 1 as [|ev evs [Hdone Htoken] _ IH]; [reflexivity|].
  cbn [claimed_tokens delivered_tokens].
  destruct (eqb (ev_type ev) (js "done")).
  - now rewrite Hdone.
  - cbn [andb]. destruct (eqb (ev_type ev) (js "token")); [|exact IH].
    destruct (token_field (ev_data ev)) as [v|]; [|exact IH].
    destruct (Htoken v eq_refl) as [t ->]. rewrite IH.
    now destruct t.
Qed.

(** A token event without a [token] field yields the empty string; a data
    line keeps the type of the event before it; a last line that no line
    feed ends is not read. *)
Example body_loose_tokens :
  @tokens_received browser (js "hi") None None None [ascii_bytes body_loose]
  = [Str []; Str (js "again")].
Proof. vm_compute. reflexivity. Qed.

(** A chunk may end inside a character. *)
Example cut_inside_a_character :
  let whole := octets "event: token
data: {'token':'é'}

" in
  @tokens_received browser (js "hi") None None None [firstn 30 whole; skipn 30 whole]
  = [Str [233%N]]
  /\ @decode_text browser (firstn 30 whole) ++ @decode_text browser (skipn 30 whole)
     <> @decode_text browser whole.
Proof. vm_compute. split; [reflexivity|discriminate]. Qed.

(** C2, at the failing input. An [error] event followed by a token: the
    generator logs the error it threw, goes on to yield the token, and ends
    without an exception. *)
Theorem error_event_is_caught :
  let run := @streamMessage browser (js "hi") None None None
               (response_of [ascii_bytes (wire_all stream_error_then_token)]) in
  snd run = Normal tt
  /\ yields (fst run) = [Str (js "late")]
  /\ In (LogParseFailure (jsq "{'error':'boom'}") (Error (Str (js "boom")))) (fst run).
Proof.
  vm_compute. split; [reflexivity|]. split; [reflexivity|].
  right; right; left; reflexivity.
Qed.

(** ** The request body *)

Lemma effectiveMessage_cases (message : jsstring) (imageData : option jsstring) :
  effectiveMessage message imageData
  = if truthy (trim message) then trim message
    else if image_given imageData then [] else js " ".
Proof.
  unfold effectiveMessage.
  destruct (trim message) as [|c t]; cbn [truthy orb]; [|reflexivity].
  now destruct (image_given imageData).
Qed.

(** C8, at the failing input. With an empty text and an image attached the
    request carries the empty string as its message, not a space. *)
Theorem image_only_message_is_empty :
  let b := requestBody [] None (Some (js "iVBORw0KGgo=")) (Some (js "png")) in
  message b = [] /\ message b <> js " " /\ image b = Some (js "iVBORw0KGgo=").
Proof.
  vm_compute. split; [reflexivity|]. split; [discriminate|reflexivity].
Qed.

End ApiFacts.

(* ===================================================================== *)
(** * DocumentManager *)
(* ===================================================================== *)

Module DocumentManagerFacts.
Import DocumentManager.

(** ** Sorting *)

Lemma sort_insert_perm {A} (comparefn : A -> A -> option Z) (x : A) (l : list A) :
  Permutation (x :: l) (sort_insert comparefn x l).
Proof.
  induction l as [|y l IH]; cbn [sort_insert]; [reflexivity|].
  destruct (goes_after (comparefn x y)); [|reflexivity].
  rewrite perm_swap. now apply perm_skip.
Qed.

Lemma sort_perm {A} (comparefn : A -> A -> option Z) (l : list A) :
  Permutation l (sort comparefn l).
Proof.
  induction l as [|x l IH]; cbn [sort fold_right]; [reflexivity|].
  fold (sort comparefn l).
  rewrite <- sort_insert_perm. now apply perm_skip.
Qed.

(** ** Paging *)

Lemma slice_length_le {A} (l : list A) (a b : Z) :
  a <= b -> (length (slice l a b) <= Z.to_nat (b - a))%nat.
Proof.
  intros Hab. unfold slice. rewrite length_firstn.
  pose proof (len_nonneg l) as Hn.
  etransitivity; [apply Nat.le_min_l|].
  unfold clamp_index.
  destruct (Z.ltb_spec a 0), (Z.ltb_spec b 0); lia.
Qed.

Lemma firstn_plus {A} (a b : nat) (l : list A) :
  firstn (a + b) l = firstn a l ++ firstn b (skipn a l).
Proof.
  revert l; induction a as [|a IH]; intros l; [reflexivity|].
  destruct l as [|x l]; cbn [Nat.add firstn skipn app].
  - now rewrite firstn_nil.
  - now rewrite IH.
Qed.

(** The first [k] pages of a list are its first [9 k] items. *)
Lemma first_pages {A} (l : list A) (k : nat) :
  concat (map (fun p => slice l ((p - 1) * 9) (p * 9)) (map Z.of_nat (seq 1 k)))
  = firstn (k * 9) l.
Proof.
  induction k as [|k IH]; [reflexivity|].
  rewrite seq_S, !map_app, concat_app, IH. cbn [map concat].
  rewrite app_nil_r.
  replace ((Z.of_nat (1 + k) - 1) * 9) with (Z.of_nat (k * 9)) by lia.
  replace (Z.of_nat (1 + k) * 9) with (Z.of_nat (k * 9 + 9)) by lia.
  rewrite slice_nonneg by lia.
  replace (k * 9 + 9 - k * 9)%nat with 9%nat by lia.
  replace (S k * 9)%nat with (k * 9 + 9)%nat by lia.
  now rewrite firstn_plus.
Qed.

Lemma ceil_div_covers (n : Z) : 0 <= n -> n <= ceil_div n 9 * 9.
Proof.
  intros Hn. unfold ceil_div.
  pose proof (Z.div_mod (- n) 9 ltac:(lia)).
  pose proof (Z.mod_pos_bound (- n) 9 ltac:(lia)). lia.
Qed.

Section Listing.
Context `{Locale}.

(** C9. For every list of documents and every sort mode, the sorted list
    is a permutation of the documents; a page holds at most 9 entries,
    whatever its number; and the pages 1 to ceil(n / 9), one after the
    other, are the sorted list, so each document is on exactly one page. *)
Theorem pages_partition_sorted (documents : list DocumentInfo) (sortType : SortType) :
  Permutation documents (sortedDocuments documents sortType)
  /\ (forall page : Z,
        (length (paginatedDocuments documents sortType page) <= 9)%nat)
  /\ concat (map (paginatedDocuments documents sortType)
                 (pages (totalPages documents sortType)))
     = sortedDocuments documents sortType.
Proof.
  split; [apply sort_perm|]. split.
  - intros page. unfold paginatedDocuments, pageSize.
    etransitivity; [apply slice_length_le|]; lia.
  - unfold paginatedDocuments, pages, totalPages, pageSize.
    set (sorted := sortedDocuments documents sortType).
    rewrite (first_pages sorted).
    apply firstn_all2.
    pose proof (ceil_div_covers (len sorted) (len_nonneg sorted)) as Hc.
    unfold len in *. lia.
Qed.

End Listing.

Example sample_pages :
  map (map document_id)
      (map (@paginatedDocuments sample_locale sample_documents newest)
           (@pages (@totalPages sample_locale sample_documents newest)))
  = [map js ["d9"; "d11"; "d1"; "d6"; "d7"; "d2"; "d5"; "d8"; "d10"]%string;
     map js ["d4"; "d3"]%string].
Proof. vm_compute. reflexivity. Qed.

(** ** Adding a URL *)

Lemma loadDocuments_calls (listing : settled DocumentListResponse) (s : State) :
  In GetDocumentList (snd (loadDocuments listing s))
  /\ successMsg (fst (loadDocuments listing s)) = successMsg s.
Proof. destruct listing; cbn; auto. Qed.

(** C4, amended. When the URL typed in, once trimmed, is empty or starts
    with neither "http://" nor "https://", [handleAddUrl] sends no ingest
    request and does nothing else outside the component; it leaves the
    document list, the counts and the dialogs as they were; it changes
    nothing at all when the trimmed text is empty and otherwise only sets
    the validation error. *)
Theorem handleAddUrl_rejects (onDocumentsChange : bool)
    (ingest : settled IngestResponse) (listing : settled DocumentListResponse)
    (s : State) :
  trim (urlInput s) = []
  \/ (startsWith (js "http://") (trim (urlInput s)) = false
      /\ startsWith (js "https://") (trim (urlInput s)) = false) ->
  let r := handleAddUrl onDocumentsChange ingest listing s in
  snd r = []
  /\ documents (fst r) = documents s
  /\ totalCount (fst r) = totalCount s
  /\ totalChunks (fst r) = totalChunks s
  /\ addDialogOpen (fst r) = addDialogOpen s
  /\ deleteConfirmOpen (fst r) = deleteConfirmOpen s
  /\ fst r = (if truthy (trim (urlInput s))
              then setError (Some (js "请输入有效的 URL")) s else s).
Proof.
  intros Hurl. unfold handleAddUrl.
  destruct (trim (urlInput s)) as [|c url] eqn:Et.
  - cbn. repeat split; reflexivity.
  - destruct Hurl as [Hurl|[Hhttp Hhttps]]; [discriminate|].
    cbn [truthy negb]. rewrite Hhttp, Hhttps. cbn. repeat split; reflexivity.
Qed.

(** A URL of another scheme. *)
Lemma handleAddUrl_rejects_witness :
  let s := typing_url (js "ftp://host/a.txt") in
  let r := handleAddUrl true (Resolved (ingested (js "ready"))) unchanged_list s in
  snd r = []
  /\ documents (fst r) = documents s
  /\ totalCount (fst r) = totalCount s
  /\ totalChunks (fst r) = totalChunks s
  /\ addDialogOpen (fst r) = addDialogOpen s
  /\ deleteConfirmOpen (fst r) = deleteConfirmOpen s
  /\ fst r = (if truthy (trim (urlInput s))
              then setError (Some (js "请输入有效的 URL")) s else s).
Proof.
  apply (handleAddUrl_rejects true (Resolved (ingested (js "ready"))) unchanged_list
           (typing_url (js "ftp://host/a.txt"))).
  right. split; vm_compute; reflexivity.
Defined.

(** C4 as stated fails: a text that starts with a space, and so with
    neither scheme, is trimmed and then sent. *)
Lemma handleAddUrl_trims_first :
  let s := typing_url (js " http://example.com/a") in
  truthy (urlInput s) = true
  /\ startsWith (js "http://") (urlInput s) = false
  /\ startsWith (js "https://") (urlInput s) = false
  /\ snd (handleAddUrl false (Rejected NotAnError) unchanged_list s)
     = [IngestUrls [js "http://example.com/a"]].
Proof. vm_compute. repeat split; reflexivity. Qed.

(** ** The status of an ingest *)

(** An upload is a success exactly when its status is "ready"; any other
    status, or none, is stored as the error, no success message is set and
    the list is not reloaded. *)
Lemma upload_status_decides (onDocumentsChange : bool) (f : File)
    (result : DocumentUploadResponse) (listing : settled DocumentListResponse)
    (s : State) :
  let up := handleFileSelect onDocumentsChange (Some f) (Resolved result) listing s in
  if upload_ready result
  then (exists m, successMsg (fst up) = Some m /\ truthy m = true)
       /\ In GetDocumentList (snd up)
  else error (fst up) = upload_status result
       /\ successMsg (fst up) = None
       /\ snd up = [UploadDocument f].
Proof.
  unfold handleFileSelect. destruct (upload_ready result).
  - match goal with |- context [loadDocuments ?l ?st] =>
      pose proof (loadDocuments_calls l st) as [Hin Hmsg];
      destruct (loadDocuments l st) as [s' loaded] end.
    cbn [fst snd] in *. split.
    + cbn. rewrite Hmsg. cbn. eexists. split; [reflexivity|].
      js_literals. reflexivity.
    + right. apply in_or_app. now left.
  - cbn. repeat split; reflexivity.
Qed.

(** A URL that is sent is a success exactly when the status of its first
    document is "ready"; anything else gives an error that is shown: the
    status when it starts with "failed", a fixed text otherwise. *)
Lemma url_status_decides (onDocumentsChange : bool) (reply : IngestResponse)
    (listing : settled DocumentListResponse) (s : State) :
  truthy (trim (urlInput s)) = true ->
  startsWith (js "http://") (trim (urlInput s)) = true
  \/ startsWith (js "https://") (trim (urlInput s)) = true ->
  let add := handleAddUrl onDocumentsChange (Resolved reply) listing s in
  if DocumentManagerMore.ready (Resolved reply)
  then (exists m, successMsg (fst add) = Some m /\ truthy m = true)
       /\ In GetDocumentList (snd add)
  else (exists m, error (fst add) = Some m /\ errorBanner (fst add) = Some m
                  /\ (firstStatus reply = Some m /\ startsWith (js "failed") m = true
                      \/ m = js "添加 URL 失败"))
       /\ successMsg (fst add) = None
       /\ snd add = [IngestUrls [trim (urlInput s)]].
Proof.
  intros Hne Hscheme. unfold handleAddUrl, DocumentManagerMore.ready, firstStatus. rewrite Hne. cbn [negb].
  replace (negb (startsWith (js "http://") (trim (urlInput s)))
           && negb (startsWith (js "https://") (trim (urlInput s)))) with false
    by (destruct Hscheme as [E|E]; rewrite E; cbn;
        [reflexivity | now rewrite andb_false_r]).
  destruct (firstDoc reply) as [d|].
  - destruct (status_is d (js "ready")) eqn:Hready.
    + match goal with |- context [loadDocuments ?l ?st] =>
        pose proof (loadDocuments_calls l st) as [Hin Hmsg];
        destruct (loadDocuments l st) as [s' loaded] end.
      cbn [fst snd] in *. split.
      * cbn. rewrite Hmsg. cbn. eexists. split; [reflexivity|].
        js_literals. reflexivity.
      * right. apply in_or_app. now left.
    + destruct (ingested_status d) as [st|].
      * destruct (startsWith (js "failed") st) eqn:Hf.
        -- cbn. unfold errorBanner. cbn. split; [|split; reflexivity].
           exists st. split; [reflexivity|]. split; [|now left].
           destruct st; [discriminate Hf|reflexivity].
        -- cbn. unfold errorBanner. cbn. split; [|split; reflexivity].
           eexists. split; [reflexivity|]. split; [reflexivity|now right].
      * cbn. unfold errorBanner. cbn. split; [|split; reflexivity].
        eexists. split; [reflexivity|]. split; [reflexivity|now right].
  - cbn. unfold errorBanner. cbn. split; [|split; reflexivity].
    eexists. split; [reflexivity|]. split; [reflexivity|now right].
Qed.

(** C5. The upload handler misses what the URL handler does.  A reply
    whose status is missing or empty is no success for either of them;
    [handleAddUrl] then shows its fixed error text, but [handleFileSelect]
    stores the status itself as the error, which the banner takes for no
    error: the user is shown neither an error nor a success, the list is
    not reloaded, and the claim's "any other status is surfaced as an
    error" fails for the upload. *)
Theorem upload_without_status_is_silent (onDocumentsChange : bool) (f : File)
    (result : DocumentUploadResponse) (reply : IngestResponse)
    (listing : settled DocumentListResponse) (s u : State) :
  no_status (upload_status result) = true ->
  firstStatus reply = upload_status result ->
  truthy (trim (urlInput u)) = true ->
  startsWith (js "http://") (trim (urlInput u)) = true
  \/ startsWith (js "https://") (trim (urlInput u)) = true ->
  let up := handleFileSelect onDocumentsChange (Some f) (Resolved result) listing s in
  let add := handleAddUrl onDocumentsChange (Resolved reply) listing u in
  (upload_ready result = false
   /\ errorBanner (fst up) = None
   /\ successBanner (fst up) = None
   /\ snd up = [UploadDocument f])
  /\ (DocumentManagerMore.ready (Resolved reply) = false
      /\ errorBanner (fst add) = Some (js "添加 URL 失败")
      /\ successBanner (fst add) = None
      /\ snd add = [IngestUrls [trim (urlInput u)]]).
Proof.
  intros Hno Hsame Hne Hscheme up add.
  assert (Hup : upload_ready result = false).
  { unfold upload_ready. unfold no_status in Hno.
    destruct (upload_status result) as [[|c st]|]; [reflexivity|discriminate|reflexivity]. }
  assert (Hadd : DocumentManagerMore.ready (Resolved reply) = false).
  { unfold DocumentManagerMore.ready, firstStatus, status_is in *.
    destruct (firstDoc reply) as [d|]; [|reflexivity].
    rewrite Hsame. unfold no_status in Hno.
    destruct (upload_status result) as [[|c st]|]; [reflexivity|discriminate|reflexivity]. }
  split.
  - pose proof (upload_status_decides onDocumentsChange f result listing s) as D.
    cbv zeta in D. fold up in D. rewrite Hup in D. destruct D as [He [Hs Hout]].
    split; [exact Hup|]. unfold errorBanner, successBanner. rewrite He, Hs.
    unfold no_status in Hno.
    destruct (upload_status result) as [[|c st]|]; try discriminate; now repeat split.
  - pose proof (url_status_decides onDocumentsChange reply listing u Hne Hscheme) as D.
    cbv zeta in D. fold add in D. rewrite Hadd in D.
    destruct D as [[m [He [Hb Hm]]] [Hs Hout]].
    split; [exact Hadd|]. unfold successBanner. rewrite Hs.
    assert (m = js "添加 URL 失败") as ->.
    { destruct Hm as [[Hst Hf]|Hm]; [|exact Hm].
      rewrite Hsame in Hst. rewrite Hst in Hno. cbn in Hno.
      destruct m; [discriminate Hf|discriminate Hno]. }
    now repeat split.
Qed.

(** An upload and a URL that the server refused, with the add dialog open
    on its file tab and on its URL tab. *)
Lemma upload_without_status_is_silent_witness :
  let up := handleFileSelect true (Some a_file) (Resolved upload_refused)
              unchanged_list (typing_url []) in
  let add := handleAddUrl true (Resolved ingest_refused) unchanged_list
               (typing_url (js "https://example.com/doc")) in
  (upload_ready upload_refused = false
   /\ errorBanner (fst up) = None
   /\ successBanner (fst up) = None
   /\ snd up = [UploadDocument a_file])
  /\ (DocumentManagerMore.ready (Resolved ingest_refused) = false
      /\ errorBanner (fst add) = Some (js "添加 URL 失败")
      /\ successBanner (fst add) = None
      /\ snd add = [IngestUrls [trim (urlInput (typing_url (js "https://example.com/doc")))]]).
Proof.
  exact (upload_without_status_is_silent true a_file upload_refused ingest_refused
           unchanged_list (typing_url []) (typing_url (js "https://example.com/doc"))
           eq_refl eq_refl eq_refl (or_intror eq_refl)).
Defined.

(** The same with a reply of the declared shape whose status is the empty
    string. *)
Example empty_status_shows_nothing :
  let up := handleFileSelect true (Some a_file) (Resolved (uploaded []))
              unchanged_list (typing_url []) in
  let add := handleAddUrl true (Resolved (ingested [])) unchanged_list
               (typing_url (js "https://example.com/doc")) in
  errorBanner (fst up) = None
  /\ successBanner (fst up) = None
  /\ snd up = [UploadDocument a_file]
  /\ errorBanner (fst add) = Some (js "添加 URL 失败").
Proof. vm_compute. repeat split; reflexivity. Qed.

(** Every other status is handled as the claim says. *)
Example statuses_that_are_shown :
  let s := typing_url (js "https://example.com/doc") in
  let up := handleFileSelect true (Some a_file)
              (Resolved (uploaded (js "failed: empty file"))) unchanged_list s in
  let add := handleAddUrl true (Resolved (ingested (js "processing"))) unchanged_list s in
  errorBanner (fst up) = Some (js "failed: empty file")
  /\ snd up = [UploadDocument a_file]
  /\ errorBanner (fst add) = Some (js "添加 URL 失败")
  /\ snd add = [IngestUrls [js "https://example.com/doc"]].
Proof. vm_compute. repeat split; reflexivity. Qed.

Example ready_reloads :
  let s := typing_url (js "https://example.com/doc") in
  let up := handleFileSelect true (Some a_file) (Resolved (uploaded (js "ready")))
              unchanged_list s in
  let add := handleAddUrl true (Resolved (ingested (js "ready"))) unchanged_list s in
  snd up = [UploadDocument a_file; GetDocumentList; OnDocumentsChange]
  /\ snd add = [IngestUrls [js "https://example.com/doc"]; GetDocumentList; OnDocumentsChange]
  /\ successMsg (fst add)
     = Some (js "URL " ++ [QUOTE] ++ js "https://example.com/doc" ++ [QUOTE]
                ++ js " 添加成功，已处理 3 个片段")
  /\ addDialogOpen (fst add) = false.
Proof. vm_compute. repeat split; reflexivity. Qed.

End DocumentManagerFacts.

(* ===================================================================== *)
(** * ChatBox *)
(* ===================================================================== *)

Module ChatBoxFacts.
Import ChatBox.

(** C6, amended. [handleSubmit] starts a chat request exactly when the
    text is not empty once trimmed or an image is attached, no request is
    in flight, and the back end is marked available; a text is not needed
    when an image is attached.  With neither text nor image it returns at
    once: nothing is sent, no message is added, no state changes. *)
Theorem handleSubmit_sends (sessionId : option jsstring) (now : Z) (s : State) :
  sends (snd (handleSubmit sessionId now s))
  = (truthy (trim (input s)) || truthy (selectedImageData s))
    && negb (isLoading s) && isBackendAvailable s
  /\ (if truthy (trim (input s)) || truthy (selectedImageData s)
      then True
      else handleSubmit sessionId now s = (s, [PreventDefault])).
Proof.
  unfold handleSubmit.
  destruct (truthy (trim (input s))), (truthy (selectedImageData s)),
    (isLoading s), (isBackendAvailable s); cbn; split; reflexivity || exact I.
Qed.

(** C6 as stated fails: with a text typed in and no request in flight,
    nothing is sent while the back end is marked unavailable. *)
Lemma handleSubmit_offline :
  let s := typed (js "hi") false in
  truthy (trim (input s)) = true
  /\ isLoading s = false
  /\ handleSubmit None 0 s
     = ({| messages := []; input := []; isLoading := true;
           isLoadingHistory := false; isBackendAvailable := false;
           selectedImageData := []; selectedImageFormat := [] |},
        [PreventDefault; SetTimeout 500])
  /\ sends (snd (handleSubmit None 0 s)) = false.
Proof. vm_compute. repeat split; reflexivity. Qed.

Example handleSubmit_online :
  snd (handleSubmit (Some (js "s1")) 0 (typed (js " hi ") true))
  = [PreventDefault; StreamMessage (js "hi") (Some (js "s1")) [] []].
Proof. vm_compute. reflexivity. Qed.

End ChatBoxFacts.

(* ===================================================================== *)
(** * ImageUploader *)
(* ===================================================================== *)

Module ImageUploaderFacts.
Import ImageUploader.

(** C10. [handleFileSelect] calls [onImageSelect] and sets the preview
    only for a file whose type starts with "image/" and whose size is at
    most 10485760: for no file, a file of another type or a larger file,
    there is no selection and the state, preview included, is unchanged. *)
Theorem handleFileSelect_guards (file : option File) (loaded : option jsstring)
    (s : State) :
  acceptable file = false ->
  selects (snd (handleFileSelect file loaded s)) = false
  /\ fst (handleFileSelect file loaded s) = s.
Proof.
  unfold acceptable, handleFileSelect. intros Hfile.
  destruct file as [f|]; [|now split].
  destruct (startsWith (js "image/") (type f)); cbn [negb andb] in *; [|now split].
  change (10 * 1024 * 1024) with 10485760.
  destruct (Z.leb_spec (size f) 10485760); [discriminate|].
  destruct (Z.ltb_spec 10485760 (size f)); [now split|lia].
Qed.

(** An image one byte over the limit. *)
Lemma handleFileSelect_guards_witness :
  let big := Some {| type := js "image/png"; size := 10485761 |} in
  let s := {| preview := None; isDragging := false; isHovered := false |} in
  selects (snd (handleFileSelect big (Some (js "data:image/png;base64,AAAA")) s)) = false
  /\ fst (handleFileSelect big (Some (js "data:image/png;base64,AAAA")) s) = s.
Proof.
  apply (handleFileSelect_guards
           (Some {| type := js "image/png"; size := 10485761 |})
           (Some (js "data:image/png;base64,AAAA"))
           {| preview := None; isDragging := false; isHovered := false |}).
  vm_compute. reflexivity.
Defined.

(** An acceptable file that loads is selected, with its format and data. *)
Lemma handleFileSelect_selects (f : File) (result : jsstring) (s : State) :
  acceptable (Some f) = true ->
  truthy result = true ->
  handleFileSelect (Some f) (Some result) s
  = ({| preview := Some result; isDragging := isDragging s; isHovered := isHovered s |},
     [ReadAsDataURL f;
      OnImageSelect (split_comma_1 result)
        (match formatMatch result with Some g => g | None => js "png" end)]).
Proof.
  unfold acceptable, handleFileSelect. intros Hf Hr.
  apply andb_true_iff in Hf as [Ht Hs]. rewrite Ht, Hr. cbn [negb].
  change (10 * 1024 * 1024) with 10485760.
  destruct (Z.ltb_spec 10485760 (size f)); [|reflexivity].
  apply Z.leb_le in Hs. lia.
Qed.

Example select_at_the_limit :
  snd (handleFileSelect (Some {| type := js "image/svg+xml"; size := 10485760 |})
         (Some (js "data:image/svg+xml;base64,AAAA,BB"))
         {| preview := None; isDragging := false; isHovered := false |})
  = [ReadAsDataURL {| type := js "image/svg+xml"; size := 10485760 |};
     OnImageSelect (Some (js "AAAA")) (js "svg+xml")].
Proof. vm_compute. reflexivity. Qed.

End ImageUploaderFacts.

(* ===================================================================== *)
(** * More on truncateTitle *)
(* ===================================================================== *)

Module TitleFacts.
Import SessionList.

Lemma truncateTitle_length (title : jsstring) (n : nat) :
  length (truncateTitle title (Some (Z.of_nat n)))
  = if (length title <=? n)%nat then length title else (n + 3)%nat.
Proof.
  unfold truncateTitle, len.
  destruct (Nat.leb_spec (length title) n) as [Hl|Hl].
  - destruct (Z.leb_spec (Z.of_nat (length title)) (Z.of_nat n)); [reflexivity|lia].
  - destruct (Z.leb_spec (Z.of_nat (length title)) (Z.of_nat n)); [lia|].
    change 0 with (Z.of_nat 0). rewrite slice_nonneg by lia.
    rewrite length_app, length_firstn. js_literals. cbn [length skipn]. lia.
Qed.

(** X1. For every limit, [truncateTitle] gives a text shorter than the
    title exactly when the title is more than three code units over the
    limit; a title one to three units over the limit comes out as limit
    + 3 units, so not shorter than it was. *)
Theorem truncateTitle_shortens (title : jsstring) (n : nat) :
  ((length (truncateTitle title (Some (Z.of_nat n))) < length title)%nat
   <-> (n + 3 < length title)%nat)
  /\ (if (length title <=? n)%nat then truncateTitle title (Some (Z.of_nat n)) = title
      else length (truncateTitle title (Some (Z.of_nat n))) = (n + 3)%nat
           /\ firstn n (truncateTitle title (Some (Z.of_nat n))) = firstn n title).
Proof.
  rewrite truncateTitle_length.
  destruct (Nat.leb_spec (length title) n) as [Hl|Hl].
  - split; [lia|]. unfold truncateTitle, len.
    destruct (Z.leb_spec (Z.of_nat (length title)) (Z.of_nat n)); [reflexivity|lia].
  - split; [lia|]. split; [reflexivity|].
    unfold truncateTitle, len.
    destruct (Z.leb_spec (Z.of_nat (length title)) (Z.of_nat n)); [lia|].
    change 0 with (Z.of_nat 0). rewrite slice_nonneg by lia.
    cbn [skipn]. rewrite Nat.sub_0_r.
    rewrite firstn_app, firstn_firstn, Nat.min_id, length_firstn.
    replace (n - Nat.min n (length title))%nat with 0%nat by lia.
    cbn [firstn]. now rewrite app_nil_r.
Qed.

Example title_of_26_grows :
  length (truncateTitle (js "abcdefghijklmnopqrstuvwxyz") None) = 28%nat.
Proof. vm_compute. reflexivity. Qed.

End TitleFacts.

(* ===================================================================== *)
(** * SessionList: the groups *)
(* ===================================================================== *)

Module SessionGroupsFacts.
Import Sessions SessionGroups.

Lemma group_push (g k : DateGroup) (x : Session) (groups : Groups) :
  group k (push g x groups)
  = group k groups ++ (if group_eqb g k then [x] else []).
Proof. destruct g, k; cbn; now rewrite ?app_nil_r. Qed.

Lemma four_filters {A} (f : A -> DateGroup) (l : list A) :
  Permutation l
    (filter (fun x => group_eqb (f x) today) l
     ++ filter (fun x => group_eqb (f x) yesterday) l
     ++ filter (fun x => group_eqb (f x) previous7days) l
     ++ filter (fun x => group_eqb (f x) older) l).
Proof.
  induction l as [|x l IH]; [reflexivity|].
  cbn [filter]. destruct (f x); cbn [group_eqb app].
  - now apply perm_skip.
  - rewrite <- Permutation_middle. now apply perm_skip.
  - rewrite app_assoc, <- Permutation_middle, <- app_assoc. now apply perm_skip.
  - rewrite !app_assoc, <- Permutation_middle, <- !app_assoc. now apply perm_skip.
Qed.

Section Grouping.
Context `{DocumentManager.Locale}.

Lemma grouped_from (midnight : Z) (k : DateGroup) (sessions : list Session) :
  forall groups : Groups,
    group k (fold_left (fun acc x => push (group_of midnight x) x acc) sessions groups)
    = group k groups
        ++ filter (fun x => group_eqb (group_of midnight x) k) sessions.
Proof.
  induction sessions as [|x l IH]; intros groups; cbn [fold_left filter].
  - now rewrite app_nil_r.
  - rewrite IH, group_push.
    destruct (group_eqb (group_of midnight x) k); cbn [app].
    + now rewrite <- app_assoc.
    + now rewrite app_nil_r.
Qed.

Lemma group_of_range (midnight : Z) (x : Session) (k : DateGroup) :
  group_eqb (group_of midnight x) k
  = match k, date_of x with
    | today, Some t => midnight <=? t
    | yesterday, Some t => (midnight - 86400000 <=? t) && (t <? midnight)
    | previous7days, Some t =>
        (midnight - 604800000 <=? t) && (t <? midnight - 86400000)
    | older, Some t => t <? midnight - 604800000
    | older, None => true
    | _, None => false
    end.
Proof.
  unfold group_of, at_least. destruct (date_of x) as [t|]; [|now destruct k].
  destruct (Z.leb_spec midnight t), (Z.leb_spec (midnight - 86400000) t),
    (Z.leb_spec (midnight - 86400000 * 7) t), (Z.leb_spec (midnight - 604800000) t),
    (Z.ltb_spec t midnight), (Z.ltb_spec t (midnight - 86400000)),
    (Z.ltb_spec t (midnight - 604800000));
    try lia; now destruct k.
Qed.

(** X2. The date of a session is that of its last activity, or of its
    creation when it has none; with [t] the time of that date and [m] the
    local midnight of today, the four groups hold, in the order of the
    list, the sessions with [m <= t], with [m - 1 day <= t < m], with
    [m - 7 days <= t < m - 1 day], and the rest: [t < m - 7 days] or a date
    that cannot be read.  Together they are a permutation of the list. *)
Theorem groupedSessions_partition (midnight : Z) (sessions : list Session) :
  let day := 86400000 in
  let t x := DocumentManager.getTime (match last_activity x with
                                      | Some a => if truthy a then a else created x
                                      | None => created x
                                      end) in
  let within (lo hi : option Z) (x : Session) :=
    match t x with
    | Some d => match lo with Some l => l <=? d | None => true end
                && match hi with Some h => d <? h | None => true end
    | None => match lo with Some _ => false | None => true end
    end in
  g_today (groupedSessions midnight sessions)
  = filter (within (Some midnight) None) sessions
  /\ g_yesterday (groupedSessions midnight sessions)
     = filter (within (Some (midnight - day)) (Some midnight)) sessions
  /\ g_previous7days (groupedSessions midnight sessions)
     = filter (within (Some (midnight - 7 * day)) (Some (midnight - day))) sessions
  /\ g_older (groupedSessions midnight sessions)
     = filter (within None (Some (midnight - 7 * day))) sessions
  /\ Permutation sessions
       (g_today (groupedSessions midnight sessions)
        ++ g_yesterday (groupedSessions midnight sessions)
        ++ g_previous7days (groupedSessions midnight sessions)
        ++ g_older (groupedSessions midnight sessions)).
Proof.
  intros day t within.
  assert (E : forall k, group k (groupedSessions midnight sessions)
                        = filter (fun x => group_eqb (group_of midnight x) k) sessions).
  { intros k. unfold groupedSessions. rewrite grouped_from. now destruct k. }
  pose proof (E today) as E1. pose proof (E yesterday) as E2.
  pose proof (E previous7days) as E3. pose proof (E older) as E4.
  cbn [group] in E1, E2, E3, E4.
  assert (R : forall k x,
             group_eqb (group_of midnight x) k
             = match k with
               | today => within (Some midnight) None x
               | yesterday => within (Some (midnight - day)) (Some midnight) x
               | previous7days =>
                   within (Some (midnight - 7 * day)) (Some (midnight - day)) x
               | older => within None (Some (midnight - 7 * day)) x
               end).
  { intros k x. rewrite group_of_range. subst within t day. unfold date_of. cbv beta.
    destruct (DocumentManager.getTime _) as [d|]; destruct k; cbn [andb];
      rewrite ?andb_true_r; reflexivity. }
  repeat split.
  - rewrite E1. apply filter_ext. intros x. apply (R today).
  - rewrite E2. apply filter_ext. intros x. apply (R yesterday).
  - rewrite E3. apply filter_ext. intros x. apply (R previous7days).
  - rewrite E4. apply filter_ext. intros x. apply (R older).
  - rewrite E1, E2, E3, E4. apply four_filters.
Qed.

End Grouping.

Lemma toggleGroup_twice (g k : DateGroup) (expandedGroups : DateGroup -> bool) :
  toggleGroup g (toggleGroup g expandedGroups) k = expandedGroups k.
Proof.
  unfold toggleGroup. destruct g, k; cbn; try reflexivity; apply negb_involutive.
Qed.

Example groups_of_a_week :
  let midnight := 1709596800000 in
  let sessions :=
    [a_session "a" (Some "2024-03-05"%string) "2024-03-01";
     a_session "b" None "2024-03-04";
     a_session "c" (Some "garbled"%string) "2024-03-05";
     a_session "d" (Some "2024-02-28"%string) "2024-01-01";
     a_session "e" None "2024-03-05";
     a_session "f" (Some "2024-02-26"%string) "2024-03-05"] in
  let groups := @groupedSessions DocumentManager.sample_locale midnight sessions in
  map (map id) [g_today groups; g_yesterday groups; g_previous7days groups; g_older groups]
  = [map js ["a"; "e"]%string; map js ["b"]%string; map js ["d"]%string;
     map js ["c"; "f"]%string].
Proof. vm_compute. reflexivity. Qed.

End SessionGroupsFacts.

(* ===================================================================== *)
(** * More on streamMessage *)
(* ===================================================================== *)

Module StreamFacts.
Import Api StreamNetwork.

(** ** The request *)

(** X3. The request body carries an image exactly when it carries an image
    format; the image is then the data given, which is not blank, and the
    format is not empty; the session id is passed on as given. *)
Theorem requestBody_image (message : jsstring)
    (sessionId imageData imageFormat : option jsstring) :
  let b := requestBody message sessionId imageData imageFormat in
  session_id b = sessionId
  /\ (image b = None <-> image_format b = None)
  /\ (forall d, image b = Some d -> imageData = Some d /\ trim d <> [])
  /\ (forall f, image_format b = Some f -> f <> []).
Proof.
  unfold requestBody. cbn [session_id image image_format].
  split; [reflexivity|].
  destruct (image_given imageData) eqn:Hg.
  - unfold image_given in Hg. destruct imageData as [d|]; [|discriminate].
    apply andb_true_iff in Hg as [_ Ht].
    split; [split; discriminate|]. split.
    + intros d' E. injection E as <-. split; [reflexivity|].
      intros E. now rewrite E in Ht.
    + intros f E. injection E as <-.
      destruct imageFormat as [[|c f]|]; cbn [truthy]; js_literals; discriminate.
  - split; [split; reflexivity|]. split; intros ? E; discriminate.
Qed.

(** ** Lines *)

Lemma no_lf_one_line (t : jsstring) : no_lf t = true -> split_lines t = [t].
Proof.
  induction t as [|c t IH]; [reflexivity|].
  cbn [no_lf forallb]. intros Ht. apply andb_true_iff in Ht as [Hc Ht].
  apply negb_true_iff in Hc. cbn [split_lines]. rewrite Hc.
  fold (no_lf t) in Ht. now rewrite (IH Ht).
Qed.

Lemma one_line_no_lf (t : jsstring) : split_lines t = [t] -> no_lf t = true.
Proof.
  induction t as [|c t IH]; [reflexivity|].
  cbn [split_lines no_lf forallb].
  destruct (c =? LF)%N eqn:Hc; [discriminate|].
  pose proof (ApiFacts.split_lines_nonempty t) as Hne.
  destruct (split_lines t) as [|l ls]; [congruence|].
  intros E. injection E as El Els. subst. cbn [negb andb]. now apply IH.
Qed.

Lemma pending_no_lf (t : jsstring) : no_lf (last (split_lines t) []) = true.
Proof. apply one_line_no_lf, ApiFacts.pending_is_one_line. Qed.

(** A text with no line feed adds no complete line. *)
Lemma complete_lines_tail (t tail : jsstring) :
  no_lf tail = true -> complete_lines (t ++ tail) = complete_lines t.
Proof.
  intros Ht. rewrite ApiFacts.complete_lines_app.
  unfold complete_lines at 2.
  rewrite no_lf_one_line.
  - cbn [removelast]. apply app_nil_r.
  - rewrite ApiFacts.no_lf_app, pending_no_lf. exact Ht.
Qed.

Section Stream.
Context `{Builtins}.

(** X4. What follows the last line feed of the body is never read: a last
    chunk whose text holds no line feed changes nothing in what the caller
    receives, so a final data line that is not ended is lost. *)
Theorem unended_line_is_dropped (message : jsstring)
    (sessionId imageData imageFormat : option jsstring)
    (chunks : list (list byte)) (tail : list byte) :
  no_lf (snd (decode (fst (decode decoder_init (concat chunks))) tail)) = true ->
  tokens_received message sessionId imageData imageFormat (chunks ++ [tail])
  = tokens_received message sessionId imageData imageFormat chunks.
Proof.
  intros Htail. rewrite !ApiFacts.tokens_received_text.
  rewrite concat_app. cbn [concat]. rewrite app_nil_r.
  unfold decode_text. rewrite ApiFacts.decode_app. cbn [snd].
  now rewrite complete_lines_tail.
Qed.

(** On a network where everything settles, the run is the one of
    [streamMessage]. *)
Lemma streamMessage_over_settled (message : jsstring)
    (sessionId imageData imageFormat : option jsstring) (r : Response) :
  streamMessage_over message sessionId imageData imageFormat (settled_as r)
  = (fst (streamMessage message sessionId imageData imageFormat r),
     outcome_of (snd (streamMessage message sessionId imageData imageFormat r))).
Proof.
  unfold streamMessage_over, settled_as, streamMessage.
  destruct (ok r); cbn [negb]; [|reflexivity].
  destruct (body r) as [chunks|]; [|reflexivity].
  destruct (read_loop decoder_init [] (initial_cursor sessionId) chunks) as [out [[]| |e]];
    reflexivity.
Qed.

(** X5. How [streamMessage] fails.  It throws an error of its own exactly
    for a response that is not OK whose text could be read, with the
    status and that text, and for an OK response without a body.  It
    passes on a rejection exactly when [fetch] is rejected, when the text
    of a response that is not OK cannot be read, or when a read of the
    body is rejected before a [done] event has ended the generator.  In
    that last case every fragment of the chunks read so far has been
    yielded; in the others nothing has. *)
Theorem streamMessage_throws (message : jsstring)
    (sessionId imageData imageFormat : option jsstring) (x : exchange) :
  let run := streamMessage_over message sessionId imageData imageFormat x in
  (forall e : error,
      snd run = Thrown e
      <-> (exists status errorText,
              x = Refused status (Fulfilled errorText) /\ e = ApiError status errorText)
          \/ (x = NoBody /\ e = NoResponseBody))
  /\ (forall err : exn,
         snd run = Rejection err
         <-> x = FetchRejected err
             \/ (exists status, x = Refused status (Failed err))
             \/ (exists chunks,
                    x = Streamed chunks (ReadRejected err)
                    /\ snd (streamMessage message sessionId imageData imageFormat
                              (response_of chunks)) <> Return))
  /\ yields (fst run)
     = match x with
       | Streamed chunks _ =>
           tokens_received message sessionId imageData imageFormat chunks
       | _ => []
       end.
Proof.
  destruct x as [err0|status [errorText|err0]| |chunks e0]; cbn zeta.
  - cbn. split; [|split; [|reflexivity]].
    + intros e. split; [discriminate|].
      intros [[st [t [E _]]]|[E _]]; discriminate.
    + intros err. split.
      * intros E. injection E as <-. now left.
      * intros [E|[[st E]|[ch [E _]]]]; try discriminate. now injection E as <-.
  - cbn. split; [|split; [|reflexivity]].
    + intros e. split.
      * intros E. injection E as <-. left. now exists status, errorText.
      * intros [[st [t [E ->]]]|[E _]]; [|discriminate]. now injection E as <- <-.
    + intros err. split; [discriminate|].
      intros [E|[[st E]|[ch [E _]]]]; discriminate.
  - cbn. split; [|split; [|reflexivity]].
    + intros e. split; [discriminate|].
      intros [[st [t [E _]]]|[E _]]; discriminate.
    + intros err. split.
      * intros E. injection E as <-. right. left. now exists status.
      * intros [E|[[st E]|[ch [E _]]]]; try discriminate. now injection E as _ <-.
  - cbn. split; [|split; [|reflexivity]].
    + intros e. split.
      * intros E. injection E as <-. now right.
      * intros [[st [t [E _]]]|[_ ->]]; [discriminate|reflexivity].
    + intros err. split; [discriminate|].
      intros [E|[[st E]|[ch [E _]]]]; discriminate.
  - pose proof (fun e => ApiFacts.streamMessage_body_never_throws
                           message sessionId imageData imageFormat chunks e) as Hn.
    unfold tokens_received. revert Hn.
    unfold streamMessage_over, streamMessage, response_of. cbn [ok body negb].
    destruct (read_loop decoder_init [] (initial_cursor sessionId) chunks)
      as [out [[]| |e1]] eqn:Er; cbn [fst snd]; intros Hn.
    + split; [|split; [|reflexivity]].
      * intros e. split; [destruct e0; discriminate|].
        intros [[st [t [E _]]]|[E _]]; discriminate.
      * intros err. split.
        -- destruct e0 as [|err1]; [discriminate|]. intros E. injection E as <-.
           right. right. exists chunks. split; [reflexivity|].
           rewrite Er. discriminate.
        -- intros [E|[[st E]|[ch [E _]]]]; try discriminate. injection E as _ ->. reflexivity.
    + split; [|split; [|reflexivity]].
      * intros e. split; [discriminate|].
        intros [[st [t [E _]]]|[E _]]; discriminate.
      * intros err. split; [discriminate|].
        intros [E|[[st E]|[ch [E Hr]]]]; try discriminate.
        injection E as <- _. rewrite Er in Hr. now destruct Hr.
    + now destruct (Hn e1).
Qed.

Example cut_after_two_tokens :
  let run := @streamMessage_over browser (js "hi") None None None hello_then_cut in
  yields (fst run) = [Str (js "Hel"); Str (js "lo")]
  /\ snd run = Rejection (TypeErr (js "network error")).
Proof. vm_compute. split; reflexivity. Qed.

(** X20. Once a [done] event has made the generator return, the rest of
    the body is not read: whatever chunks follow, the run is the same, in
    what it yields, what it logs and how it ends. *)
Theorem done_stops_reading (message : jsstring)
    (sessionId imageData imageFormat : option jsstring)
    (chunks more : list (list byte)) :
  snd (streamMessage message sessionId imageData imageFormat (response_of chunks))
  = Return ->
  streamMessage message sessionId imageData imageFormat (response_of (chunks ++ more))
  = streamMessage message sessionId imageData imageFormat (response_of chunks).
Proof.
  unfold streamMessage, response_of. cbn [ok body negb].
  rewrite !ApiFacts.stream_text. cbn [snd].
  rewrite concat_app. unfold decode_text. rewrite ApiFacts.decode_app. cbn [snd].
  rewrite ApiFacts.complete_lines_app, ApiFacts.for_lines_app.
  destruct (for_lines (initial_cursor sessionId)
              (complete_lines (snd (decode decoder_init (concat chunks)))))
    as [out [c| |e]]; cbn [forget snd fst]; intros E; try discriminate.
  reflexivity.
Qed.

End Stream.

(** [stream_hello] whole, then one more token. *)
Lemma done_stops_reading_witness :
  let more := [ascii_bytes (wire (event "token" "{'token':'late'}"))] in
  @streamMessage browser (js "hi") None None None (response_of ([body_hello] ++ more))
  = @streamMessage browser (js "hi") None None None (response_of [body_hello]).
Proof.
  apply (@done_stops_reading browser (js "hi") None None None [body_hello]
           [ascii_bytes (wire (event "token" "{'token':'late'}"))]).
  vm_compute. reflexivity.
Defined.

(** [stream_hello] without its [done] event, then a token whose data line
    nothing ends. *)
Lemma unended_line_is_dropped_witness :
  let sent := [ascii_bytes (wire_all (removelast stream_hello)
                              ++ js "event: token" ++ [LF])] in
  let tail := ascii_bytes (js "data: " ++ jsq "{'token':'lost'}") in
  @tokens_received browser (js "hi") None None None (sent ++ [tail])
  = @tokens_received browser (js "hi") None None None sent.
Proof.
  apply (@unended_line_is_dropped browser (js "hi") None None None
           [ascii_bytes (wire_all (removelast stream_hello)
                           ++ js "event: token" ++ [LF])]
           (ascii_bytes (js "data: " ++ jsq "{'token':'lost'}"))).
  vm_compute. reflexivity.
Defined.

Example unended_line_tokens :
  @tokens_received browser (js "hi") None None None
    [ascii_bytes (wire_all (removelast stream_hello) ++ js "event: token" ++ [LF]);
     ascii_bytes (js "data: " ++ jsq "{'token':'lost'}")]
  = [Str (js "Hel"); Str (js "lo")].
Proof. vm_compute. reflexivity. Qed.

End StreamFacts.

(* ===================================================================== *)
(** * ChatBox: the reply *)
(* ===================================================================== *)

Module ChatBoxStreamFacts.
Import ChatBox ChatBoxStream.

Lemma set_last_content_last (text : jsstring) (msgs : list ChatMessage) (m : ChatMessage) :
  set_last_content text (msgs ++ [m]) = msgs ++ [with_content text m].
Proof.
  induction msgs as [|a msgs IH]; [reflexivity|].
  cbn [app set_last_content]. rewrite IH.
  destruct (msgs ++ [m]) eqn:E; [|reflexivity].
  now destruct msgs.
Qed.

Lemma with_content_again (a b : jsstring) (m : ChatMessage) :
  with_content a (with_content b m) = with_content a m.
Proof. reflexivity. Qed.

Lemma texts_strings (ts : list jsstring) : texts (map Str ts) = Some ts.
Proof. induction ts as [|t ts IH]; cbn; [reflexivity|now rewrite IH]. Qed.

Section Reply.
Context `{Builtins}.

Lemma receive_cases (props : Props) (sessionId : option jsstring) (token : jsstring)
    (reply : jsstring * list ChatMessage) :
  (is_text token = true
   /\ receive props sessionId token reply
      = ((fst reply ++ token, set_last_content (fst reply ++ token) (snd reply)), []))
  \/ (is_text token = false /\ fst (receive props sessionId token reply) = reply).
Proof.
  unfold receive, is_text.
  destruct (JSON_parse token) as [parsed|]; [|now left].
  destruct parsed; cbn [get]; try (now left);
    right; (split; [reflexivity|]);
    match goal with |- context [if ?b then _ else _] => now destruct b end.
Qed.

Lemma filter_none {A} (f : A -> bool) (l : list A) :
  existsb f l = false -> filter f l = [].
Proof.
  induction l as [|x l IH]; [reflexivity|].
  cbn. destruct (f x); [discriminate|exact IH].
Qed.

Lemma receive_all_reply (props : Props) (sessionId : option jsstring)
    (tokens : list jsstring) :
  forall (full : jsstring) (msgs : list ChatMessage) (m : ChatMessage),
    fst (receive_all props sessionId tokens (full, msgs ++ [m]))
    = (full ++ concat (filter is_text tokens),
       if existsb is_text tokens
       then msgs ++ [with_content (full ++ concat (filter is_text tokens)) m]
       else msgs ++ [m]).
Proof.
  induction tokens as [|token tokens IH]; intros full msgs m.
  - cbn. now rewrite app_nil_r.
  - cbn [receive_all filter existsb].
    destruct (receive_cases props sessionId token (full, msgs ++ [m])) as [[Hp E]|[Hp E]];
      rewrite Hp; cbn [orb].
    + rewrite E. cbn [fst snd]. rewrite set_last_content_last.
      specialize (IH (full ++ token) msgs (with_content (full ++ token) m)).
      destruct (receive_all props sessionId tokens _) as [reply2 calls2].
      cbn [fst] in *. rewrite IH. cbn [concat]. rewrite <- app_assoc.
      destruct (existsb is_text tokens) eqn:Hex.
      * reflexivity.
      * rewrite (filter_none _ _ Hex). cbn [concat]. now rewrite !app_nil_r.
    + destruct (receive props sessionId token (full, msgs ++ [m])) as [reply1 calls1].
      cbn [fst] in E. subst reply1.
      specialize (IH full msgs m).
      destruct (receive_all props sessionId tokens _) as [reply2 calls2].
      exact IH.
Qed.

Lemma receive_all_text_calls (props : Props) (sessionId : option jsstring)
    (tokens : list jsstring) :
  forall reply : jsstring * list ChatMessage,
    forallb is_text tokens = true ->
    snd (receive_all props sessionId tokens reply) = [].
Proof.
  induction tokens as [|token tokens IH]; intros reply Hall; [reflexivity|].
  cbn [forallb] in Hall. apply andb_true_iff in Hall as [Hp Hall].
  cbn [receive_all].
  destruct (receive_cases props sessionId token reply) as [[_ E]|[Hn _]];
    [|congruence].
  rewrite E. specialize (IH (fst reply ++ token,
                             set_last_content (fst reply ++ token) (snd reply)) Hall).
  destruct (receive_all props sessionId tokens _) as [reply2 calls2].
  cbn [snd] in *. now subst.
Qed.

(** X6. While a reply streams in, the text shown in the last message is
    the concatenation, in order, of the fragments that [JSON.parse]
    rejects or reads as [null]; a fragment that is JSON of another kind,
    such as "42" or "true", is left out of the reply.  The messages before
    the last one are not touched, and fragments of the first kind cause no
    call of [onSessionChange]. *)
Theorem reply_accumulates (props : Props) (sessionId : option jsstring)
    (tokens : list jsstring) (full : jsstring) (msgs : list ChatMessage) (m : ChatMessage) :
  fst (receive_all props sessionId tokens (full, msgs ++ [m]))
  = (full ++ concat (filter is_text tokens),
     if existsb is_text tokens
     then msgs ++ [with_content (full ++ concat (filter is_text tokens)) m]
     else msgs ++ [m])
  /\ (if forallb is_text tokens
      then snd (receive_all props sessionId tokens (full, msgs ++ [m])) = []
      else True).
Proof.
  split; [apply receive_all_reply|].
  destruct (forallb is_text tokens) eqn:Hall; [|exact I].
  now apply receive_all_text_calls.
Qed.

End Reply.

(** ** The whole of handleSubmit *)

Lemma handleSubmit_enabled (sessionId : option jsstring) (now : Z) (s : State) :
  submit_disabled s = false ->
  handleSubmit sessionId now s
  = ({| messages := (messages s ++ [userMessage now s]) ++ [ChatBox.plain assistant [] now];
        input := []; isLoading := true; isLoadingHistory := isLoadingHistory s;
        isBackendAvailable := isBackendAvailable s;
        selectedImageData := []; selectedImageFormat := [] |},
     [PreventDefault;
      StreamMessage (trim (input s)) sessionId (selectedImageData s)
        (selectedImageFormat s)])
  /\ isBackendAvailable s = true.
Proof.
  unfold submit_disabled, handleSubmit. intros Hd.
  apply orb_false_iff in Hd as [Hd Ha]. apply orb_false_iff in Hd as [Hd Hl].
  rewrite Hd, Hl, Ha. cbn [orb]. apply negb_false_iff in Ha. now split.
Qed.

(** X9. The submit button is disabled exactly when [handleSubmit] would
    not start a request: the button and the handler apply the same
    test. *)
Theorem button_agrees_with_handler (sessionId : option jsstring) (now : Z) (s : State) :
  submit_disabled s = negb (sends (snd (handleSubmit sessionId now s))).
Proof.
  unfold submit_disabled, handleSubmit.
  destruct (truthy (trim (input s))), (truthy (selectedImageData s)),
    (isLoading s), (isBackendAvailable s); reflexivity.
Qed.

Section Whole.
Context `{Builtins}.

Lemma body_completes (message : jsstring)
    (sessionId imageData imageFormat : option jsstring) (chunks : list (list byte)) :
  ending_of (snd (Api.streamMessage message sessionId imageData imageFormat
                    (Api.response_of chunks)))
  = Some Completes.
Proof.
  pose proof (ApiFacts.streamMessage_body_never_throws message sessionId imageData
                imageFormat chunks) as Hn.
  destruct (snd (Api.streamMessage _ _ _ _ _)) as [[]| |e]; try reflexivity.
  now specialize (Hn e).
Qed.

Lemma filter_all {A} (f : A -> bool) (l : list A) :
  forallb f l = true -> filter f l = l.
Proof.
  induction l as [|x l IH]; [reflexivity|].
  cbn. destruct (f x); [|discriminate]. intros Hl. now rewrite IH.
Qed.

(** X7. From the response to the conversation: when the body is a stream
    of well-formed events whose tokens, up to the first [done] event, are
    texts that are not JSON, an enabled [handleSubmit] ends with the
    messages it had, the message of the user and one answer whose content
    is those tokens joined in order; the composer is empty and no longer
    loading, the back end is marked available, and [onSessionChange] is
    not called, whatever the metadata events of the stream say. *)
Theorem converse_shows_reply (props : Props) (sessionId : option jsstring) (now : Z)
    (s : State) (evs : list Api.sse_event) (chunks : list (list byte))
    (ts : list jsstring) :
  submit_disabled s = false ->
  forallb Api.wf_event evs = true ->
  Api.decode_text (concat chunks) = Api.wire_all evs ->
  Api.delivered_tokens evs = map Str ts ->
  forallb is_text ts = true ->
  converse props sessionId now s (Api.response_of chunks)
  = Some ({| messages := messages s
                           ++ [userMessage now s;
                               with_content (concat ts) (ChatBox.plain assistant [] now)];
             input := []; isLoading := false; isLoadingHistory := isLoadingHistory s;
             isBackendAvailable := true;
             selectedImageData := []; selectedImageFormat := [] |},
          [PreventDefault;
           StreamMessage (trim (input s)) sessionId (selectedImageData s)
             (selectedImageFormat s)],
          (if onRefreshSessions props then [RefreshSessions] else []) ++ [Focus]).
Proof.
  intros Hd Hwf Htext Hts Hplain. unfold converse.
  rewrite body_completes.
  change (Api.yields (fst (Api.streamMessage (trim (input s)) sessionId
                             (Some (selectedImageData s)) (Some (selectedImageFormat s))
                             (Api.response_of chunks))))
    with (Api.tokens_received (trim (input s)) sessionId (Some (selectedImageData s))
            (Some (selectedImageFormat s)) chunks).
  rewrite ApiFacts.tokens_received_text, Htext, (ApiFacts.for_lines_events evs Hwf), Hts.
  rewrite texts_strings. unfold submit.
  destruct (handleSubmit_enabled sessionId now s Hd) as [E _]. rewrite E.
  cbn [sends existsb orb messages].
  pose proof (receive_all_reply props sessionId ts [] (messages s ++ [userMessage now s])
                (ChatBox.plain assistant [] now)) as Hr.
  pose proof (receive_all_text_calls props sessionId ts
                ([], (messages s ++ [userMessage now s]) ++ [ChatBox.plain assistant [] now])
                Hplain) as Hc.
  destruct (receive_all props sessionId ts _) as [reply calls].
  cbn [fst snd] in Hr, Hc. subst reply calls. cbn [fst snd app].
  rewrite (filter_all _ _ Hplain).
  do 2 f_equal. f_equal.
  destruct ts as [|t ts']; cbn [existsb].
  - cbn. now rewrite <- app_assoc.
  - cbn [forallb] in Hplain. apply andb_true_iff in Hplain as [Ht _].
    rewrite Ht. cbn [orb]. now rewrite <- app_assoc.
Qed.

(** X8. When the generator throws, whatever fragments had arrived, the
    answer shown is the failure text: the warning that the server is not
    connected for a network error, "Error: " and the message otherwise.
    The loading flag is cleared, the back end is marked unavailable
    exactly for a network error, and [onRefreshSessions] is not called. *)
Theorem submit_failure (props : Props) (sessionId : option jsstring) (now : Z)
    (s : State) (tokens : list jsstring) (err : exn) :
  submit_disabled s = false ->
  submit props sessionId now s tokens (Throws err)
  = ({| messages := messages s
                      ++ [userMessage now s;
                          with_content (failure_text err) (ChatBox.plain assistant [] now)];
        input := []; isLoading := false; isLoadingHistory := isLoadingHistory s;
        isBackendAvailable := negb (isNetworkError err);
        selectedImageData := []; selectedImageFormat := [] |},
     [PreventDefault;
      StreamMessage (trim (input s)) sessionId (selectedImageData s)
        (selectedImageFormat s)],
     snd (receive_all props sessionId tokens
            ([], (messages s ++ [userMessage now s]) ++ [ChatBox.plain assistant [] now]))
       ++ [Focus]).
Proof.
  intros Hd. unfold submit.
  destruct (handleSubmit_enabled sessionId now s Hd) as [E Ha]. rewrite E.
  cbn [sends existsb orb messages isBackendAvailable].
  pose proof (receive_all_reply props sessionId tokens []
                (messages s ++ [userMessage now s])
                (ChatBox.plain assistant [] now)) as Hr.
  destruct (receive_all props sessionId tokens _) as [reply calls].
  cbn [fst snd] in *. subst reply. cbn [snd]. rewrite Ha.
  match goal with
  | |- context [set_last_content ?t ?l] =>
      assert (Em : set_last_content t l
                   = messages s
                       ++ [userMessage now s;
                           with_content (failure_text err) (ChatBox.plain assistant [] now)])
  end.
  { destruct (existsb is_text tokens); rewrite set_last_content_last;
      now rewrite <- app_assoc. }
  rewrite Em. cbn. now destruct (isNetworkError err).
Qed.

End Whole.

(** [stream_hello] arriving in four chunks, after "hi" was typed. *)
Lemma converse_shows_reply_witness :
  @converse browser all_props None 7 (typed (js "hi") true)
    (Api.response_of Api.chunks_hello)
  = Some ({| messages := [userMessage 7 (typed (js "hi") true);
                          with_content (js "Hello") (ChatBox.plain assistant [] 7)];
             input := []; isLoading := false; isLoadingHistory := false;
             isBackendAvailable := true;
             selectedImageData := []; selectedImageFormat := [] |},
          [PreventDefault; StreamMessage (js "hi") None [] []],
          [RefreshSessions; Focus]).
Proof.
  exact (@converse_shows_reply browser all_props None 7 (typed (js "hi") true)
           Api.stream_hello Api.chunks_hello [js "Hel"; js "lo"]
           eq_refl eq_refl eq_refl eq_refl eq_refl).
Defined.

(** The connection breaks after "Hel" has arrived. *)
Lemma submit_failure_witness :
  fst (fst (@submit browser all_props None 7 (typed (js "hi") true) [js "Hel"]
              (Throws (TypeErr (js "Failed to fetch")))))
  = {| messages := [userMessage 7 (typed (js "hi") true);
                    with_content offline_warning (ChatBox.plain assistant [] 7)];
       input := []; isLoading := false; isLoadingHistory := false;
       isBackendAvailable := false;
       selectedImageData := []; selectedImageFormat := [] |}.
Proof.
  rewrite (@submit_failure browser all_props None 7 (typed (js "hi") true) [js "Hel"]
             (TypeErr (js "Failed to fetch")) eq_refl).
  reflexivity.
Defined.

Example server_error_is_shown :
  option_map (fun r => map content (messages (fst (fst r))))
    (@converse browser all_props None 7 (typed (js "hi") true)
       {| Api.ok := false; Api.status := 500; Api.text := js "boom"; Api.body := None |})
  = Some [js "hi"; js "Error: API Error 500: boom"].
Proof. vm_compute. reflexivity. Qed.

Example digits_are_left_out :
  fst (fst (@receive_all browser all_props None
              [js "The answer is "; js "42"; js "."] ([], [plain assistant [] 0])))
  = js "The answer is .".
Proof. vm_compute. reflexivity. Qed.

End ChatBoxStreamFacts.

(* ===================================================================== *)
(** * ImageUploader and the image of a message *)
(* ===================================================================== *)

Module ImageFacts.
Import ImageUploader ImageUploaderMore.

Lemma format_run_class (t : jsstring) :
  forallb is_format_char (fst (format_run t)) = true.
Proof.
  induction t as [|c t IH]; [reflexivity|].
  cbn [format_run]. destruct (is_format_char c) eqn:Hc; [|reflexivity].
  destruct (format_run t) as [run rest]. cbn [fst forallb] in *. now rewrite Hc.
Qed.

Lemma format_run_stops (format rest : jsstring) (c : code_unit) :
  forallb is_format_char format = true ->
  is_format_char c = false ->
  format_run (format ++ c :: rest) = (format, c :: rest).
Proof.
  intros Hf Hc. induction format as [|x format IH]; cbn [app format_run].
  - now rewrite Hc.
  - cbn [forallb] in Hf. apply andb_true_iff in Hf as [Hx Hf].
    rewrite Hx, (IH Hf). reflexivity.
Qed.

Lemma format_here_class (t g : jsstring) :
  format_here t = Some g -> g <> [] /\ forallb is_format_char g = true.
Proof.
  unfold format_here. destruct (startsWith (js "data:image/") t); [|discriminate].
  pose proof (format_run_class (skipn 11 t)) as Hc.
  destruct (format_run (skipn 11 t)) as [run rest]. cbn [fst] in Hc.
  destruct (truthy run && startsWith (js ";base64") rest) eqn:Hb; [|discriminate].
  intros E. injection E as <-. split; [|exact Hc].
  apply andb_true_iff in Hb as [Hr _]. now destruct run.
Qed.

Lemma formatMatch_class (result g : jsstring) :
  formatMatch result = Some g -> g <> [] /\ forallb is_format_char g = true.
Proof.
  induction result as [|c result IH].
  - cbn [formatMatch]. destruct (format_here []) eqn:E; [|discriminate].
    intros E'. injection E' as <-. now apply (format_here_class []).
  - cbn [formatMatch]. destruct (format_here (c :: result)) eqn:E.
    + intros E'. injection E' as <-. now apply (format_here_class (c :: result)).
    + exact IH.
Qed.

(** X10. Whatever the reader gives, the format that [handleFileSelect]
    hands to [onImageSelect] is never empty and is made of letters and
    plus signs only: the group of the pattern, or "png". *)
Theorem format_is_a_word (file : option File) (loaded : option jsstring) (s : State)
    (data : option jsstring) (format : jsstring) :
  In (OnImageSelect data format) (snd (handleFileSelect file loaded s)) ->
  format <> [] /\ forallb is_format_char format = true.
Proof.
  unfold handleFileSelect.
  destruct file as [f|]; [|intros []].
  destruct (negb (startsWith (js "image/") (type f))).
  { intros [E|[]]. discriminate. }
  destruct (10 * 1024 * 1024 <? size f).
  { intros [E|[]]. discriminate. }
  destruct loaded as [result|]; [|intros [E|[]]; discriminate].
  destruct (truthy result); [|intros [E|[]]; discriminate].
  cbn [snd]. intros [E|[E|[]]]; [discriminate|].
  injection E as _ <-.
  destruct (formatMatch result) as [g|] eqn:Hg.
  - now apply (formatMatch_class result).
  - js_literals. split; [discriminate|reflexivity].
Qed.

Lemma format_is_a_word_witness :
  js "svg+xml" <> [] /\ forallb is_format_char (js "svg+xml") = true.
Proof.
  apply (format_is_a_word
           (Some {| type := js "image/svg+xml"; size := 2048 |})
           (Some (js "see data:image/svg+xml;base64,AAAA"))
           empty_uploader (Some (js "AAAA")) (js "svg+xml")).
  vm_compute. right. left. reflexivity.
Defined.

(** ** From the file to the message *)

Lemma split_comma_1_at (a b : jsstring) :
  no_comma a = true -> split_comma_1 (a ++ 44%N :: b) = Some (until_comma b).
Proof.
  intros Ha. induction a as [|c a IH]; [reflexivity|].
  cbn [no_comma forallb] in Ha. apply andb_true_iff in Ha as [Hc Ha].
  apply negb_true_iff in Hc. cbn [app split_comma_1]. rewrite Hc. now apply IH.
Qed.

Lemma until_comma_all (b : jsstring) : no_comma b = true -> until_comma b = b.
Proof.
  intros Hb. induction b as [|c b IH]; [reflexivity|].
  cbn [no_comma forallb] in Hb. apply andb_true_iff in Hb as [Hc Hb].
  apply negb_true_iff in Hc. cbn [until_comma]. rewrite Hc. f_equal. now apply IH.
Qed.

Lemma format_chars_no_comma (format : jsstring) :
  forallb is_format_char format = true -> no_comma format = true.
Proof.
  induction format as [|c format IH]; [reflexivity|].
  cbn [forallb no_comma]. intros Hf. apply andb_true_iff in Hf as [Hc Hf].
  fold (no_comma format). rewrite (IH Hf), andb_true_r.
  destruct (c =? 44)%N eqn:E; [|reflexivity].
  apply N.eqb_eq in E. subst c. discriminate Hc.
Qed.

Lemma no_comma_app (a b : jsstring) : no_comma (a ++ b) = no_comma a && no_comma b.
Proof. apply forallb_app. Qed.

Lemma data_url_parts (format payload : jsstring) :
  truthy format = true ->
  forallb is_format_char format = true ->
  no_comma payload = true ->
  formatMatch (data_url format payload) = Some format
  /\ split_comma_1 (data_url format payload) = Some payload.
Proof.
  intros Hne Hf Hp. split.
  - assert (E : format_here (data_url format payload) = Some format).
    { unfold format_here, data_url. rewrite startsWith_app.
      replace (skipn 11 (js "data:image/" ++ format ++ js ";base64," ++ payload))
        with (format ++ 59%N :: (js "base64," ++ payload))
        by (js_literals; reflexivity).
      rewrite (format_run_stops format _ 59%N Hf eq_refl), Hne.
      js_literals. reflexivity. }
    destruct (data_url format payload); cbn [formatMatch]; now rewrite E.
  - unfold data_url.
    replace (js "data:image/" ++ format ++ js ";base64," ++ payload)
      with ((js "data:image/" ++ format ++ js ";base64") ++ 44%N :: payload)
      by (js_literals; repeat (rewrite <- app_assoc; cbn [app]); reflexivity).
    rewrite split_comma_1_at; [now rewrite until_comma_all|].
    rewrite !no_comma_app, (format_chars_no_comma format Hf).
    js_literals. reflexivity.
Qed.

(** *** A subtype that the pattern does not take *)

Lemma startsWith_prefix (p t : jsstring) :
  startsWith p t = true -> exists r, t = p ++ r.
Proof.
  revert t. induction p as [|x p IH]; intros t; [now exists t|].
  destruct t as [|y t]; [discriminate|]. cbn [startsWith]. intros E.
  apply andb_true_iff in E as [Exy E]. apply N.eqb_eq in Exy as ->.
  destruct (IH t E) as [r ->]. now exists r.
Qed.

Lemma plain_chars_app (a b : jsstring) :
  plain_chars (a ++ b) = plain_chars a && plain_chars b.
Proof. apply forallb_app. Qed.

Lemma plain_chars_no_comma (t : jsstring) : plain_chars t = true -> no_comma t = true.
Proof.
  induction t as [|c t IH]; [reflexivity|].
  cbn [plain_chars no_comma forallb]. intros E. apply andb_true_iff in E as [Ec E].
  fold (no_comma t). rewrite (IH E), andb_true_r.
  destruct (c =? 44)%N; [discriminate Ec|reflexivity].
Qed.

(** The pattern needs a colon. *)
Lemma formatMatch_needs_colon (t : jsstring) :
  forallb (fun c => negb (c =? 58)%N) t = true -> formatMatch t = None.
Proof.
  assert (Hhere : forall t, forallb (fun c => negb (c =? 58)%N) t = true ->
                            format_here t = None).
  { intros u Hu. unfold format_here.
    destruct (startsWith (js "data:image/") u) eqn:E; [|reflexivity].
    apply startsWith_prefix in E as [r ->]. revert Hu. js_literals. discriminate. }
  induction t as [|c t IH]; intros Ht.
  - pose proof (Hhere _ Ht) as E. cbn [formatMatch].
    destruct (format_here []); [discriminate E|reflexivity].
  - pose proof (Hhere _ Ht) as E. cbn [formatMatch].
    destruct (format_here (c :: t)); [discriminate E|].
    cbn [forallb] in Ht. apply andb_true_iff in Ht as [_ Ht]. now apply IH.
Qed.

Lemma format_run_rest (subtype tail : jsstring) :
  forallb is_format_char subtype = false ->
  plain_chars subtype = true ->
  startsWith (js ";base64") (snd (format_run (subtype ++ tail))) = false.
Proof.
  induction subtype as [|c t IH]; [discriminate|].
  cbn [forallb plain_chars app format_run]. intros Hw Hp.
  apply andb_true_iff in Hp as [Hc Hp].
  destruct (is_format_char c).
  - cbn [andb] in Hw. specialize (IH Hw Hp).
    destruct (format_run (t ++ tail)) as [run rest]. exact IH.
  - cbn [snd]. js_literals. cbn [startsWith].
    rewrite N.eqb_sym. destruct (c =? 59)%N; [|reflexivity].
    now rewrite !orb_true_r in Hc.
Qed.

Lemma format_here_other (c : code_unit) (r : jsstring) :
  (c =? 100)%N = false -> format_here (c :: r) = None.
Proof.
  intros Hc. unfold format_here. js_literals. cbn [startsWith].
  now rewrite N.eqb_sym, Hc.
Qed.

Lemma formatMatch_step (c : code_unit) (r : jsstring) :
  formatMatch (c :: r)
  = match format_here (c :: r) with
    | Some g => Some g
    | None => formatMatch r
    end.
Proof. reflexivity. Qed.

Lemma data_url_no_word (subtype payload : jsstring) :
  is_word subtype = false ->
  plain_chars subtype = true ->
  plain_chars payload = true ->
  formatMatch (data_url subtype payload) = None.
Proof.
  intros Hw Hs Hp.
  assert (Hhead : format_here (data_url subtype payload) = None).
  { unfold format_here, data_url. rewrite startsWith_app.
    replace (skipn 11 (js "data:image/" ++ subtype ++ js ";base64," ++ payload))
      with (subtype ++ js ";base64," ++ payload) by (js_literals; reflexivity).
    unfold is_word in Hw.
    destruct subtype as [|c t].
    - js_literals. reflexivity.
    - cbn [truthy andb] in Hw.
      pose proof (format_run_rest (c :: t) (js ";base64," ++ payload) Hw Hs) as Hr.
      destruct (format_run ((c :: t) ++ js ";base64," ++ payload)) as [run rest].
      cbn [snd] in Hr. rewrite Hr. now rewrite andb_false_r. }
  assert (Hrest : formatMatch (subtype ++ js ";base64," ++ payload) = None).
  { apply formatMatch_needs_colon. rewrite !forallb_app.
    assert (Hc : forall t, plain_chars t = true ->
                           forallb (fun c => negb (c =? 58)%N) t = true).
    { induction t as [|c t IH]; [reflexivity|].
      cbn [plain_chars forallb]. intros E. apply andb_true_iff in E as [Ec E].
      fold (plain_chars t) in E. rewrite (IH E), andb_true_r.
      destruct (c =? 58)%N; [|reflexivity]. now rewrite orb_true_r in Ec. }
    apply andb_true_iff. split; [exact (Hc _ Hs)|].
    apply andb_true_iff. split; [js_literals; reflexivity|exact (Hc _ Hp)]. }
  revert Hhead Hrest. unfold data_url. js_literals. cbn [app]. intros Hhead Hrest.
  rewrite formatMatch_step, Hhead.
  repeat (rewrite formatMatch_step, format_here_other by reflexivity).
  exact Hrest.
Qed.

Lemma data_url_format (a b payload : jsstring) :
  data_url a payload = data_url b payload -> a = b.
Proof.
  unfold data_url. intros E. apply app_inv_head in E.
  now apply app_inv_tail in E.
Qed.

Lemma handed_format_truthy (subtype : jsstring) : truthy (handed_format subtype) = true.
Proof.
  unfold handed_format. destruct (is_word subtype) eqn:E.
  - unfold is_word in E. now apply andb_true_iff in E as [E _].
  - js_literals. reflexivity.
Qed.

Lemma handed_format_same (subtype : jsstring) :
  handed_format subtype = subtype <-> is_word subtype = true.
Proof.
  unfold handed_format. destruct (is_word subtype) eqn:E; [tauto|].
  split; [|discriminate]. intros <-. revert E. js_literals. vm_compute. auto.
Qed.

(** What the reader's result gives to [onImageSelect] *)
Lemma data_url_handed (subtype payload : jsstring) :
  plain_chars subtype = true ->
  plain_chars payload = true ->
  match formatMatch (data_url subtype payload) with
  | Some g => g
  | None => js "png"
  end = handed_format subtype
  /\ split_comma_1 (data_url subtype payload) = Some payload.
Proof.
  intros Hs Hp. unfold handed_format. destruct (is_word subtype) eqn:Hw.
  - unfold is_word in Hw. apply andb_true_iff in Hw as [Hne Hclass].
    destruct (data_url_parts subtype payload Hne Hclass
                (plain_chars_no_comma payload Hp)) as [-> ->].
    now split.
  - rewrite (data_url_no_word subtype payload Hw Hs Hp). split; [reflexivity|].
    unfold data_url.
    replace (js "data:image/" ++ subtype ++ js ";base64," ++ payload)
      with ((js "data:image/" ++ subtype ++ js ";base64") ++ 44%N :: payload)
      by (js_literals; repeat (rewrite <- app_assoc; cbn [app]); reflexivity).
    rewrite split_comma_1_at;
      [now rewrite (until_comma_all payload (plain_chars_no_comma payload Hp))|].
    rewrite !no_comma_app, (plain_chars_no_comma subtype Hs).
    js_literals. reflexivity.
Qed.

(** X11. From the file to the message.  An acceptable file is read as the
    data URL of its subtype and a base-64 text, neither of which holds a
    comma, a colon or a semicolon; the composer is idle and the back end
    available.  The uploader previews that URL and hands over the text
    and a format: the subtype when it is made of letters and plus signs,
    "png" otherwise.  With a text that is not empty, [handleSubmit] starts
    the request with that text and that format, and the message added for
    the user shows the data URL of that format and that text, which is
    the URL that was read exactly when the subtype is made of letters and
    plus signs.  With the empty text of an empty file no image is
    attached: a request is started only if something was typed, and the
    message shows no image. *)
Theorem image_round_trip (f : File) (subtype payload : jsstring) (u : State)
    (c : ChatBox.State) (sessionId : option jsstring) (now : Z) :
  acceptable (Some f) = true ->
  plain_chars subtype = true ->
  plain_chars payload = true ->
  ChatBox.isLoading c = false ->
  ChatBox.isBackendAvailable c = true ->
  let url := data_url subtype payload in
  let format := handed_format subtype in
  let picked := handleFileSelect (Some f) (Some url) u in
  let c' := ChatBoxStream.onImageSelect (Some payload) format c in
  let sent := ChatBox.handleSubmit sessionId now c' in
  snd picked = [ReadAsDataURL f; OnImageSelect (Some payload) format]
  /\ preview (fst picked) = Some url
  /\ snd sent
     = (if truthy payload || truthy (trim (ChatBox.input c))
        then [ChatBox.PreventDefault;
              ChatBox.StreamMessage (trim (ChatBox.input c)) sessionId payload format]
        else [ChatBox.PreventDefault])
  /\ map ChatBoxStream.image_src (ChatBox.messages (fst sent))
     = map ChatBoxStream.image_src (ChatBox.messages c)
         ++ (if truthy payload then [Some (data_url format payload); None]
             else if truthy (trim (ChatBox.input c)) then [None; None]
             else [])
  /\ (data_url format payload = url <-> is_word subtype = true).
Proof.
  intros Hf Hs Hp Hl Ha url format picked c' sent.
  destruct (data_url_handed subtype payload Hs Hp) as [Hm Hsplit].
  assert (Hres : truthy url = true)
    by (subst url; unfold data_url; js_literals; reflexivity).
  assert (Epick : picked
                  = ({| preview := Some url;
                        isDragging := isDragging u; isHovered := isHovered u |},
                     [ReadAsDataURL f; OnImageSelect (Some payload) format])).
  { subst picked. unfold handleFileSelect, acceptable in *.
    apply andb_true_iff in Hf as [Ht Hsz]. rewrite Ht. cbn [negb].
    change (10 * 1024 * 1024) with 10485760.
    destruct (Z.ltb_spec 10485760 (size f)); [apply Z.leb_le in Hsz; lia|].
    rewrite Hres. subst url. now rewrite Hm, Hsplit. }
  rewrite Epick. cbn [fst snd preview].
  split; [reflexivity|]. split; [reflexivity|].
  assert (Hfmt : truthy format = true) by apply handed_format_truthy.
  assert (Esent : sent
                  = if truthy payload || truthy (trim (ChatBox.input c))
                    then ({| ChatBox.messages :=
                               (ChatBox.messages c ++ [ChatBoxStream.userMessage now c'])
                               ++ [ChatBox.plain ChatBox.assistant [] now];
                             ChatBox.input := []; ChatBox.isLoading := true;
                             ChatBox.isLoadingHistory := ChatBox.isLoadingHistory c;
                             ChatBox.isBackendAvailable := true;
                             ChatBox.selectedImageData := [];
                             ChatBox.selectedImageFormat := [] |},
                          [ChatBox.PreventDefault;
                           ChatBox.StreamMessage (trim (ChatBox.input c)) sessionId
                             payload format])
                    else (c', [ChatBox.PreventDefault])).
  { subst sent c'. unfold ChatBox.handleSubmit, ChatBoxStream.onImageSelect,
      ChatBoxStream.userMessage.
    cbn [ChatBox.input ChatBox.selectedImageData ChatBox.selectedImageFormat
         ChatBox.isLoading ChatBox.isBackendAvailable ChatBox.messages
         ChatBox.isLoadingHistory].
    rewrite Hl, Ha.
    destruct (truthy payload), (truthy (trim (ChatBox.input c))); reflexivity. }
  rewrite Esent. split; [|split].
  - destruct (truthy payload || truthy (trim (ChatBox.input c))); reflexivity.
  - assert (Himg : ChatBoxStream.image_src (ChatBoxStream.userMessage now c')
                   = if truthy payload then Some (data_url format payload) else None).
    { subst c'. unfold ChatBoxStream.image_src, ChatBoxStream.userMessage,
        ChatBoxStream.onImageSelect, ChatBox.or_undefined, data_url.
      cbn [ChatBox.has_image ChatBox.image_data ChatBox.image_format
           ChatBox.selectedImageData ChatBox.selectedImageFormat].
      rewrite Hfmt. destruct (truthy payload) eqn:Et; [|reflexivity].
      now rewrite Et, Hfmt. }
    destruct (truthy payload) eqn:Et; cbn [orb].
    + cbn [fst ChatBox.messages]. rewrite !map_app. cbn [map]. rewrite Himg.
      rewrite <- app_assoc. reflexivity.
    + destruct (truthy (trim (ChatBox.input c))).
      * cbn [fst ChatBox.messages]. rewrite !map_app. cbn [map]. rewrite Himg.
        rewrite <- app_assoc. reflexivity.
      * cbn [fst]. subst c'. cbn [ChatBoxStream.onImageSelect ChatBox.messages].
        now rewrite app_nil_r.
  - subst url format. rewrite <- handed_format_same. split.
    + apply data_url_format.
    + now intros ->.
Qed.

(** An icon: it is handed over as a png, and the message shows another
    URL than the one that was read. *)
Lemma image_round_trip_witness :
  let f := an_icon in
  let subtype := js "x-icon" in
  let payload := js "AAABAAEAEBAAAAEAIABoBAAA" in
  let c := ChatBox.typed [] true in
  let url := data_url subtype payload in
  let format := handed_format subtype in
  let picked := handleFileSelect (Some f) (Some url) empty_uploader in
  let c' := ChatBoxStream.onImageSelect (Some payload) format c in
  let sent := ChatBox.handleSubmit None 7 c' in
  snd picked = [ReadAsDataURL f; OnImageSelect (Some payload) format]
  /\ preview (fst picked) = Some url
  /\ snd sent
     = (if truthy payload || truthy (trim (ChatBox.input c))
        then [ChatBox.PreventDefault;
              ChatBox.StreamMessage (trim (ChatBox.input c)) None payload format]
        else [ChatBox.PreventDefault])
  /\ map ChatBoxStream.image_src (ChatBox.messages (fst sent))
     = map ChatBoxStream.image_src (ChatBox.messages c)
         ++ (if truthy payload then [Some (data_url format payload); None]
             else if truthy (trim (ChatBox.input c)) then [None; None]
             else [])
  /\ (data_url format payload = url <-> is_word subtype = true).
Proof.
  apply (image_round_trip an_icon (js "x-icon") (js "AAABAAEAEBAAAAEAIABoBAAA")
           empty_uploader (ChatBox.typed [] true) None 7);
    vm_compute; reflexivity.
Defined.

Example icon_is_shown_as_png :
  handed_format (js "x-icon") = js "png"
  /\ map ChatBoxStream.image_src
       (ChatBox.messages
          (fst (ChatBox.handleSubmit None 7
                  (ChatBoxStream.onImageSelect (Some (js "AAABAAEAEBAAAAEAIABoBAAA"))
                     (js "png") (ChatBox.typed [] true)))))
     = [Some (js "data:image/png;base64,AAABAAEAEBAAAAEAIABoBAAA"); None].
Proof. vm_compute. split; reflexivity. Qed.

Example empty_file_is_no_image :
  let c' := ChatBoxStream.onImageSelect (Some []) (js "png") (ChatBox.typed [] true) in
  snd (handleFileSelect (Some {| type := js "image/png"; size := 0 |})
         (Some (js "data:image/png;base64,")) empty_uploader)
  = [ReadAsDataURL {| type := js "image/png"; size := 0 |};
     OnImageSelect (Some []) (js "png")]
  /\ ChatBoxStream.submit_disabled c' = true.
Proof. vm_compute. split; reflexivity. Qed.

End ImageFacts.

(* ===================================================================== *)
(** * DocumentManager: order, pages, deletion *)
(* ===================================================================== *)

Module DocumentManagerMoreFacts.
Import DocumentManager DocumentManagerMore.

(** ** The order of the sorted list *)

Lemma sort_insert_sorted {A} (comparefn : A -> A -> option Z) (P : A -> Prop)
    (R : A -> A -> Prop) :
  (forall a b, P a -> P b -> goes_after (comparefn a b) = true -> R b a) ->
  (forall a b, P a -> P b -> goes_after (comparefn a b) = false -> R a b) ->
  forall (x : A) (l : list A),
    P x -> Forall P l -> Sorted R l -> Sorted R (sort_insert comparefn x l).
Proof.
  intros Hafter Hbefore x l Hx Hl Hs.
  induction l as [|y l IH]; cbn [sort_insert].
  - repeat constructor.
  - inversion Hl as [|? ? Hy Hl']; subst. inversion Hs as [|? ? Hs' Hhd]; subst.
    destruct (goes_after (comparefn x y)) eqn:E.
    + constructor; [now apply IH|].
      destruct l as [|z l]; cbn [sort_insert].
      * constructor. now apply Hafter.
      * destruct (goes_after (comparefn x z)).
        -- inversion Hhd; subst. now constructor.
        -- constructor. now apply Hafter.
    + constructor; [assumption|]. constructor. now apply Hbefore.
Qed.

Lemma sort_sorted {A} (comparefn : A -> A -> option Z) (P : A -> Prop)
    (R : A -> A -> Prop) :
  (forall a b, P a -> P b -> goes_after (comparefn a b) = true -> R b a) ->
  (forall a b, P a -> P b -> goes_after (comparefn a b) = false -> R a b) ->
  forall l : list A, Forall P l -> Sorted R (sort comparefn l).
Proof.
  intros Hafter Hbefore l Hl.
  induction l as [|x l IH]; cbn [sort fold_right]; [constructor|].
  inversion Hl as [|? ? Hx Hl']; subst. fold (sort comparefn l).
  apply (sort_insert_sorted comparefn P R Hafter Hbefore); auto.
  apply (Permutation_Forall (DocumentManagerFacts.sort_perm comparefn l) Hl').
Qed.

Section Listing.
Context `{Locale}.

(** X12. When the date of every document can be read, the list sorted
    "newest" goes from the most recent to the oldest and the list sorted
    "oldest" the other way: each document comes before every document
    that is older, or younger, than it. *)
Theorem sorted_by_date (documents : list DocumentInfo) :
  Forall (fun d => created_time d <> None) documents ->
  StronglySorted (fun a b => time_of b <= time_of a) (sortedDocuments documents newest)
  /\ StronglySorted (fun a b => time_of a <= time_of b) (sortedDocuments documents oldest).
Proof.
  intros Hvalid. split; apply Sorted_StronglySorted;
    try (intros a b c; lia);
    unfold sortedDocuments;
    apply (sort_sorted _ (fun d => created_time d <> None)); auto;
    intros a b Ha Hb; unfold comparator, minus, time_of, goes_after;
    destruct (created_time a), (created_time b); try congruence;
    intros E; first [apply Z.ltb_lt in E | apply Z.ltb_ge in E]; lia.
Qed.

(** ** The pages in range *)

Lemma ceil_div_tight (n : Z) : (ceil_div n 9 - 1) * 9 < n.
Proof.
  unfold ceil_div.
  pose proof (Z.div_mod (- n) 9 ltac:(lia)).
  pose proof (Z.mod_pos_bound (- n) 9 ltac:(lia)). lia.
Qed.

Lemma page_length {A} (l : list A) (p : Z) :
  1 <= p ->
  Z.of_nat (length (slice l ((p - 1) * 9) (p * 9)))
  = Z.max 0 (Z.min (p * 9) (len l) - (p - 1) * 9).
Proof.
  intros Hp.
  replace ((p - 1) * 9) with (Z.of_nat (Z.to_nat ((p - 1) * 9))) by lia.
  replace (p * 9) with (Z.of_nat (Z.to_nat (p * 9))) at 1 by lia.
  rewrite slice_nonneg by lia.
  rewrite length_firstn, length_skipn. unfold len. lia.
Qed.

(** X13. A page between 1 and the number of pages is never empty: it
    holds 9 documents when it is not the last page and between 1 and 9
    when it is; and the two paging buttons keep the page in that range. *)
Theorem page_in_range (documents : list DocumentInfo) (sortType : SortType) (page : Z) :
  1 <= page <= totalPages documents sortType ->
  (1 <= length (paginatedDocuments documents sortType page) <= 9)%nat
  /\ (page < totalPages documents sortType ->
      length (paginatedDocuments documents sortType page) = 9%nat)
  /\ 1 <= previous_page page <= totalPages documents sortType
  /\ 1 <= next_page (totalPages documents sortType) page <= totalPages documents sortType.
Proof.
  unfold totalPages, paginatedDocuments, pageSize, previous_page, next_page.
  set (sorted := sortedDocuments documents sortType).
  intros [Hlo Hhi].
  pose proof (page_length sorted page Hlo) as Hlen.
  pose proof (ceil_div_tight (len sorted)) as Htight.
  pose proof (DocumentManagerFacts.ceil_div_covers (len sorted) (len_nonneg sorted)) as Hcov.
  repeat split; lia.
Qed.

End Listing.

Lemma sorted_by_date_witness :
  StronglySorted (fun a b => @time_of sample_locale b <= @time_of sample_locale a)
    (@sortedDocuments sample_locale sample_documents newest)
  /\ StronglySorted (fun a b => @time_of sample_locale a <= @time_of sample_locale b)
       (@sortedDocuments sample_locale sample_documents oldest).
Proof.
  apply (@sorted_by_date sample_locale sample_documents).
  repeat constructor; vm_compute; discriminate.
Defined.

Lemma page_in_range_witness :
  (1 <= length (@paginatedDocuments sample_locale sample_documents newest 2) <= 9)%nat
  /\ (2 < @totalPages sample_locale sample_documents newest ->
      length (@paginatedDocuments sample_locale sample_documents newest 2) = 9%nat)
  /\ 1 <= previous_page 2 <= @totalPages sample_locale sample_documents newest
  /\ 1 <= next_page (@totalPages sample_locale sample_documents newest) 2
     <= @totalPages sample_locale sample_documents newest.
Proof.
  apply (@page_in_range sample_locale sample_documents newest 2).
  vm_compute. split; discriminate.
Defined.

(** ** Deleting a document *)

(** X14. After [confirmDelete] of a document, [handleDelete] sends one
    delete request, for that document, and clears what was pending, so
    that a second [handleDelete] does nothing at all.  When the request
    fails, the documents stay as they were, the confirmation stays open
    and an error is set; when it succeeds, the confirmation is closed and
    the list is reloaded. *)
Theorem delete_once (onDocumentsChange : bool) (docId : jsstring)
    (deletion again : settled DocumentDeleteResponse)
    (listing relisting : settled DocumentListResponse) (s : State) :
  truthy docId = true ->
  let r := handleDelete onDocumentsChange deletion listing (confirmDelete docId s) in
  deletes (snd r) = [docId]
  /\ docToDelete (fst r) = None
  /\ isDeleting (fst r) = None
  /\ handleDelete onDocumentsChange again relisting (fst r) = (fst r, [])
  /\ match deletion with
     | Resolved _ =>
         deleteConfirmOpen (fst r) = false /\ In (Then GetDocumentList) (snd r)
     | Rejected err =>
         documents (fst r) = documents s
         /\ deleteConfirmOpen (fst r) = true
         /\ error (fst r) = Some (message_of err (js "删除文档失败"))
     end.
Proof.
  intros Hid r. subst r.
  destruct docId as [|c docId]; [discriminate|]. clear Hid.
  destruct deletion as [response|err], listing as [response'|err'];
    unfold handleDelete, confirmDelete, loadDocuments, deletes;
    cbn -[js notify]; repeat split; auto.
  - induction (notify onDocumentsChange) as [|e l IH]; [reflexivity|exact IH].
  - induction (notify onDocumentsChange) as [|e l IH]; [reflexivity|exact IH].
Qed.

Lemma delete_once_witness :
  let r := handleDelete true (Rejected (AnError (js "gone"))) unchanged_list
             (confirmDelete (js "d3") (typing_url [])) in
  deletes (snd r) = [js "d3"]
  /\ docToDelete (fst r) = None
  /\ isDeleting (fst r) = None
  /\ handleDelete true (Resolved {| deleted := true; deleted_document_id := js "d3";
                                    chunks_removed := 1 |})
       unchanged_list (fst r)
     = (fst r, [])
  /\ documents (fst r) = documents (typing_url [])
  /\ deleteConfirmOpen (fst r) = true
  /\ error (fst r) = Some (js "gone").
Proof.
  exact (delete_once true (js "d3") (Rejected (AnError (js "gone")))
           (Resolved {| deleted := true; deleted_document_id := js "d3";
                        chunks_removed := 1 |})
           unchanged_list unchanged_list (typing_url []) eq_refl).
Defined.

(** ** The form of the add dialog *)

(** X15. [handleAddUrl] empties the URL field and closes the add dialog
    exactly when the first document of the reply is ready; when the
    request is rejected or its reply says anything else, the text typed
    and the dialog stay as they are, so that the request can be tried
    again, and the loading flag of the button is cleared. *)
Theorem add_dialog_after_request (onDocumentsChange : bool)
    (ingest : settled IngestResponse) (listing : settled DocumentListResponse)
    (s : State) :
  truthy (trim (urlInput s)) = true ->
  startsWith (js "http://") (trim (urlInput s)) = true
  \/ startsWith (js "https://") (trim (urlInput s)) = true ->
  let r := handleAddUrl onDocumentsChange ingest listing s in
  urlInput (fst r) = (if ready ingest then [] else urlInput s)
  /\ addDialogOpen (fst r) = (if ready ingest then false else addDialogOpen s)
  /\ (if ready ingest then True else documents (fst r) = documents s)
  /\ isAddingUrl (fst r) = false
  /\ hd_error (snd r) = Some (IngestUrls [trim (urlInput s)]).
Proof.
  intros Hne Hscheme r. subst r. unfold handleAddUrl, ready. rewrite Hne. cbn [negb].
  replace (negb (startsWith (js "http://") (trim (urlInput s)))
           && negb (startsWith (js "https://") (trim (urlInput s)))) with false
    by (destruct Hscheme as [E|E]; rewrite E; cbn;
        [reflexivity | now rewrite andb_false_r]).
  destruct ingest as [result|err]; [|cbn; repeat split; reflexivity].
  destruct (firstDoc result) as [d|]; [|cbn; repeat split; reflexivity].
  destruct (status_is d (js "ready")) eqn:Hready.
  - destruct (loadDocuments listing _) as [s1 loaded] eqn:El.
    assert (Hs1 : urlInput s1 = []).
    { destruct listing; cbn in El; injection El as <- <-; reflexivity. }
    cbn. rewrite Hs1. repeat split; reflexivity.
  - destruct (ingested_status d) as [st|]; [|cbn; repeat split; reflexivity].
    destruct (startsWith (js "failed") st); cbn; repeat split; reflexivity.
Qed.

Lemma add_dialog_after_request_witness :
  let s := typing_url (js "https://example.com/doc") in
  let r := handleAddUrl true (Rejected NotAnError) unchanged_list s in
  urlInput (fst r) = js "https://example.com/doc"
  /\ addDialogOpen (fst r) = true
  /\ documents (fst r) = documents s
  /\ isAddingUrl (fst r) = false
  /\ hd_error (snd r) = Some (IngestUrls [js "https://example.com/doc"]).
Proof.
  exact (add_dialog_after_request true (Rejected NotAnError) unchanged_list
           (typing_url (js "https://example.com/doc")) eq_refl (or_intror eq_refl)).
Defined.

End DocumentManagerMoreFacts.

(* ===================================================================== *)
(** * useSessions *)
(* ===================================================================== *)

Module UseSessionsFacts.
Import Sessions UseSessions.

Lemma report_keeps (err : exn) (offline fallback : jsstring) (s : State) :
  let s' := report err offline fallback s in
  stored s' = stored s /\ currentSessionId s' = currentSessionId s
  /\ currentSession s' = currentSession s /\ sessions s' = sessions s
  /\ hasAttemptedConnection s' = hasAttemptedConnection s.
Proof. unfold report. destruct (isNetworkError err); cbn; auto. Qed.

Lemma loadSessions_keeps (listing : promise (list Session)) (s : State) :
  let r := loadSessions listing s in
  stored (fst r) = stored s /\ currentSessionId (fst r) = currentSessionId s
  /\ currentSession (fst r) = currentSession s
  /\ (warnings (snd r) + unwarned (fst r) <= unwarned s)%nat.
Proof.
  unfold loadSessions, unwarned, warnings.
  destruct listing as [l|err]; cbn; [repeat split; lia|].
  destruct (isNetworkError err); cbn; [|repeat split; lia].
  destruct (hasAttemptedConnection s); cbn; repeat split; lia.
Qed.

Ltac after_load listing st :=
  let Hs := fresh "Hs" in let Hc := fresh "Hc" in
  let Hd := fresh "Hd" in let Hw := fresh "Hw" in
  pose proof (loadSessions_keeps listing st) as [Hs [Hc [Hd Hw]]];
  destruct (loadSessions listing st) as [?s ?loaded];
  cbn [fst snd] in Hs, Hc, Hd, Hw.

Lemma loadCurrentSession_keeps (sessionId : jsstring) (detail : promise SessionDetail)
    (s : State) :
  let r := loadCurrentSession sessionId detail s in
  stored (fst (fst r)) = stored s
  /\ currentSessionId (fst (fst r)) = currentSessionId s
  /\ hasAttemptedConnection (fst (fst r)) = hasAttemptedConnection s
  /\ snd (fst r) = [GetSession sessionId].
Proof.
  unfold loadCurrentSession. destruct detail as [d|err]; cbn; [auto|].
  destruct (isNetworkError err); cbn; auto.
Qed.

Lemma currentSessionEffect_keeps (detail : promise SessionDetail) (s : State) :
  let r := currentSessionEffect detail s in
  stored (fst r) = stored s
  /\ currentSessionId (fst r) = currentSessionId s
  /\ hasAttemptedConnection (fst r) = hasAttemptedConnection s
  /\ warnings (snd r) = 0%nat.
Proof.
  unfold currentSessionEffect.
  destruct (currentSessionId s) as [cur|] eqn:Ecur; [|cbn; auto].
  destruct (truthy cur); [|cbn; auto].
  destruct (isBackendAvailable s); [|cbn; auto].
  pose proof (loadCurrentSession_keeps cur detail s) as [Hs [Hc [Ha Hout]]].
  destruct (loadCurrentSession cur detail s) as [[s' out] d]. cbn [fst snd] in *.
  rewrite Hout. repeat split; try assumption. congruence.
Qed.

Lemma unguarded (P Q : Prop) : P /\ Q -> (false = false -> P) /\ Q.
Proof. tauto. Qed.

Lemma act_keeps (a : action) (s : State) :
  (is_setter a = false ->
   stored s = currentSessionId s ->
   stored (fst (act a s)) = currentSessionId (fst (act a s)))
  /\ (warnings (snd (act a s)) + unwarned (fst (act a s)) <= unwarned s)%nat.
Proof.
  destruct a as [v|detail0|listing|sessionId detail|title created listing|sessionId detail
                 |sessionId title updated listing|sessionId deleted listing|cleared];
    cbn [act is_setter]; [|apply unguarded ..].
  - split; [discriminate|]. cbn. unfold unwarned. cbn. lia.
  - pose proof (currentSessionEffect_keeps detail0 s) as [Hs [Hc [Ha Hw]]].
    cbv zeta in *. unfold unwarned. rewrite Hs, Hc, Ha, Hw. split; [auto|lia].
  - pose proof (loadSessions_keeps listing s) as [Hs [Hc [_ Hw]]].
    split; [congruence|exact Hw].
  - unfold loadCurrentSession. destruct detail as [d|err]; cbn; [split; auto|].
    destruct (isNetworkError err); cbn; split; auto.
  - unfold createNewSession. destruct created as [newId|err].
    + match goal with |- context [loadSessions listing ?st] => after_load listing st end.
      cbn [fst snd] in *. cbn in Hs, Hc, Hw. unfold unwarned, warnings in *. cbn.
      split; [congruence|exact Hw].
    + pose proof (report_keeps err (js "后端服务器未连接，无法创建会话") (js "创建会话失败")
                    (with_loading true s)) as [Hs [Hc [_ [_ Ha]]]].
      cbn in *. unfold unwarned, warnings. cbn. rewrite Ha. split; [congruence|lia].
  - unfold switchSession, loadCurrentSession. destruct detail as [d|err]; cbn; [split; auto|].
    destruct (isNetworkError err); cbn; split; auto.
  - unfold renameSession. destruct updated as [[]|err].
    + match goal with |- context [loadSessions listing ?st] => after_load listing st end.
      cbn in Hs, Hc, Hw. unfold unwarned, warnings in *.
      destruct (is_session (currentSession s) sessionId); cbn;
        (split; [congruence|exact Hw]).
    + pose proof (report_keeps err (js "后端服务器未连接") (js "更新标题失败")
                    (with_loading true s)) as [Hs [Hc [_ [_ Ha]]]].
      cbn in *. unfold unwarned, warnings. cbn. rewrite Ha. split; [congruence|lia].
  - unfold removeSession. destruct deleted as [[]|err].
    + match goal with |- context [loadSessions listing ?st] => after_load listing st end.
      cbn in Hs, Hc, Hw. unfold unwarned, warnings in *.
      destruct (is_current s sessionId); cbn;
        (split; [congruence|exact Hw]).
    + pose proof (report_keeps err (js "后端服务器未连接") (js "删除会话失败")
                    (with_loading true s)) as [Hs [Hc [_ [_ Ha]]]].
      cbn in *. unfold unwarned, warnings. cbn. rewrite Ha. split; [congruence|lia].
  - unfold clearSessions. destruct cleared as [[]|err].
    + cbn. split; [reflexivity|unfold unwarned; cbn; lia].
    + pose proof (report_keeps err (js "后端服务器未连接") (js "清空会话失败")
                    (with_loading true s)) as [Hs [Hc [_ [_ Ha]]]].
      cbn in *. unfold unwarned, warnings. cbn. rewrite Ha. split; [congruence|lia].
Qed.

Lemma warnings_app (a b : list effect) :
  warnings (a ++ b) = (warnings a + warnings b)%nat.
Proof. unfold warnings. now rewrite filter_app, length_app. Qed.

Lemma run_keeps (actions : list action) :
  forall s : State,
    (existsb is_setter actions = false ->
     stored s = currentSessionId s ->
     stored (fst (run actions s)) = currentSessionId (fst (run actions s)))
    /\ (warnings (snd (run actions s)) + unwarned (fst (run actions s)) <= unwarned s)%nat.
Proof.
  induction actions as [|a actions IH]; intros s; cbn [run existsb].
  - cbn. split; [auto|lia].
  - destruct (act_keeps a s) as [Hsync Hwarn].
    destruct (act a s) as [s1 out1]. cbn [fst snd] in *.
    destruct (IH s1) as [Hsync' Hwarn'].
    destruct (run actions s1) as [s2 out2]. cbn [fst snd] in *.
    rewrite warnings_app. split; [|lia].
    intros Hno. apply orb_false_iff in Hno as [Ha Hrest]. auto.
Qed.

(** X16. The session kept in [localStorage] follows the current session
    through every operation of the hook but one.  If the two agree, they
    still agree after any sequence of calls of [loadSessions],
    [loadCurrentSession], [createNewSession], [switchSession],
    [renameSession], [removeSession] and [clearSessions] and of runs of
    the effect, however their requests settle.  The eighth operation that
    the hook returns, the setter [setCurrentSessionId], writes nothing to
    [localStorage]: a call of it then leaves the two in agreement only
    when it sets the id that is current already. *)
Theorem selection_is_stored (actions : list action) (v : option jsstring) (s : State) :
  stored s = currentSessionId s ->
  existsb is_setter actions = false ->
  let s' := fst (run actions s) in
  stored s' = currentSessionId s'
  /\ (stored (fst (act (SetCurrentSessionId v) s'))
      = currentSessionId (fst (act (SetCurrentSessionId v) s'))
      <-> v = currentSessionId s').
Proof.
  intros Hs Hno s'. destruct (run_keeps actions s) as [Hsync _].
  specialize (Hsync Hno Hs). fold s' in Hsync. split; [exact Hsync|].
  cbn. rewrite Hsync. split; congruence.
Qed.

(** X17. The warning that the server is not running is printed at most
    once: over any sequence of operations, however often the connection
    fails, and never again once it has been printed. *)
Theorem warns_once (actions : list action) (s : State) :
  (warnings (snd (run actions s)) <= if hasAttemptedConnection s then 0 else 1)%nat.
Proof.
  destruct (run_keeps actions s) as [_ Hw]. unfold unwarned in Hw.
  destruct (hasAttemptedConnection s), (hasAttemptedConnection (fst (run actions s))); lia.
Qed.

(** X18. [removeSession] clears the current session, its detail and the
    stored id exactly when the deletion succeeds and the session removed
    is the current one; a failed deletion leaves the list and the
    selection as they were.  Either way the loading flag is cleared. *)
Theorem removeSession_selection (sessionId : jsstring) (deleted : promise unit)
    (listing : promise (list Session)) (s : State) :
  let r := removeSession sessionId deleted listing s in
  let cleared := fulfilled deleted && is_current s sessionId in
  currentSessionId (fst r) = (if cleared then None else currentSessionId s)
  /\ stored (fst r) = (if cleared then None else stored s)
  /\ currentSession (fst r) = (if cleared then None else currentSession s)
  /\ (if fulfilled deleted then True else sessions (fst r) = sessions s)
  /\ isLoading (fst r) = false
  /\ hd_error (snd r) = Some (DeleteSession sessionId).
Proof.
  unfold removeSession. destruct deleted as [[]|err]; cbn [fulfilled andb].
  - match goal with |- context [loadSessions listing ?st] => after_load listing st end.
    cbn in Hs, Hc, Hd.
    destruct (is_current s sessionId); cbn; repeat split; auto.
  - pose proof (report_keeps err (js "后端服务器未连接") (js "删除会话失败")
                  (with_loading true s)) as [Hs [Hc [Hd [Hl _]]]].
    cbn in *. repeat split; auto.
Qed.

(** X19. A session that was created becomes the current one, in the state
    and in [localStorage], and its id is returned, even when the reload of
    the list that follows fails; when the creation fails, the selection is
    untouched, nothing is returned and an error is set. *)
Theorem createNewSession_selects (title : option jsstring) (created : promise jsstring)
    (listing : promise (list Session)) (s : State) :
  let r := createNewSession title created listing s in
  match created with
  | Fulfilled newSessionId =>
      currentSessionId (fst (fst r)) = Some newSessionId
      /\ stored (fst (fst r)) = Some newSessionId
      /\ snd r = Some newSessionId
      /\ snd (fst r) = CreateSession title :: snd (loadSessions listing s)
  | Failed err =>
      currentSessionId (fst (fst r)) = currentSessionId s
      /\ stored (fst (fst r)) = stored s
      /\ snd r = None
      /\ error (fst (fst r)) <> None
      /\ snd (fst r) = [CreateSession title]
  end
  /\ isLoading (fst (fst r)) = false.
Proof.
  unfold createNewSession. destruct created as [newId|err].
  - match goal with |- context [loadSessions listing ?st] =>
      pose proof (loadSessions_keeps listing st) as [Hs [Hc _]];
      assert (Hout : snd (loadSessions listing st) = snd (loadSessions listing s))
        by (unfold loadSessions; destruct listing as [l|e]; cbn; [reflexivity|];
            destruct (isNetworkError e); reflexivity);
      destruct (loadSessions listing st) as [s1 loaded] end.
    cbn [fst snd] in *. cbn in Hs, Hc. cbn. rewrite Hout. repeat split; auto.
  - cbn. unfold report. destruct (isNetworkError err); cbn; repeat split; auto;
      discriminate.
Qed.

Example a_day_offline :
  let r := run [LoadSessions (Failed unreachable);
                CreateNewSession None (Failed unreachable) (Failed unreachable);
                CreateNewSession None (Fulfilled (js "s9")) (Failed unreachable);
                RemoveSession (js "s1") (Fulfilled tt) (Failed unreachable);
                RemoveSession (js "s9") (Fulfilled tt) (Fulfilled [])]
               (mount (Some (js "s1"))) in
  warnings (snd r) = 1%nat
  /\ currentSessionId (fst r) = None /\ stored (fst r) = None.
Proof. vm_compute. repeat split; reflexivity. Qed.

(** A session is created and another removed; the setter then selects a
    third one, which [localStorage] does not learn of. *)
Lemma selection_is_stored_witness :
  let s' := fst (run [CreateNewSession None (Fulfilled (js "s9")) (Failed unreachable);
                      CurrentSessionEffect (Failed unreachable);
                      RemoveSession (js "s1") (Fulfilled tt) (Failed unreachable)]
                     (mount (Some (js "s1")))) in
  stored s' = currentSessionId s'
  /\ (stored (fst (act (SetCurrentSessionId (Some (js "s2"))) s'))
      = currentSessionId (fst (act (SetCurrentSessionId (Some (js "s2"))) s'))
      <-> Some (js "s2") = currentSessionId s').
Proof.
  apply (selection_is_stored
           [CreateNewSession None (Fulfilled (js "s9")) (Failed unreachable);
            CurrentSessionEffect (Failed unreachable);
            RemoveSession (js "s1") (Fulfilled tt) (Failed unreachable)]
           (Some (js "s2")) (mount (Some (js "s1"))));
    reflexivity.
Defined.

Example raw_setter_is_not_stored :
  let s := fst (act (SetCurrentSessionId (Some (js "s2"))) (mount (Some (js "s1")))) in
  currentSessionId s = Some (js "s2") /\ stored s = Some (js "s1").
Proof. vm_compute. split; reflexivity. Qed.

End UseSessionsFacts.
